(** * SantaAdmin: text dispatch, broadcast sessions and the template store

    A shallow embedding of the message-routing core of the bot
    ([src/bot.py], run through [main.py]) and of the SQLite store behind it
    ([version2_database.py]).

    Python strings are sequences of Unicode code points, so a [str] is a
    [list N]; literals are written [u "..."], which decodes the UTF-8 bytes
    of a Rocq string.  SQLite tables are lists of rows in insertion order;
    a query without [ORDER BY] reads a table with an integer primary key
    in the order of that key.
    Handlers return the list of transport calls they make, the place where
    they returned, and the store they leave behind. *)

From Stdlib Require Import List Bool Arith ZArith NArith Lia.
From Stdlib Require Import Strings.String Strings.Ascii Numbers.DecimalString.
From Stdlib Require Import Sorting.Permutation Sorting.Sorted.
Import ListNotations.

Set Implicit Arguments.

(* ================================================================= *)
(** ** Python string primitives *)

Module Py.

Definition str := list N.

(** Decoder for literals: [pending] continuation bytes are still expected
    for the code point accumulated in [acc]. *)
Fixpoint utf8_from (s : string) (pending : nat) (acc : N) : str :=
  match s with
  | EmptyString => []
  | String a rest =>
      let b := N_of_ascii a in
      match pending with
      | O =>
          if (b <? 128)%N then b :: utf8_from rest 0 0%N
          else if (b <? 192)%N then b :: utf8_from rest 0 0%N
          else if (b <? 224)%N then utf8_from rest 1 (b - 192)%N
          else if (b <? 240)%N then utf8_from rest 2 (b - 224)%N
          else utf8_from rest 3 (b - 240)%N
      | S k =>
          let acc' := (acc * 64 + (b - 128))%N in
          match k with
          | O => acc' :: utf8_from rest 0 0%N
          | S _ => utf8_from rest k acc'
          end
      end
  end.

Definition u (s : string) : str := utf8_from s 0 0%N.

Definition str_eqb (a b : str) : bool :=
  if list_eq_dec N.eq_dec a b then true else false.

(** Truthiness of a string: [if s:]. *)
Definition truthy (s : str) : bool :=
  match s with [] => false | _ :: _ => true end.

(** [s1 or s2] on strings. *)
Definition str_or (s d : str) : str := if truthy s then s else d.

(** [str.isspace] of one code point: the characters [str.strip] and
    [str.split] treat as whitespace. *)
Definition isspace (c : N) : bool :=
  ((9 <=? c) && (c <=? 13) || (28 <=? c) && (c <=? 32)
   || (c =? 133) || (c =? 160) || (c =? 5760)
   || (8192 <=? c) && (c <=? 8202)
   || (c =? 8232) || (c =? 8233) || (c =? 8239) || (c =? 8287)
   || (c =? 12288))%N.

Fixpoint lstrip (s : str) : str :=
  match s with
  | [] => []
  | c :: rest => if isspace c then lstrip rest else s
  end.

Definition rstrip (s : str) : str := rev (lstrip (rev s)).

(** [s.strip()] *)
Definition strip (s : str) : str := rstrip (lstrip s).

(** [s.split()]: maximal runs of non-whitespace; [cur] is the run being
    read, reversed. *)
Fixpoint split_from (s : str) (cur : str) : list str :=
  match s with
  | [] => match cur with [] => [] | _ => [rev cur] end
  | c :: rest =>
      if isspace c
      then match cur with
           | [] => split_from rest []
           | _ => rev cur :: split_from rest []
           end
      else split_from rest (c :: cur)
  end.

Definition split (s : str) : list str := split_from s [].

(** [s.startswith(p)] *)
Fixpoint startswith (s p : str) : bool :=
  match p, s with
  | [], _ => true
  | _ :: _, [] => false
  | a :: p', b :: s' => (a =? b)%N && startswith s' p'
  end.

(** [s[n:]] for [0 <= n] *)
Definition slice_from (s : str) (n : nat) : str := skipn n s.

(** [s.replace(old, new)]: leftmost, non-overlapping occurrences.  [skip]
    counts the characters of a matched occurrence still to be dropped. *)
Fixpoint replace_from (old new s : str) (skip : nat) : str :=
  match s with
  | [] => []
  | c :: rest =>
      match skip with
      | S k => replace_from old new rest k
      | O =>
          if startswith s old
          then new ++ replace_from old new rest (List.length old - 1)
          else c :: replace_from old new rest 0
      end
  end.

Definition replace (s old new : str) : str :=
  match old with
  | [] => new ++ flat_map (fun c => c :: new) s
  | _ :: _ => replace_from old new s 0
  end.

(** [str.lower] and [str.upper] as CPython 3.11 has them (Unicode 14.0).

    The case mappings of single code points are kept as runs:
    [(first, last, step, target)] stands for the code points [first],
    [first + step], ... up to [last]; [first] is mapped to [target] and
    the others of the run to the code point at the same distance. *)
Definition case_run : Type := N * N * N * N.

Definition in_run (c : N) (r : case_run) : bool :=
  let '(first, last, step, _) := r in
  ((first <=? c) && (c <=? last) && ((step =? 1) || N.even (c - first)))%N.

Definition map_run (runs : list case_run) (c : N) : N :=
  match find (in_run c) runs with
  | Some (first, _, _, target) => (target + (c - first))%N
  | None => c
  end.

(** The code points with a lowercase form of their own. *)
Definition lower_runs : list case_run :=
  [(65, 90, 1, 97); (192, 214, 1, 224); (216, 222, 1, 248);
   (256, 302, 2, 257); (304, 304, 1, 105); (306, 310, 2, 307);
   (313, 327, 2, 314); (330, 374, 2, 331); (376, 376, 1, 255);
   (377, 381, 2, 378); (385, 385, 1, 595); (386, 388, 2, 387);
   (390, 390, 1, 596); (391, 391, 1, 392); (393, 394, 1, 598);
   (395, 395, 1, 396); (398, 398, 1, 477); (399, 399, 1, 601);
   (400, 400, 1, 603); (401, 401, 1, 402); (403, 403, 1, 608);
   (404, 404, 1, 611); (406, 406, 1, 617); (407, 407, 1, 616);
   (408, 408, 1, 409); (412, 412, 1, 623); (413, 413, 1, 626);
   (415, 415, 1, 629); (416, 420, 2, 417); (422, 422, 1, 640);
   (423, 423, 1, 424); (425, 425, 1, 643); (428, 428, 1, 429);
   (430, 430, 1, 648); (431, 431, 1, 432); (433, 434, 1, 650);
   (435, 437, 2, 436); (439, 439, 1, 658); (440, 440, 1, 441);
   (444, 444, 1, 445); (452, 452, 1, 454); (453, 453, 1, 454);
   (455, 455, 1, 457); (456, 456, 1, 457); (458, 458, 1, 460);
   (459, 475, 2, 460); (478, 494, 2, 479); (497, 497, 1, 499);
   (498, 500, 2, 499); (502, 502, 1, 405); (503, 503, 1, 447);
   (504, 542, 2, 505); (544, 544, 1, 414); (546, 562, 2, 547);
   (570, 570, 1, 11365); (571, 571, 1, 572); (573, 573, 1, 410);
   (574, 574, 1, 11366); (577, 577, 1, 578); (579, 579, 1, 384);
   (580, 580, 1, 649); (581, 581, 1, 652); (582, 590, 2, 583);
   (880, 882, 2, 881); (886, 886, 1, 887); (895, 895, 1, 1011);
   (902, 902, 1, 940); (904, 906, 1, 941); (908, 908, 1, 972);
   (910, 911, 1, 973); (913, 929, 1, 945); (931, 939, 1, 963);
   (975, 975, 1, 983); (984, 1006, 2, 985); (1012, 1012, 1, 952);
   (1015, 1015, 1, 1016); (1017, 1017, 1, 1010); (1018, 1018, 1, 1019);
   (1021, 1023, 1, 891); (1024, 1039, 1, 1104); (1040, 1071, 1, 1072);
   (1120, 1152, 2, 1121); (1162, 1214, 2, 1163); (1216, 1216, 1, 1231);
   (1217, 1229, 2, 1218); (1232, 1326, 2, 1233); (1329, 1366, 1, 1377);
   (4256, 4293, 1, 11520); (4295, 4295, 1, 11559); (4301, 4301, 1, 11565);
   (5024, 5103, 1, 43888); (5104, 5109, 1, 5112); (7312, 7354, 1, 4304);
   (7357, 7359, 1, 4349); (7680, 7828, 2, 7681); (7838, 7838, 1, 223);
   (7840, 7934, 2, 7841); (7944, 7951, 1, 7936); (7960, 7965, 1, 7952);
   (7976, 7983, 1, 7968); (7992, 7999, 1, 7984); (8008, 8013, 1, 8000);
   (8025, 8031, 2, 8017); (8040, 8047, 1, 8032); (8072, 8079, 1, 8064);
   (8088, 8095, 1, 8080); (8104, 8111, 1, 8096); (8120, 8121, 1, 8112);
   (8122, 8123, 1, 8048); (8124, 8124, 1, 8115); (8136, 8139, 1, 8050);
   (8140, 8140, 1, 8131); (8152, 8153, 1, 8144); (8154, 8155, 1, 8054);
   (8168, 8169, 1, 8160); (8170, 8171, 1, 8058); (8172, 8172, 1, 8165);
   (8184, 8185, 1, 8056); (8186, 8187, 1, 8060); (8188, 8188, 1, 8179);
   (8486, 8486, 1, 969); (8490, 8490, 1, 107); (8491, 8491, 1, 229);
   (8498, 8498, 1, 8526); (8544, 8559, 1, 8560); (8579, 8579, 1, 8580);
   (9398, 9423, 1, 9424); (11264, 11311, 1, 11312); (11360, 11360, 1, 11361);
   (11362, 11362, 1, 619); (11363, 11363, 1, 7549); (11364, 11364, 1, 637);
   (11367, 11371, 2, 11368); (11373, 11373, 1, 593); (11374, 11374, 1, 625);
   (11375, 11375, 1, 592); (11376, 11376, 1, 594); (11378, 11378, 1, 11379);
   (11381, 11381, 1, 11382); (11390, 11391, 1, 575);
   (11392, 11490, 2, 11393); (11499, 11501, 2, 11500);
   (11506, 11506, 1, 11507); (42560, 42604, 2, 42561);
   (42624, 42650, 2, 42625); (42786, 42798, 2, 42787);
   (42802, 42862, 2, 42803); (42873, 42875, 2, 42874);
   (42877, 42877, 1, 7545); (42878, 42886, 2, 42879);
   (42891, 42891, 1, 42892); (42893, 42893, 1, 613);
   (42896, 42898, 2, 42897); (42902, 42920, 2, 42903);
   (42922, 42922, 1, 614); (42923, 42923, 1, 604); (42924, 42924, 1, 609);
   (42925, 42925, 1, 620); (42926, 42926, 1, 618); (42928, 42928, 1, 670);
   (42929, 42929, 1, 647); (42930, 42930, 1, 669); (42931, 42931, 1, 43859);
   (42932, 42946, 2, 42933); (42948, 42948, 1, 42900);
   (42949, 42949, 1, 642); (42950, 42950, 1, 7566); (42951, 42953, 2, 42952);
   (42960, 42960, 1, 42961); (42966, 42968, 2, 42967);
   (42997, 42997, 1, 42998); (65313, 65338, 1, 65345);
   (66560, 66599, 1, 66600); (66736, 66771, 1, 66776);
   (66928, 66938, 1, 66967); (66940, 66954, 1, 66979);
   (66956, 66962, 1, 66995); (66964, 66965, 1, 67003);
   (68736, 68786, 1, 68800); (71840, 71871, 1, 71872);
   (93760, 93791, 1, 93792); (125184, 125217, 1, 125218)]%N.

(** The code points whose uppercase form is one code point. *)
Definition upper_runs : list case_run :=
  [(97, 122, 1, 65); (181, 181, 1, 924); (224, 246, 1, 192);
   (248, 254, 1, 216); (255, 255, 1, 376); (257, 303, 2, 256);
   (305, 305, 1, 73); (307, 311, 2, 306); (314, 328, 2, 313);
   (331, 375, 2, 330); (378, 382, 2, 377); (383, 383, 1, 83);
   (384, 384, 1, 579); (387, 389, 2, 386); (392, 392, 1, 391);
   (396, 396, 1, 395); (402, 402, 1, 401); (405, 405, 1, 502);
   (409, 409, 1, 408); (410, 410, 1, 573); (414, 414, 1, 544);
   (417, 421, 2, 416); (424, 424, 1, 423); (429, 429, 1, 428);
   (432, 432, 1, 431); (436, 438, 2, 435); (441, 441, 1, 440);
   (445, 445, 1, 444); (447, 447, 1, 503); (453, 453, 1, 452);
   (454, 454, 1, 452); (456, 456, 1, 455); (457, 457, 1, 455);
   (459, 459, 1, 458); (460, 460, 1, 458); (462, 476, 2, 461);
   (477, 477, 1, 398); (479, 495, 2, 478); (498, 498, 1, 497);
   (499, 499, 1, 497); (501, 501, 1, 500); (505, 543, 2, 504);
   (547, 563, 2, 546); (572, 572, 1, 571); (575, 576, 1, 11390);
   (578, 578, 1, 577); (583, 591, 2, 582); (592, 592, 1, 11375);
   (593, 593, 1, 11373); (594, 594, 1, 11376); (595, 595, 1, 385);
   (596, 596, 1, 390); (598, 599, 1, 393); (601, 601, 1, 399);
   (603, 603, 1, 400); (604, 604, 1, 42923); (608, 608, 1, 403);
   (609, 609, 1, 42924); (611, 611, 1, 404); (613, 613, 1, 42893);
   (614, 614, 1, 42922); (616, 616, 1, 407); (617, 617, 1, 406);
   (618, 618, 1, 42926); (619, 619, 1, 11362); (620, 620, 1, 42925);
   (623, 623, 1, 412); (625, 625, 1, 11374); (626, 626, 1, 413);
   (629, 629, 1, 415); (637, 637, 1, 11364); (640, 640, 1, 422);
   (642, 642, 1, 42949); (643, 643, 1, 425); (647, 647, 1, 42929);
   (648, 648, 1, 430); (649, 649, 1, 580); (650, 651, 1, 433);
   (652, 652, 1, 581); (658, 658, 1, 439); (669, 669, 1, 42930);
   (670, 670, 1, 42928); (837, 837, 1, 921); (881, 883, 2, 880);
   (887, 887, 1, 886); (891, 893, 1, 1021); (940, 940, 1, 902);
   (941, 943, 1, 904); (945, 961, 1, 913); (962, 962, 1, 931);
   (963, 971, 1, 931); (972, 972, 1, 908); (973, 974, 1, 910);
   (976, 976, 1, 914); (977, 977, 1, 920); (981, 981, 1, 934);
   (982, 982, 1, 928); (983, 983, 1, 975); (985, 1007, 2, 984);
   (1008, 1008, 1, 922); (1009, 1009, 1, 929); (1010, 1010, 1, 1017);
   (1011, 1011, 1, 895); (1013, 1013, 1, 917); (1016, 1016, 1, 1015);
   (1019, 1019, 1, 1018); (1072, 1103, 1, 1040); (1104, 1119, 1, 1024);
   (1121, 1153, 2, 1120); (1163, 1215, 2, 1162); (1218, 1230, 2, 1217);
   (1231, 1231, 1, 1216); (1233, 1327, 2, 1232); (1377, 1414, 1, 1329);
   (4304, 4346, 1, 7312); (4349, 4351, 1, 7357); (5112, 5117, 1, 5104);
   (7296, 7296, 1, 1042); (7297, 7297, 1, 1044); (7298, 7298, 1, 1054);
   (7299, 7300, 1, 1057); (7301, 7301, 1, 1058); (7302, 7302, 1, 1066);
   (7303, 7303, 1, 1122); (7304, 7304, 1, 42570); (7545, 7545, 1, 42877);
   (7549, 7549, 1, 11363); (7566, 7566, 1, 42950); (7681, 7829, 2, 7680);
   (7835, 7835, 1, 7776); (7841, 7935, 2, 7840); (7936, 7943, 1, 7944);
   (7952, 7957, 1, 7960); (7968, 7975, 1, 7976); (7984, 7991, 1, 7992);
   (8000, 8005, 1, 8008); (8017, 8023, 2, 8025); (8032, 8039, 1, 8040);
   (8048, 8049, 1, 8122); (8050, 8053, 1, 8136); (8054, 8055, 1, 8154);
   (8056, 8057, 1, 8184); (8058, 8059, 1, 8170); (8060, 8061, 1, 8186);
   (8112, 8113, 1, 8120); (8126, 8126, 1, 921); (8144, 8145, 1, 8152);
   (8160, 8161, 1, 8168); (8165, 8165, 1, 8172); (8526, 8526, 1, 8498);
   (8560, 8575, 1, 8544); (8580, 8580, 1, 8579); (9424, 9449, 1, 9398);
   (11312, 11359, 1, 11264); (11361, 11361, 1, 11360);
   (11365, 11365, 1, 570); (11366, 11366, 1, 574); (11368, 11372, 2, 11367);
   (11379, 11379, 1, 11378); (11382, 11382, 1, 11381);
   (11393, 11491, 2, 11392); (11500, 11502, 2, 11499);
   (11507, 11507, 1, 11506); (11520, 11557, 1, 4256);
   (11559, 11559, 1, 4295); (11565, 11565, 1, 4301);
   (42561, 42605, 2, 42560); (42625, 42651, 2, 42624);
   (42787, 42799, 2, 42786); (42803, 42863, 2, 42802);
   (42874, 42876, 2, 42873); (42879, 42887, 2, 42878);
   (42892, 42892, 1, 42891); (42897, 42899, 2, 42896);
   (42900, 42900, 1, 42948); (42903, 42921, 2, 42902);
   (42933, 42947, 2, 42932); (42952, 42954, 2, 42951);
   (42961, 42961, 1, 42960); (42967, 42969, 2, 42966);
   (42998, 42998, 1, 42997); (43859, 43859, 1, 42931);
   (43888, 43967, 1, 5024); (65345, 65370, 1, 65313);
   (66600, 66639, 1, 66560); (66776, 66811, 1, 66736);
   (66967, 66977, 1, 66928); (66979, 66993, 1, 66940);
   (66995, 67001, 1, 66956); (67003, 67004, 1, 66964);
   (68800, 68850, 1, 68736); (71872, 71903, 1, 71840);
   (93792, 93823, 1, 93760); (125218, 125251, 1, 125184)]%N.

(** The code points whose uppercase form has two or three code points. *)
Definition upper_special : list (N * list N) :=
  [(223, [83; 83]); (329, [700; 78]); (496, [74; 780]);
   (912, [921; 776; 769]); (944, [933; 776; 769]); (1415, [1333; 1362]);
   (7830, [72; 817]); (7831, [84; 776]); (7832, [87; 778]);
   (7833, [89; 778]); (7834, [65; 702]); (8016, [933; 787]);
   (8018, [933; 787; 768]); (8020, [933; 787; 769]); (8022, [933; 787; 834]);
   (8064, [7944; 921]); (8065, [7945; 921]); (8066, [7946; 921]);
   (8067, [7947; 921]); (8068, [7948; 921]); (8069, [7949; 921]);
   (8070, [7950; 921]); (8071, [7951; 921]); (8072, [7944; 921]);
   (8073, [7945; 921]); (8074, [7946; 921]); (8075, [7947; 921]);
   (8076, [7948; 921]); (8077, [7949; 921]); (8078, [7950; 921]);
   (8079, [7951; 921]); (8080, [7976; 921]); (8081, [7977; 921]);
   (8082, [7978; 921]); (8083, [7979; 921]); (8084, [7980; 921]);
   (8085, [7981; 921]); (8086, [7982; 921]); (8087, [7983; 921]);
   (8088, [7976; 921]); (8089, [7977; 921]); (8090, [7978; 921]);
   (8091, [7979; 921]); (8092, [7980; 921]); (8093, [7981; 921]);
   (8094, [7982; 921]); (8095, [7983; 921]); (8096, [8040; 921]);
   (8097, [8041; 921]); (8098, [8042; 921]); (8099, [8043; 921]);
   (8100, [8044; 921]); (8101, [8045; 921]); (8102, [8046; 921]);
   (8103, [8047; 921]); (8104, [8040; 921]); (8105, [8041; 921]);
   (8106, [8042; 921]); (8107, [8043; 921]); (8108, [8044; 921]);
   (8109, [8045; 921]); (8110, [8046; 921]); (8111, [8047; 921]);
   (8114, [8122; 921]); (8115, [913; 921]); (8116, [902; 921]);
   (8118, [913; 834]); (8119, [913; 834; 921]); (8124, [913; 921]);
   (8130, [8138; 921]); (8131, [919; 921]); (8132, [905; 921]);
   (8134, [919; 834]); (8135, [919; 834; 921]); (8140, [919; 921]);
   (8146, [921; 776; 768]); (8147, [921; 776; 769]); (8150, [921; 834]);
   (8151, [921; 776; 834]); (8162, [933; 776; 768]); (8163, [933; 776; 769]);
   (8164, [929; 787]); (8166, [933; 834]); (8167, [933; 776; 834]);
   (8178, [8186; 921]); (8179, [937; 921]); (8180, [911; 921]);
   (8182, [937; 834]); (8183, [937; 834; 921]); (8188, [937; 921]);
   (64256, [70; 70]); (64257, [70; 73]); (64258, [70; 76]);
   (64259, [70; 70; 73]); (64260, [70; 70; 76]); (64261, [83; 84]);
   (64262, [83; 84]); (64275, [1348; 1350]); (64276, [1348; 1333]);
   (64277, [1348; 1339]); (64278, [1358; 1350]); (64279, [1348; 1341])]%N.

(** [str.lower] works code point by code point with two exceptions, which
    this definition does not follow: U+0130 has a lowercase form of two
    code points, U+0069 U+0307 (here U+0069 alone), and U+03A3 at the end
    of a word becomes U+03C2 (here U+03C3 everywhere). *)
Definition lower_cp (c : N) : N := map_run lower_runs c.

Definition lower (s : str) : str := map lower_cp s.

(** [str.upper] works code point by code point. *)
Definition upper_cp (c : N) : list N :=
  match find (fun p => (fst p =? c)%N) upper_special with
  | Some p => snd p
  | None => [map_run upper_runs c]
  end.

Definition upper (s : str) : str := flat_map upper_cp s.

(** [s.lstrip('/')] *)
Fixpoint lstrip_slash (s : str) : str :=
  match s with
  | c :: rest => if (c =? 47)%N then lstrip_slash rest else s
  | [] => []
  end.

(** [str(n)] for an integer. *)
Definition str_of_Z (z : Z) : str :=
  map N_of_ascii (list_ascii_of_string (NilZero.string_of_int (Z.to_int z))).

(** [" ".join(parts)] *)
Fixpoint join_space (parts : list str) : str :=
  match parts with
  | [] => []
  | [p] => p
  | p :: rest => p ++ 32%N :: join_space rest
  end.

(** Code point order, the order of SQLite's BINARY collation on UTF-8. *)
Fixpoint str_leb (a b : str) : bool :=
  match a, b with
  | [], _ => true
  | _ :: _, [] => false
  | x :: a', y :: b' =>
      if (x <? y)%N then true
      else if (y <? x)%N then false
      else str_leb a' b'
  end.

End Py.

Import Py.

(* ================================================================= *)
(** ** The regular expressions of [handle_text_commands] *)

Module Re.

Definition in_range (lo hi c : N) : bool := ((lo <=? c) && (c <=? hi))%N.

Definition is_digit (c : N) : bool := in_range 48 57 c.

(** [[a-zA-Z0-9_]] *)
Definition is_uname_char (c : N) : bool :=
  in_range 97 122 c || in_range 65 90 c || is_digit c || (c =? 95)%N.

(** The longest run of at most [n] leading characters satisfying [p]. *)
Fixpoint take_run (p : N -> bool) (n : nat) (s : str) : str :=
  match n, s with
  | S k, c :: rest => if p c then c :: take_run p k rest else []
  | _, _ => []
  end.

(** [re.search(r'@([a-zA-Z0-9_]{5,32})', s)], giving [group(1)] of the
    leftmost match. *)
Fixpoint search_username (s : str) : option str :=
  match s with
  | [] => None
  | c :: rest =>
      if (c =? 64)%N
      then let run := take_run is_uname_char 32 rest in
           if 5 <=? List.length run then Some run else search_username rest
      else search_username rest
  end.

(** Matching one literal character under [re.IGNORECASE]. *)
Definition ci_eq (p c : N) : bool := (lower_cp p =? lower_cp c)%N.

Fixpoint ci_prefix (p s : str) : option str :=
  match p, s with
  | [], _ => Some s
  | _ :: _, [] => None
  | a :: p', b :: s' => if ci_eq a b then ci_prefix p' s' else None
  end.

(** [[A-F0-9]], and the same class under [re.IGNORECASE]. *)
Definition is_hex_upper (c : N) : bool := is_digit c || in_range 65 70 c.
Definition is_hex_ci (c : N) : bool := is_hex_upper c || in_range 97 102 c.

Definition code_at (s : str) : option str :=
  match ci_prefix (u "код:") s with
  | None => None
  | Some rest =>
      let run := take_run is_hex_ci 12 (lstrip rest) in
      if List.length run =? 12 then Some run else None
  end.

(** [re.search(r'код:\s*([A-F0-9]{12})', s, re.IGNORECASE)], giving
    [group(1)]. *)
Fixpoint search_code (s : str) : option str :=
  match code_at s with
  | Some code => Some code
  | None => match s with
            | [] => None
            | _ :: rest => search_code rest
            end
  end.

(** [re.match(r'^[A-F0-9]{12}$', s)]; [$] also matches before a final
    newline. *)
Definition match_bare_code (s : str) : bool :=
  let run := take_run is_hex_upper 12 s in
  (List.length run =? 12)
  && match skipn 12 s with
     | [] => true
     | [c] => (c =? 10)%N
     | _ => false
     end.

End Re.

(* ================================================================= *)
(** ** The SQLite store ([version2_database.py]) *)

Module Db.

(** Truthiness of an [Optional[str]] and of an [Optional[int]]. *)
Definition opt_truthy (o : option str) : bool :=
  match o with Some s => truthy s | None => false end.

Definition id_truthy (o : option Z) : bool :=
  match o with Some z => negb (z =? 0)%Z | None => false end.

(** *** Rows *)

Record role_row := {
  role_user_id : Z; role_name : str; role_added_by : option Z;
  role_added_at : str; role_full_name : option str;
  role_username : option str }.

Record online_mode_row := {
  om_user_id : Z; om_mode : str; om_started_at : str;
  om_last_activity : str; om_source_chat_id : option Z }.

(** The columns of [users] the dispatch reads; the others (join dates,
    inviter, birth date) are carried by no modelled query. *)
Record user_row := {
  usr_user_id : Z; usr_username : option str; usr_full_name : option str;
  usr_joined_at : option str }.

Record say_block_row := {
  sb_user_id : Z; sb_blocked_by : Z; sb_blocked_at : str }.

Record custom_name_row := {
  cn_user_id : Z; cn_custom_name : str; cn_set_at : str }.

Record alias_row := {
  al_id : Z; al_chat_id : Z; al_alias_name : str; al_target_command : str;
  al_created_by : Z; al_created_at : str }.

Record personal_command_row := {
  pc_id : Z; pc_chat_id : Z; pc_command_name : str; pc_template_text : str;
  pc_created_by : Z; pc_created_at : str }.

Record media_row := {
  pm_id : Z; pm_command_id : Z; pm_media_type : str; pm_file_id : str;
  pm_created_at : str }.

(** The database file: one list per table, in insertion order, and the
    AUTOINCREMENT counters of [sqlite_sequence]. *)
Record database := {
  roles : list role_row;
  online_modes : list online_mode_row;
  users : list user_row;
  say_blocks : list say_block_row;
  custom_names : list custom_name_row;
  command_aliases : list alias_row;
  personal_commands : list personal_command_row;
  personal_command_media : list media_row;
  seq_command_aliases : Z;
  seq_personal_commands : Z;
  seq_personal_command_media : Z }.

Definition empty_db : database :=
  {| roles := []; online_modes := []; users := []; say_blocks := [];
     custom_names := []; command_aliases := []; personal_commands := [];
     personal_command_media := []; seq_command_aliases := 0;
     seq_personal_commands := 0; seq_personal_command_media := 0 |}.

Definition with_online_modes (d : database) (t : list online_mode_row) :=
  {| roles := roles d; online_modes := t; users := users d;
     say_blocks := say_blocks d; custom_names := custom_names d;
     command_aliases := command_aliases d;
     personal_commands := personal_commands d;
     personal_command_media := personal_command_media d;
     seq_command_aliases := seq_command_aliases d;
     seq_personal_commands := seq_personal_commands d;
     seq_personal_command_media := seq_personal_command_media d |}.

Definition with_users (d : database) (t : list user_row) :=
  {| roles := roles d; online_modes := online_modes d; users := t;
     say_blocks := say_blocks d; custom_names := custom_names d;
     command_aliases := command_aliases d;
     personal_commands := personal_commands d;
     personal_command_media := personal_command_media d;
     seq_command_aliases := seq_command_aliases d;
     seq_personal_commands := seq_personal_commands d;
     seq_personal_command_media := seq_personal_command_media d |}.

Definition with_command_aliases (d : database) (t : list alias_row) (q : Z) :=
  {| roles := roles d; online_modes := online_modes d; users := users d;
     say_blocks := say_blocks d; custom_names := custom_names d;
     command_aliases := t;
     personal_commands := personal_commands d;
     personal_command_media := personal_command_media d;
     seq_command_aliases := q;
     seq_personal_commands := seq_personal_commands d;
     seq_personal_command_media := seq_personal_command_media d |}.

Definition with_personal_commands (d : database)
    (t : list personal_command_row) (m : list media_row) (q : Z) :=
  {| roles := roles d; online_modes := online_modes d; users := users d;
     say_blocks := say_blocks d; custom_names := custom_names d;
     command_aliases := command_aliases d;
     personal_commands := t;
     personal_command_media := m;
     seq_command_aliases := seq_command_aliases d;
     seq_personal_commands := q;
     seq_personal_command_media := seq_personal_command_media d |}.

Definition with_media (d : database) (m : list media_row) (q : Z) :=
  {| roles := roles d; online_modes := online_modes d; users := users d;
     say_blocks := say_blocks d; custom_names := custom_names d;
     command_aliases := command_aliases d;
     personal_commands := personal_commands d;
     personal_command_media := m;
     seq_command_aliases := seq_command_aliases d;
     seq_personal_commands := seq_personal_commands d;
     seq_personal_command_media := q |}.

(** *** Connections

    [get_connection] is [sqlite3.connect(self.db_path)] and nothing more.
    A fresh SQLite connection does not enforce foreign keys: the
    [ON DELETE CASCADE] of [personal_command_media] takes effect only on a
    connection that has run [PRAGMA foreign_keys = ON]. *)
Record connection := { foreign_keys : bool }.

Definition sqlite3_connect : connection := {| foreign_keys := false |}.

Definition get_connection : connection := sqlite3_connect.

(** *** Scans

    A [SELECT] without [ORDER BY] that no index serves reads the table
    row by row in the order of the rowid, which for a table with an
    [INTEGER PRIMARY KEY] is that key. *)
Fixpoint insert_by_rowid {A : Type} (key : A -> Z) (x : A) (l : list A)
    : list A :=
  match l with
  | [] => [x]
  | y :: rest =>
      if (key x <=? key y)%Z then x :: l
      else y :: insert_by_rowid key x rest
  end.

Definition by_rowid {A : Type} (key : A -> Z) (l : list A) : list A :=
  fold_right (insert_by_rowid key) [] l.

(** *** roles *)

Definition get_role (d : database) (user_id : Z) : option str :=
  match find (fun r => (role_user_id r =? user_id)%Z) (roles d) with
  | Some r => Some (role_name r)
  | None => None
  end.

(** *** online_modes: [user_id INTEGER PRIMARY KEY] *)

(** [INSERT OR REPLACE]: the row in conflict on the primary key is deleted,
    then the new row is inserted. *)
Definition set_online_mode (d : database) (now : str) (user_id : Z)
    (mode : str) (source_chat_id : option Z) : database :=
  let row := {| om_user_id := user_id; om_mode := mode; om_started_at := now;
                om_last_activity := now;
                om_source_chat_id := source_chat_id |} in
  with_online_modes d
    (filter (fun r => negb (om_user_id r =? user_id)%Z) (online_modes d)
     ++ [row]).

Definition update_online_activity (d : database) (now : str) (user_id : Z)
    : database :=
  with_online_modes d
    (map (fun r =>
            if (om_user_id r =? user_id)%Z
            then {| om_user_id := om_user_id r; om_mode := om_mode r;
                    om_started_at := om_started_at r;
                    om_last_activity := now;
                    om_source_chat_id := om_source_chat_id r |}
            else r)
         (online_modes d)).

Definition get_online_mode (d : database) (user_id : Z) : option str :=
  match find (fun r => (om_user_id r =? user_id)%Z) (online_modes d) with
  | Some r => Some (om_mode r)
  | None => None
  end.

Definition get_online_mode_source (d : database) (user_id : Z) : option Z :=
  match find (fun r => (om_user_id r =? user_id)%Z) (online_modes d) with
  | Some r => om_source_chat_id r
  | None => None
  end.

Definition remove_online_mode (d : database) (user_id : Z) : database :=
  with_online_modes d
    (filter (fun r => negb (om_user_id r =? user_id)%Z) (online_modes d)).

Definition clear_all_online_modes (d : database) : database :=
  with_online_modes d [].

(** *** users *)

Definition add_or_update_user (d : database) (now : str) (user_id : Z)
    (username full_name : str) : database :=
  match find (fun r => (usr_user_id r =? user_id)%Z) (users d) with
  | Some _ =>
      with_users d
        (map (fun r =>
                if (usr_user_id r =? user_id)%Z
                then {| usr_user_id := usr_user_id r;
                        usr_username := if truthy username
                                        then Some username
                                        else usr_username r;
                        usr_full_name := if truthy full_name
                                         then Some full_name
                                         else usr_full_name r;
                        usr_joined_at := usr_joined_at r |}
                else r)
             (users d))
  | None =>
      with_users d
        (users d ++ [{| usr_user_id := user_id; usr_username := Some username;
                        usr_full_name := Some full_name;
                        usr_joined_at := Some now |}])
  end.

(** SQLite's [LOWER] folds the 26 ASCII letters only. *)
Definition sqlite_lower_cp (c : N) : N :=
  if ((65 <=? c) && (c <=? 90))%N then (c + 32)%N else c.

Definition sqlite_lower (s : str) : str := map sqlite_lower_cp s.

(** [x LIKE pattern]: [%] matches any run, [_] any one character, any
    other character itself up to ASCII case. *)
Fixpoint like (pattern : str) : str -> bool :=
  match pattern with
  | [] => fun s => match s with [] => true | _ :: _ => false end
  | c :: p' =>
      if (c =? 37)%N
      then fix any_run (s : str) : bool :=
             like p' s
             || match s with [] => false | _ :: s' => any_run s' end
      else fun s =>
             match s with
             | [] => false
             | x :: s' =>
                 ((c =? 95)%N || (sqlite_lower_cp c =? sqlite_lower_cp x)%N)
                 && like p' s'
             end
  end.

(** A comparison with a NULL column selects no row. *)
Definition username_is (r : user_row) (wanted : str) : bool :=
  match usr_username r with
  | Some n => str_eqb (sqlite_lower n) (sqlite_lower wanted)
  | None => false
  end.

Definition username_like (r : user_row) (pattern : str) : bool :=
  match usr_username r with
  | Some n => like (sqlite_lower pattern) (sqlite_lower n)
  | None => false
  end.

Definition first_of {A : Type} (a b : option A) : option A :=
  match a with Some _ => a | None => b end.

(** The three attempts of [get_user_by_username]: the name itself, the
    name behind [@], then the name anywhere inside a stored one. *)
Definition get_user_by_username (d : database) (username : str)
    : option user_row :=
  let rows := by_rowid usr_user_id (users d) in
  first_of (find (fun r => username_is r username) rows)
    (first_of (find (fun r => username_is r (64%N :: username)) rows)
       (find (fun r => username_like r (37%N :: username ++ [37%N]))
             rows)).

(** *** say_blocks and custom_names *)

Definition is_say_blocked (d : database) (user_id : Z) : bool :=
  existsb (fun r => (sb_user_id r =? user_id)%Z) (say_blocks d).

Definition get_custom_name (d : database) (user_id : Z) : option str :=
  match find (fun r => (cn_user_id r =? user_id)%Z) (custom_names d) with
  | Some r => Some (cn_custom_name r)
  | None => None
  end.

(** *** command_aliases: [UNIQUE(chat_id, alias_name)] *)

Definition alias_key (chat_id : Z) (name : str) (r : alias_row) : bool :=
  (al_chat_id r =? chat_id)%Z && str_eqb (al_alias_name r) name.

Definition add_command_alias (d : database) (now : str) (chat_id : Z)
    (alias_name target_command : str) (created_by : Z) : database :=
  let id := (seq_command_aliases d + 1)%Z in
  let name := lower alias_name in
  with_command_aliases d
    (filter (fun r => negb (alias_key chat_id name r)) (command_aliases d)
     ++ [{| al_id := id; al_chat_id := chat_id; al_alias_name := name;
            al_target_command := target_command;
            al_created_by := created_by; al_created_at := now |}])
    id.

Definition get_command_alias (d : database) (chat_id : Z) (alias_name : str)
    : option str :=
  match find (alias_key chat_id (lower alias_name)) (command_aliases d) with
  | Some r => Some (al_target_command r)
  | None => None
  end.

Definition delete_command_alias (d : database) (chat_id : Z)
    (alias_name : str) : database :=
  with_command_aliases d
    (filter (fun r => negb (alias_key chat_id (lower alias_name) r))
            (command_aliases d))
    (seq_command_aliases d).

(** *** personal_commands and personal_command_media *)

Definition command_key (chat_id : Z) (name : str) (r : personal_command_row)
    : bool :=
  (pc_chat_id r =? chat_id)%Z && str_eqb (pc_command_name r) name.

(** [DELETE FROM personal_commands WHERE chat_id = ? AND command_name = ?]
    on connection [c].  The child rows of [personal_command_media] follow
    their parent only when [c] enforces foreign keys. *)
Definition sql_delete_personal_commands (c : connection) (d : database)
    (chat_id : Z) (name : str)
    : list personal_command_row * list media_row :=
  let gone := filter (command_key chat_id name) (personal_commands d) in
  let kept := filter (fun r => negb (command_key chat_id name r))
                     (personal_commands d) in
  let media :=
    if foreign_keys c
    then filter (fun m => negb (existsb (fun r => (pc_id r =? pm_command_id m)%Z)
                                        gone))
                (personal_command_media d)
    else personal_command_media d in
  (kept, media).

Definition add_personal_command (d : database) (now : str) (chat_id : Z)
    (command_name template_text : str) (created_by : Z) : database * option Z :=
  let c := get_connection in
  let name := lower command_name in
  let id := (seq_personal_commands d + 1)%Z in
  let '(kept, media) := sql_delete_personal_commands c d chat_id name in
  let d' :=
    with_personal_commands d
      (kept ++ [{| pc_id := id; pc_chat_id := chat_id;
                   pc_command_name := name;
                   pc_template_text := template_text;
                   pc_created_by := created_by; pc_created_at := now |}])
      media id in
  (d', match find (command_key chat_id name) (personal_commands d') with
       | Some r => Some (pc_id r)
       | None => None
       end).

(** The dictionaries returned to the bot: [name], [template], [id]. *)
Record command_info := {
  ci_name : str; ci_template : str; ci_id : Z }.

Definition get_personal_command (d : database) (chat_id : Z)
    (command_name : str) : option (Z * str) :=
  match find (command_key chat_id (lower command_name))
             (personal_commands d) with
  | Some r => Some (pc_id r, pc_template_text r)
  | None => None
  end.

Definition delete_personal_command (d : database) (chat_id : Z)
    (command_name : str) : database * bool :=
  let c := get_connection in
  let '(kept, media) :=
    sql_delete_personal_commands c d chat_id (lower command_name) in
  (with_personal_commands d kept media (seq_personal_commands d), true).

(** [ORDER BY command_name]: insertion into a list sorted by code points. *)
Fixpoint insert_by_name (r : personal_command_row)
    (l : list personal_command_row) : list personal_command_row :=
  match l with
  | [] => [r]
  | x :: rest =>
      if str_leb (pc_command_name r) (pc_command_name x)
      then r :: l
      else x :: insert_by_name r rest
  end.

Definition order_by_name (l : list personal_command_row)
    : list personal_command_row :=
  fold_right insert_by_name [] l.

Definition get_all_personal_commands (d : database) (chat_id : Z)
    : list command_info :=
  map (fun r => {| ci_name := pc_command_name r;
                   ci_template := pc_template_text r; ci_id := pc_id r |})
      (order_by_name
         (filter (fun r => (pc_chat_id r =? chat_id)%Z)
                 (personal_commands d))).

Definition add_personal_command_media (d : database) (now : str)
    (command_id : Z) (media_type file_id : str) : database * bool :=
  let id := (seq_personal_command_media d + 1)%Z in
  (with_media d
     (personal_command_media d
      ++ [{| pm_id := id; pm_command_id := command_id;
             pm_media_type := media_type; pm_file_id := file_id;
             pm_created_at := now |}])
     id, true).

Fixpoint insert_by_created (m : media_row) (l : list media_row)
    : list media_row :=
  match l with
  | [] => [m]
  | x :: rest =>
      if str_leb (pm_created_at m) (pm_created_at x)
      then m :: l
      else x :: insert_by_created m rest
  end.

(** [... WHERE command_id = ? ORDER BY created_at], and [None] for an
    empty result. *)
Definition get_personal_command_media (d : database) (command_id : Z)
    : option (list media_row) :=
  match fold_right insert_by_created []
          (filter (fun m => (pm_command_id m =? command_id)%Z)
                  (personal_command_media d)) with
  | [] => None
  | rows => Some rows
  end.

Definition delete_personal_command_media (d : database) (media_id : Z)
    : database * bool :=
  (with_media d
     (filter (fun m => negb (pm_id m =? media_id)%Z)
             (personal_command_media d))
     (seq_personal_command_media d), true).

End Db.

(* ================================================================= *)
(** ** The bot ([src/bot.py]) *)

Module Bot.

Import Db.

(** *** Configuration and Telegram objects *)

Record config := {
  OWNER_IDS : list Z;
  USER_CHAT_ID : option Z;
  LOG_CHANNEL_ID : option Z;
  (** the keys of [COMMAND_HANDLERS] *)
  COMMAND_HANDLERS : list str;
  (** the names bound at module level, as [globals()] sees them *)
  module_globals : list str }.

Record tg_user := {
  user_id : Z; full_name : str; username : option str }.

(** What [context.bot.get_chat] returns. *)
Record tg_chat := { chat_id : Z; first_name : option str }.

Record replied_message := { from_user : option tg_user }.

Record message := {
  text : option str;
  caption : option str;
  message_id : Z;
  reply_to_message : option replied_message }.

Record update := {
  upd_message : option message;
  effective_user : option tg_user;
  effective_chat : option Z }.

(** What a handler draws from outside the store: the directory service of
    the platform ([None] when the call raises), the draw of
    [random.choice], the clock. *)
Record world := {
  get_chat : str -> option tg_chat;
  random_draw : nat;
  now : str }.

(** The calls a handler makes on the transport and on other handlers, in
    order.  [Call c args] runs the handler [c_command] with [context.args]
    set to [args] ([None]: left as the dispatcher set it); what the callee
    does in turn is its own result, not the caller's.  The transport takes
    every call: the [except] branches, which log the failure or repeat a
    caption as plain text, are not entered. *)
Inductive action :=
| DeleteMessage
| ReplyText (body : str)
| SendPhoto (chat : Z) (file body : str)
| SendAnimation (chat : Z) (file body : str)
| SendVideo (chat : Z) (file body : str)
| SendSticker (chat : Z) (file : str)
| SendMessage (chat : Z) (body : str)
| ForwardMessage (chat from_chat msg : Z)
| ReplyAndDelete (body : str)
| Call (command : str) (args : option (list str))
| ProcessBackupImport (code : str).

(** The [return] at which [handle_text_commands] left. *)
Inductive stage :=
| AtGuard | AtTemplate | AtGate | AtSession | AtPhrase | AtRestore
| AtAlias | AtEnd
| Crashed (** [update.effective_chat] is [None] where its [id] is read *).

Record result := {
  ended : stage;
  actions : list action;
  store : database }.

Definition nl : str := [10%N].

Definition unknown : str := u "Невідомий".

Definition mem_str (s : str) (l : list str) : bool :=
  existsb (str_eqb s) l.

(** *** Roles *)

Definition is_owner (cfg : config) (uid : Z) : bool :=
  existsb (Z.eqb uid) (OWNER_IDS cfg).

Definition role_is (d : database) (uid : Z) (role : str) : bool :=
  match get_role d uid with
  | Some r => str_eqb r role
  | None => false
  end.

Definition is_head_admin (d : database) (uid : Z) : bool :=
  role_is d uid (u "head_admin").

Definition is_gnome (d : database) (uid : Z) : bool :=
  role_is d uid (u "gnome").

Definition can_use_bot (cfg : config) (d : database) (uid : Z) : bool :=
  is_owner cfg uid || is_head_admin d uid || is_gnome d uid.

Definition can_ban_mute (cfg : config) (d : database) (uid : Z) : bool :=
  is_owner cfg uid || is_head_admin d uid.

(** *** Helpers *)

Definition get_display_name (d : database) (uid : Z)
    (default_name : option str) : str :=
  match get_custom_name d uid with
  | Some n => if truthy n then n
              else match default_name with
                   | Some s => str_or s unknown
                   | None => unknown
                   end
  | None => match default_name with
            | Some s => str_or s unknown
            | None => unknown
            end
  end.

(** The three [re.sub] calls of [safe_send_message] delete the characters
    of [<>&], [@#] and [[]]. *)
Definition is_unsafe (c : N) : bool :=
  ((c =? 60) || (c =? 62) || (c =? 38) || (c =? 64) || (c =? 35)
   || (c =? 91) || (c =? 93))%N.

Definition safe_send_message (s : str) : str :=
  if truthy s then strip (filter (fun c => negb (is_unsafe c)) s) else [].

Definition mention (uid : Z) (name : str) : str :=
  u "<a href='tg://user?id=" ++ str_of_Z uid ++ u "'>" ++ name ++ u "</a>".

Definition log_to_channel (cfg : config) (body : str) : list action :=
  match LOG_CHANNEL_ID cfg with
  | Some c => if (c =? 0)%Z then [] else [SendMessage c body]
  | None => []
  end.

Definition save_user_from_update (w : world) (d : database) (upd : update)
    : database :=
  match effective_user upd with
  | None => d
  | Some usr =>
      add_or_update_user d (now w) (user_id usr)
        (match username usr with Some n => n | None => [] end)
        (full_name usr)
  end.

Definition sayon : str := u "sayon".
Definition sayson : str := u "sayson".

Definition mode_is (m : option str) (wanted : str) : bool :=
  match m with Some s => str_eqb s wanted | None => false end.

Definition role_text (cfg : config) (d : database) (uid : Z) : str :=
  if is_owner cfg uid then u "Власник"
  else if is_head_admin d uid then u "Головний адмін"
  else u "Гном".

Definition no_access : str := u "❌ У вас немає доступу до цієї команди!".

(** *** The toggles *)

Definition sayon_command (cfg : config) (w : world) (d0 : database)
    (upd : update) : database * list action :=
  let d := save_user_from_update w d0 upd in
  match effective_user upd, upd_message upd with
  | Some usr, Some _ =>
      let uid := user_id usr in
      if negb (can_use_bot cfg d uid) then (d, [ReplyAndDelete no_access])
      else if is_say_blocked d uid
      then (d, [ReplyAndDelete
                  (u "❌ Вашу можливість використання sayon заблоковано!")])
      else
        let current_mode := get_online_mode d uid in
        let admin_name := safe_send_message (str_or (full_name usr) unknown) in
        let admin_username :=
          if opt_truthy (username usr)
          then 64%N :: match username usr with Some n => n | None => [] end
          else [] in
        let who := mention uid admin_name ++ u " " ++ admin_username
                   ++ u " [" ++ str_of_Z uid ++ u "]" in
        if mode_is current_mode sayon
        then
          (remove_online_mode d uid,
           ReplyAndDelete (u "✅ Режим sayon вимкнено")
           :: log_to_channel cfg
                (u "Власник/Адмін" ++ nl ++ who ++ nl
                 ++ u "Автоматичне пересилання з підписом вимкнено" ++ nl
                 ++ u "#sayoff #id" ++ str_of_Z uid))
        else
          let source_chat_id :=
            match effective_chat upd with Some c => c | None => 0%Z end in
          (set_online_mode d (now w) uid sayon (Some source_chat_id),
           ReplyAndDelete
             (u "✅ Режим sayon увімкнено! Ваші повідомлення будуть автоматично пересилатися з підписом."
              ++ nl
              ++ u "Режим вимкнеться автоматично через 5 хвилин неактивності.")
           :: log_to_channel cfg
                (role_text cfg d uid ++ nl ++ who ++ nl
                 ++ u "Автоматичне пересилання з підписом увімкнено" ++ nl
                 ++ u "#sayon #id" ++ str_of_Z uid))
  | _, _ => (d, [])
  end.

Definition sayson_command (cfg : config) (w : world) (d0 : database)
    (upd : update) : database * list action :=
  let d := save_user_from_update w d0 upd in
  match effective_user upd, upd_message upd with
  | Some usr, Some _ =>
      let uid := user_id usr in
      if negb (can_use_bot cfg d uid) then (d, [ReplyAndDelete no_access])
      else if is_say_blocked d uid
      then (d, [ReplyAndDelete
                  (u "❌ Вашу можливість використання sayson заблоковано!")])
      else
        let current_mode := get_online_mode d uid in
        let admin_name := safe_send_message (str_or (full_name usr) unknown) in
        let admin_username :=
          if opt_truthy (username usr)
          then u "(@" ++ match username usr with Some n => n | None => [] end
               ++ u ")"
          else [] in
        let who := admin_name ++ u " " ++ admin_username
                   ++ u " [" ++ str_of_Z uid ++ u "]" in
        if mode_is current_mode sayson
        then
          (remove_online_mode d uid,
           ReplyAndDelete (u "✅ Режим sayson вимкнено")
           :: log_to_channel cfg
                (u "Власник/Адмін" ++ nl ++ who ++ nl
                 ++ u "Автоматичне пересилання без підпису вимкнено" ++ nl
                 ++ u "#saysoff #id" ++ str_of_Z uid))
        else
          let source_chat_id :=
            match effective_chat upd with Some c => c | None => 0%Z end in
          (set_online_mode d (now w) uid sayson (Some source_chat_id),
           ReplyAndDelete
             (u "✅ Режим sayson увімкнено! Ваші повідомлення будуть автоматично пересилатися анонімно."
              ++ nl
              ++ u "Режим вимкнеться автоматично через 5 хвилин неактивності.")
           :: log_to_channel cfg
                (role_text cfg d uid ++ nl ++ who ++ nl
                 ++ u "Автоматичне пересилання без підпису увімкнено" ++ nl
                 ++ u "#sayson #id" ++ str_of_Z uid))
  | _, _ => (d, [])
  end.

Definition sayoff_command (cfg : config) (w : world) (d0 : database)
    (upd : update) : database * list action :=
  let d := save_user_from_update w d0 upd in
  match effective_user upd, upd_message upd with
  | Some usr, Some _ =>
      let uid := user_id usr in
      if negb (can_use_bot cfg d uid) then (d, [ReplyAndDelete no_access])
      else
        let current_mode := get_online_mode d uid in
        if negb (opt_truthy current_mode)
        then (d, [ReplyAndDelete (u "❌ Режим не вмикнено!")])
        else
          let admin_name :=
            safe_send_message (str_or (full_name usr) unknown) in
          let admin_username :=
            if opt_truthy (username usr)
            then u "(@" ++ match username usr with Some n => n | None => [] end
                 ++ u ")"
            else [] in
          let mode_text := if mode_is current_mode sayon
                           then u "з підписом" else u "анонімно" in
          (remove_online_mode d uid,
           ReplyAndDelete (u "✅ Режим вимкнено")
           :: log_to_channel cfg
                (u "Власник/Адмін" ++ nl
                 ++ mention uid admin_name ++ u " " ++ admin_username
                 ++ u " [" ++ str_of_Z uid ++ u "]" ++ nl
                 ++ u "Автоматичне пересилання " ++ mode_text
                 ++ u " вимкнено" ++ nl
                 ++ u "#sayoff #id" ++ str_of_Z uid))
  | _, _ => (d, [])
  end.

(** *** Forwarding under a session *)

(** [f"\n\n— {author_name} {username}"] *)
Definition signature (usr : tg_user) : str :=
  let author_name := safe_send_message (str_or (full_name usr) unknown) in
  let handle :=
    if opt_truthy (username usr)
    then 64%N :: safe_send_message
                   (match username usr with Some n => n | None => [] end)
    else [] in
  nl ++ nl ++ u "— " ++ author_name ++ u " " ++ handle.

(** The [try] block of [handle_all_messages]: what is sent to the
    broadcast chat [dest] for a message under [mode]. *)
Definition forward_under_mode (mode : option str) (usr : tg_user)
    (msg : message) (dest chat : Z) : list action :=
  if mode_is mode sayon
  then
    if opt_truthy (text msg)
    then [SendMessage dest
            (safe_send_message
               (match text msg with Some t => t | None => [] end)
             ++ signature usr)]
    else if opt_truthy (caption msg)
    then [SendMessage dest
            (safe_send_message
               (match caption msg with Some t => t | None => [] end)
             ++ signature usr)]
    else [ForwardMessage dest chat (message_id msg);
          SendMessage dest (strip (signature usr))]
  else if mode_is mode sayson
  then
    if opt_truthy (text msg)
    then [SendMessage dest
            (safe_send_message
               (match text msg with Some t => t | None => [] end))]
    else if opt_truthy (caption msg)
    then [SendMessage dest
            (safe_send_message
               (match caption msg with Some t => t | None => [] end))]
    else [ForwardMessage dest chat (message_id msg)]
  else [].

(** The profile commands typed as plain text behind a dash. *)
Definition dash_command (msg : message) : option action :=
  match text msg with
  | Some t =>
      if truthy t && startswith t (u "-")
      then
        if str_eqb (strip t) (u "-myname")
        then Some (Call (u "del_myname") None)
        else if str_eqb (strip t) (u "-mym")
        then Some (Call (u "del_mym") None)
        else if str_eqb (strip t) (u "-mymt")
        then Some (Call (u "del_mymt") None)
        else None
      else None
  | None => None
  end.

Definition handle_all_messages (cfg : config) (w : world) (d0 : database)
    (upd : update) : database * list action :=
  match effective_user upd, upd_message upd, effective_chat upd with
  | Some usr, Some msg, Some chat =>
      let d := save_user_from_update w d0 upd in
      let uid := user_id usr in
      if negb (can_use_bot cfg d uid) then (d, [])
      else
        match dash_command msg with
        | Some call => (d, [call])
        | None =>
            if negb (id_truthy (USER_CHAT_ID cfg)) then (d, [])
            else
              let dest :=
                match USER_CHAT_ID cfg with Some c => c | None => 0%Z end in
              let mode := get_online_mode d uid in
              let source_chat_id := get_online_mode_source d uid in
              if negb (opt_truthy mode) then (d, [])
              else if negb (is_owner cfg uid)
                      && negb (match source_chat_id with
                               | Some s => (s =? chat)%Z
                               | None => false
                               end)
              then (d, [])
              else (update_online_activity d (now w) uid,
                    forward_under_mode mode usr msg dest chat)
        end
  | _, _, _ => (d0, [])
  end.

(** *** The text dispatch *)

(** [len(x['name'].split())] *)
Definition word_count (c : command_info) : nat :=
  List.length (split (ci_name c)).

(** [all_commands.sort(key=..., reverse=True)].  Python's sort is stable,
    also under [reverse=True]: [c] goes before the first command whose key
    is not greater than its own. *)
Fixpoint insert_desc (c : command_info) (l : list command_info)
    : list command_info :=
  match l with
  | [] => [c]
  | x :: rest =>
      if word_count c <? word_count x
      then x :: insert_desc c rest
      else c :: l
  end.

Definition sort_by_words_desc (l : list command_info) : list command_info :=
  fold_right insert_desc [] l.

(** [text.lower().startswith(cmd['name'].lower())] *)
Definition name_matches (t : str) (c : command_info) : bool :=
  startswith (lower t) (lower (ci_name c)).

(** The [for] loop with its [break]. *)
Definition select_command (d : database) (chat : Z) (t : str)
    : option command_info :=
  find (name_matches t) (sort_by_words_desc (get_all_personal_commands d chat)).

(** The variables the search for the second participant assigns. *)
Record participant := {
  target_id : option Z;
  clickable_s2 : option str;
  extra_text_for_output : str }.

Definition without_handle (extra_text found_username : str) : str :=
  strip (replace extra_text (64%N :: found_username) []).

Definition find_in_db (d : database) (extra_text found_username : str)
    (p : participant) : participant :=
  match get_user_by_username d found_username with
  | Some db_user =>
      let tid := usr_user_id db_user in
      {| target_id := Some tid;
         clickable_s2 :=
           Some (mention tid (get_display_name d tid (usr_full_name db_user)));
         extra_text_for_output := without_handle extra_text found_username |}
  | None => p
  end.

Definition find_in_telegram (w : world) (d : database)
    (extra_text found_username : str) (p : participant) : participant :=
  if id_truthy (target_id p) then p
  else
    match get_chat w (64%N :: found_username) with
    | Some found_user =>
        let tid := chat_id found_user in
        {| target_id := Some tid;
           clickable_s2 :=
             Some (mention tid
                     (get_display_name d tid
                        (Some (match first_name found_user with
                               | Some n => str_or n unknown
                               | None => unknown
                               end))));
           extra_text_for_output := without_handle extra_text found_username |}
    | None => p
    end.

Definition find_in_reply (d : database) (msg : message) (p : participant)
    : participant :=
  if id_truthy (target_id p) then p
  else
    match reply_to_message msg with
    | Some r =>
        match from_user r with
        | Some target_user =>
            let tid := user_id target_user in
            {| target_id := Some tid;
               clickable_s2 :=
                 Some (mention tid
                         (get_display_name d tid
                            (Some (str_or (full_name target_user) unknown))));
               extra_text_for_output := extra_text_for_output p |}
        | None => p
        end
    | None => p
    end.

(** Everything between [remaining_text = ...] and the test
    [if target_id and clickable_s2]. *)
Definition find_participant (w : world) (d : database) (msg : message)
    (extra_text : str) : participant :=
  let p0 := {| target_id := None; clickable_s2 := None;
               extra_text_for_output := extra_text |} in
  let p1 :=
    match Re.search_username extra_text with
    | Some found_username =>
        find_in_telegram w d extra_text found_username
          (find_in_db d extra_text found_username p0)
    | None => p0
    end in
  find_in_reply d msg p1.

Definition render (template clickable_s1 s2 extra : str) : str :=
  replace (replace (replace template (u "@s1") clickable_s1) (u "@s2") s2)
          (u "@t") extra.

(** [random.choice] on a non-empty list. *)
Definition random_choice (w : world) (l : list media_row) : option media_row :=
  nth_error l (Nat.modulo (random_draw w) (List.length l)).

Definition send_media (chat : Z) (m : media_row) (result_text : str)
    : list action :=
  if str_eqb (pm_media_type m) (u "photo")
  then [SendPhoto chat (pm_file_id m) result_text]
  else if str_eqb (pm_media_type m) (u "animation")
  then [SendAnimation chat (pm_file_id m) result_text]
  else if str_eqb (pm_media_type m) (u "video")
  then [SendVideo chat (pm_file_id m) result_text]
  else if str_eqb (pm_media_type m) (u "sticker")
  then [SendSticker chat (pm_file_id m); ReplyText result_text]
  else [].

(** The template stage: [Some] of what it sends when it handles the
    event, [None] when the dispatch goes on to the stages below. *)
Definition template_stage (w : world) (d : database) (usr : tg_user)
    (msg : message) (chat : Z) (t : str) : option (list action) :=
  match select_command d chat t with
  | None => None
  | Some cmd_info =>
      let uid := user_id usr in
      let sender_name :=
        get_display_name d uid (Some (str_or (full_name usr) unknown)) in
      let clickable_s1 := mention uid sender_name in
      let remaining_text :=
        strip (slice_from t (List.length (ci_name cmd_info))) in
      let p := find_participant w d msg remaining_text in
      match clickable_s2 p with
      | Some s2 =>
          if id_truthy (target_id p) && truthy s2
          then
            let result_text :=
              render (ci_template cmd_info) clickable_s1 s2
                     (extra_text_for_output p) in
            match get_personal_command_media d (ci_id cmd_info) with
            | Some media_list =>
                match random_choice w media_list with
                | Some selected_media =>
                    Some (send_media chat selected_media result_text)
                | None => Some [ReplyText result_text]
                end
            | None => Some [ReplyText result_text]
            end
          else None
      | None => None
      end
  end.

(** The session stage: [Some] when it returns, [None] when a principal
    who is not an owner writes from another chat than the one the session
    was opened in. *)
Definition session_stage (cfg : config) (w : world) (d : database)
    (usr : tg_user) (msg : message) (chat : Z) (mode : option str)
    : option (database * list action) :=
  let uid := user_id usr in
  let source_chat_id := get_online_mode_source d uid in
  if is_owner cfg uid
     || match source_chat_id with Some s => (s =? chat)%Z | None => false end
  then
    if negb (id_truthy (USER_CHAT_ID cfg)) then Some (d, [])
    else
      let dest := match USER_CHAT_ID cfg with Some c => c | None => 0%Z end in
      let d' := update_online_activity d (now w) uid in
      let body :=
        if opt_truthy (text msg) then text msg
        else if opt_truthy (caption msg) then caption msg
        else None in
      match body with
      | Some b =>
          if mode_is mode sayon
          then Some (d', [SendMessage dest
                            (safe_send_message b ++ signature usr)])
          else if mode_is mode sayson
          then Some (d', [SendMessage dest (safe_send_message b)])
          else Some (d', [])
      | None => Some (d', [])
      end
  else None.

Definition owner_only_import (cfg : config) (uid : Z) (code : str)
    : list action :=
  if is_owner cfg uid then [ProcessBackupImport code]
  else [ReplyAndDelete (u "❌ Тільки власник може імпортувати!")].

Definition unmarry (cfg : config) (args : list str) : list action :=
  if mem_str (u "unmarry_command") (module_globals cfg)
     || mem_str (u "unmarry") (COMMAND_HANDLERS cfg)
  then [Call (u "unmarry") (Some args)]
  else [].

(** The phrase table; [None] when no phrase applies. *)
Definition phrase_stage (cfg : config) (t : str) : option (list action) :=
  if mem_str t [u "давай права"; u "дай адмінку"; u "дай все права";
                u "давай адмінку"]
  then Some [Call (u "giveperm") None]
  else if mem_str t [u "дати звичайну адміну"; u "дати звичайну адмінку";
                     u "дати адмінку звичайну"; u "дай звичайну адмінку";
                     u "звичайна адмінка"; u "обичная админка"]
  then Some [Call (u "giveperm_simple") None]
  else if mem_str t [u "забрати права"; u "зняти адмінку"]
  then Some [Call (u "removeperm") None]
  else if mem_str t [u "адміністратори"; u "администраторы"; u "адміни"]
  then Some [Call (u "admin_list") None]
  else if startswith t (u "одружити")
  then
    Some (if mem_str (u "marry") (COMMAND_HANDLERS cfg)
             || mem_str (u "marry_command") (module_globals cfg)
          then [Call (u "marry") (Some (tl (split t)))]
          else [ReplyAndDelete (u "❌ Команда одружити не знайдена")])
  else if startswith t (u "розлучити")
  then Some (unmarry cfg
               (split (strip (slice_from t (List.length (u "розлучити"))))))
  else if startswith t (u "розлучи")
  then Some (unmarry cfg
               (split (strip (slice_from t (List.length (u "розлучи"))))))
  else None.

(** The two formats of a backup code. *)
Definition restore_stage (cfg : config) (uid : Z) (t : str)
    : option (list action) :=
  match Re.search_code (upper t) with
  | Some backup_code => Some (owner_only_import cfg uid backup_code)
  | None =>
      if Re.match_bare_code (upper t)
      then Some (owner_only_import cfg uid (upper t))
      else None
  end.

(** The alias lookup: the registered command of the first word and the
    value given to [context.args]. *)
Definition resolve_alias (d : database) (chat : Z) (t : str)
    : option (str * list str) :=
  let first_word := hd [] (split t) in
  match get_command_alias d chat first_word with
  | Some alias_cmd =>
      if truthy alias_cmd
      then Some (lower (lstrip_slash alias_cmd), tl (split t))
      else None
  | None => None
  end.

Definition alias_stage (cfg : config) (d : database) (chat : Z) (t : str)
    : option (list action) :=
  match resolve_alias d chat t with
  | Some (cmd, args) =>
      Some (if mem_str cmd (COMMAND_HANDLERS cfg)
            then [Call cmd (Some args)]
            else [])
  | None => None
  end.

(** The phrase table, the backup codes and the aliases, in this order. *)
Definition command_stages (cfg : config) (d : database) (uid chat : Z)
    (t : str) : stage * list action * database :=
  match phrase_stage cfg t with
  | Some acts => (AtPhrase, acts, d)
  | None =>
      match restore_stage cfg uid t with
      | Some acts => (AtRestore, acts, d)
      | None =>
          match alias_stage cfg d chat t with
          | Some acts => (AtAlias, acts, d)
          | None => (AtEnd, [], d)
          end
      end
  end.

(** What follows the template stage, from the test of the sender's role
    on. *)
Definition admin_stages (cfg : config) (w : world) (d : database)
    (usr : tg_user) (msg : message) (chat : Z) (t : str)
    : stage * list action * database :=
  let uid := user_id usr in
  let is_admin := is_owner cfg uid || role_is d uid (u "head_admin") in
  if negb is_admin then (AtGate, [], d)
  else
    let mode := get_online_mode d uid in
    match (if opt_truthy mode
           then session_stage cfg w d usr msg chat mode
           else None) with
    | Some (d', sent) => (AtSession, sent, d')
    | None => command_stages cfg d uid chat t
    end.

Definition cleanup (t : str) : list action :=
  if startswith t (u "/") then [DeleteMessage] else [].

Definition handle_text_commands (cfg : config) (w : world) (d : database)
    (upd : update) : result :=
  match upd_message upd with
  | None => {| ended := AtGuard; actions := []; store := d |}
  | Some msg =>
      if negb (opt_truthy (text msg))
      then {| ended := AtGuard; actions := []; store := d |}
      else
        let t := lower (strip (match text msg with
                               | Some s => s | None => [] end)) in
        match effective_user upd with
        | None => {| ended := AtGuard; actions := []; store := d |}
        | Some usr =>
            if (user_id usr =? 0)%Z
            then {| ended := AtGuard; actions := []; store := d |}
            else
              match effective_chat upd with
              | None => {| ended := Crashed; actions := cleanup t;
                           store := d |}
              | Some chat =>
                  match template_stage w d usr msg chat t with
                  | Some sent =>
                      {| ended := AtTemplate; actions := cleanup t ++ sent;
                         store := d |}
                  | None =>
                      let '(st, acts, d') :=
                        admin_stages cfg w d usr msg chat t in
                      {| ended := st; actions := cleanup t ++ acts;
                         store := d' |}
                  end
              end
        end
  end.

End Bot.

(* ================================================================= *)
(** ** Concrete stores, configurations and events *)

Module Scenario.

Import Db Bot.

Definition clock : str := u "2025-01-01T12:00:00".

(** Nobody is known to the platform's directory. *)
Definition world0 : world :=
  {| get_chat := fun _ => None; random_draw := 0; now := clock |}.

(** The names [setup_handlers] registers in [COMMAND_HANDLERS]. *)
Definition command_names : list str :=
  map u ["start"; "help"; "help_g"; "help_m"; "allcmd"; "add_gnome";
         "remove_gnome"; "add_main_admin"; "remove_main_admin"; "ban_s";
         "ban_t"; "unban_s"; "unban_t"; "mute_s"; "mute_t"; "unmute_s";
         "unmute_t"; "kick"; "nah"; "say"; "says"; "sayon"; "sayson";
         "sayoff"; "sayoffall"; "saypin"; "save_s"; "online_list"; "sayb";
         "sayu"; "alarm"; "broadcast"; "hto"; "note"; "notes"; "delnote";
         "reminder"; "reminde"; "birthdays"; "addb"; "delb"; "setbgif";
         "setbtext"; "previewb"; "adminchat"; "userchat"; "logchannel";
         "testchannel"; "santas"; "deltimer"; "restart"; "profile";
         "profile_set"; "myname"; "mym"; "mymt"; "del_myname"; "del_mym";
         "del_mymt"; "giveperm"; "giveperm_simple"; "removeperm";
         "custom_main"; "set_cmd"; "del_cmd"; "doubler"; "set_personal";
         "set_cmdm"; "del_personal"; "set_adminm"; "del_adminm"; "role_cmd";
         "admin_list"; "rezerv"; "marry"]%string.

(** Principal 9 owns the bot; the broadcast chat is -1001. *)
Definition cfg0 : config :=
  {| OWNER_IDS := [9%Z]; USER_CHAT_ID := Some (-1001)%Z;
     LOG_CHANNEL_ID := None; COMMAND_HANDLERS := command_names;
     module_globals := [u "marry_command"] |}.

Definition alice : tg_user :=
  {| user_id := 9; full_name := u "Alice";
     username := Some (u "ownerhandle") |}.

(** Principal 7 is a head admin, principal 1 an ordinary member. *)
Definition dana : tg_user :=
  {| user_id := 7; full_name := u "Dana"; username := Some (u "dana_admin") |}.

Definition mila : tg_user :=
  {| user_id := 1; full_name := u "Mila"; username := None |}.

Definition plain (body : str) : message :=
  {| text := Some body; caption := None; message_id := 41;
     reply_to_message := None |}.

Definition event (usr : tg_user) (chat : Z) (body : str) : update :=
  {| upd_message := Some (plain body); effective_user := Some usr;
     effective_chat := Some chat |}.

Definition with_roles (d : database) (t : list role_row) : database :=
  {| roles := t; online_modes := online_modes d; users := users d;
     say_blocks := say_blocks d; custom_names := custom_names d;
     command_aliases := command_aliases d;
     personal_commands := personal_commands d;
     personal_command_media := personal_command_media d;
     seq_command_aliases := seq_command_aliases d;
     seq_personal_commands := seq_personal_commands d;
     seq_personal_command_media := seq_personal_command_media d |}.

Definition staff : database :=
  with_roles empty_db
    [{| role_user_id := 7; role_name := u "head_admin";
        role_added_by := Some 9%Z; role_added_at := clock;
        role_full_name := Some (u "Dana");
        role_username := Some (u "dana_admin") |}].

(** Chat 100 knows the template [давай] and a two-word one. *)
Definition with_templates : database :=
  fst (add_personal_command
         (fst (add_personal_command staff clock 100 (u "давай")
                 (u "@s1 дає @s2 @t") 9))
         clock 100 (u "давай лапу") (u "@s1 тисне лапу @s2") 9).

(** Chat 100 has the aliases of the fourth scenario. *)
Definition with_aliases : database :=
  add_command_alias
    (add_command_alias staff clock 100 (u "бан") (u "ban") 9)
    clock 100 (u "бан тихо") (u "ban_silent") 9.

(** The same two names, for two commands of the handler table. *)
Definition with_handler_aliases : database :=
  add_command_alias
    (add_command_alias staff clock 100 (u "бан") (u "ban_s") 9)
    clock 100 (u "бан тихо") (u "ban_t") 9.

(** Dana opened a signed session in chat 600. *)
Definition dana_signed : database :=
  fst (sayon_command cfg0 world0 staff (event dana 600 (u "/sayon"))).

(** Alice opened a signed session in chat 500. *)
Definition alice_signed : database :=
  fst (sayon_command cfg0 world0 staff (event alice 500 (u "/sayon"))).

(** Alice, with her session, also has the display name [Санта]. *)
Definition alice_renamed : database :=
  {| roles := roles alice_signed; online_modes := online_modes alice_signed;
     users := users alice_signed; say_blocks := say_blocks alice_signed;
     custom_names := [{| cn_user_id := 9; cn_custom_name := u "Санта";
                         cn_set_at := clock |}];
     command_aliases := command_aliases alice_signed;
     personal_commands := personal_commands alice_signed;
     personal_command_media := personal_command_media alice_signed;
     seq_command_aliases := seq_command_aliases alice_signed;
     seq_personal_commands := seq_personal_commands alice_signed;
     seq_personal_command_media := seq_personal_command_media alice_signed |}.

(** A template with one picture in its pool. *)
Definition with_picture : database :=
  fst (add_personal_command_media with_templates clock 1 (u "photo")
         (u "AgACAgIAAxkBAAIB")).

(** Bob is in the local directory under the handle [bobby]; chat 100
    greets with the template [привіт]. *)
Definition with_greeting : database :=
  fst (add_personal_command
         (with_users staff
            [{| usr_user_id := 2; usr_username := Some (u "bobby");
                usr_full_name := Some (u "Bob"); usr_joined_at := None |}])
         clock 100 (u "привіт") (u "@s1 привітав @s2! @t") 9).

End Scenario.

(* ================================================================= *)
(** ** Vocabulary of the statements *)

Import Db Bot.

(** The strings on which [lower] is [str.lower]: those without U+0130 and
    without U+03A3. *)
Definition lower_exact (s : str) : Prop := ~ In 304%N s /\ ~ In 931%N s.

(** The code points [str.isspace] holds of. *)
Definition whitespace : list N :=
  [9; 10; 11; 12; 13; 28; 29; 30; 31; 32; 133; 160; 5760; 8192; 8193; 8194;
   8195; 8196; 8197; 8198; 8199; 8200; 8201; 8202; 8232; 8233; 8239; 8287;
   12288]%N.

(** A run whose code points are all even or all odd. *)
Definition uniform (r : case_run) : bool :=
  let '(first, last, step, _) := r in ((step =? 2) || (first =? last))%N.

(** No code point of the run [r] is mapped into the run [r']. *)
Definition run_avoids (r r' : case_run) : bool :=
  let '(f, l, _, t) := r in
  let '(f', l', _, _) := r' in
  ((t + (l - f) <? f') || (l' <? t)
   || (uniform r && uniform r' && negb (Bool.eqb (N.even t) (N.even f'))))%N.

Definition runs_settle (runs : list case_run) : bool :=
  forallb (fun r => forallb (run_avoids r) runs) runs.

(** The code point [w] lies in no run and in the image of no run. *)
Definition untouched (runs : list case_run) (w : N) : bool :=
  forallb (fun r : case_run =>
             let '(f, l, _, t) := r in
             (((w <? f) || (l <? w)) && ((w <? t) || (t + (l - f) <? w)))%N)
          runs.

(** Alias resolution as the specification words it: the longest leading
    run of the words of the text that is a registered alias of the chat,
    tried from the whole text down to the first word, with the words
    behind the run as arguments. *)
Fixpoint longest_run_alias (d : database) (chat : Z) (words : list str)
    (n : nat) : option (str * list str) :=
  match n with
  | O => None
  | S k =>
      match get_command_alias d chat (join_space (firstn (S k) words)) with
      | Some alias_cmd =>
          if truthy alias_cmd
          then Some (lower (lstrip_slash alias_cmd), skipn (S k) words)
          else longest_run_alias d chat words k
      | None => longest_run_alias d chat words k
      end
  end.

Definition spec_resolve_alias (d : database) (chat : Z) (t : str)
    : option (str * list str) :=
  longest_run_alias d chat (split t) (List.length (split t)).

(** A word is a string without whitespace. *)
Definition is_word (s : str) : bool := forallb (fun c => negb (isspace c)) s.

(** A string [str.lower] leaves as it is. *)
Definition is_lowercase (s : str) : Prop := lower s = s.

(** A code point [str.lower] leaves as it is. *)
Definition lower_fixed (c : N) : Prop := lower_cp c = c.

(** The order [sort_by_words_desc] establishes. *)
Definition by_words_desc (a b : command_info) : Prop :=
  word_count b <= word_count a.

(** At most one row of [online_modes] per principal. *)
Definition one_session_each (d : database) : Prop :=
  NoDup (map om_user_id (online_modes d)).

Definition sessions_of (d : database) (uid : Z) : list online_mode_row :=
  filter (fun r => (om_user_id r =? uid)%Z) (online_modes d).

(** Two stores with the same roles, the same blocks and, for every
    principal, the same session up to its timestamps. *)
Definition same_sessions (d d' : database) : Prop :=
  roles d' = roles d
  /\ say_blocks d' = say_blocks d
  /\ map om_user_id (online_modes d') = map om_user_id (online_modes d)
  /\ (forall uid, get_online_mode d' uid = get_online_mode d uid)
  /\ (forall uid, get_online_mode_source d' uid = get_online_mode_source d uid).

(** The chat a toggle records as the source of the session. *)
Definition source_of (upd : update) : Z :=
  match effective_chat upd with Some c => c | None => 0%Z end.

(** What a toggle of mode [m] by a present sender [uid] leaves in the
    store. *)
Definition toggle_store (cfg : config) (w : world) (d : database)
    (upd : update) (uid : Z) (m : str) : database :=
  let d' := save_user_from_update w d upd in
  if negb (can_use_bot cfg d uid) || is_say_blocked d uid then d'
  else if mode_is (get_online_mode d uid) m then remove_online_mode d' uid
  else set_online_mode d' (now w) uid m (Some (source_of upd)).

(** A message put into the broadcast chat. *)
Definition is_forward (a : action) : bool :=
  match a with
  | SendMessage _ _ | ForwardMessage _ _ _ => true
  | _ => false
  end.

(** A message on its way through one of the two message handlers. *)
Inductive delivery :=
| ViaAllMessages (w : world) (upd : update)
| ViaTextCommands (w : world) (upd : update).

Definition delivered (cfg : config) (d : database) (x : delivery)
    : database * list action :=
  match x with
  | ViaAllMessages w upd => handle_all_messages cfg w d upd
  | ViaTextCommands w upd =>
      let r := handle_text_commands cfg w d upd in (store r, actions r)
  end.

Fixpoint deliver_all (cfg : config) (d : database) (l : list delivery)
    : database :=
  match l with
  | [] => d
  | x :: rest => deliver_all cfg (fst (delivered cfg d x)) rest
  end.

(** Every delivery of [l] does nothing but forward: no handler is
    called in turn. *)
Fixpoint only_forwards (cfg : config) (d : database) (l : list delivery)
    : bool :=
  match l with
  | [] => true
  | x :: rest =>
      forallb is_forward (snd (delivered cfg d x))
      && only_forwards cfg (fst (delivered cfg d x)) rest
  end.

(** The update of a text message, and the same update with another
    text. *)
Definition with_text (upd : update) (body : str) : update :=
  {| upd_message :=
       match upd_message upd with
       | Some m => Some {| text := Some body; caption := caption m;
                           message_id := message_id m;
                           reply_to_message := reply_to_message m |}
       | None => None
       end;
     effective_user := effective_user upd;
     effective_chat := effective_chat upd |}.

(* ================================================================= *)
(** ** The commands that manage aliases, templates and sessions *)

Module Commands.

(** [not context.args or len(context.args) < n] *)
Definition too_few (args : option (list str)) (n : nat) : bool :=
  match args with
  | None => true
  | Some l => match l with [] => true | _ :: _ => List.length l <? n end
  end.

Definition args_of (args : option (list str)) : list str :=
  match args with Some l => l | None => [] end.

Definition no_rights : str := u "❌ У вас немає прав!".

(** [sorted(names)] by code points, and [sep.join(parts)]. *)
Fixpoint insert_str (s : str) (l : list str) : list str :=
  match l with
  | [] => [s]
  | x :: rest => if str_leb x s then x :: insert_str s rest else s :: l
  end.

Definition sorted_strs (l : list str) : list str :=
  fold_right insert_str [] l.

Fixpoint join_with (sep : str) (parts : list str) : str :=
  match parts with
  | [] => []
  | [p] => p
  | p :: rest => p ++ sep ++ join_with sep rest
  end.

(** The command an alias is to stand for, as [set_cmd_command] reads it
    from its second argument: lowercased, without leading slashes. *)
Definition typed_command (arg : str) : str :=
  if startswith (lower arg) (u "/") then lstrip_slash (lower arg)
  else lower arg.

Definition set_cmd_command (cfg : config) (w : world) (d0 : database)
    (upd : update) (args : option (list str)) : database * list action :=
  let d := save_user_from_update w d0 upd in
  match effective_user upd, upd_message upd, effective_chat upd with
  | Some usr, Some _, Some chat =>
      let uid := user_id usr in
      if negb (can_ban_mute cfg d uid) then (d, [ReplyAndDelete no_rights])
      else if too_few args 2
      then (d, [ReplyAndDelete
                  (u "❌ Використання: /set_cmd <назва> <команда>" ++ nl
                   ++ u "Приклад: /set_cmd бан /ban")])
      else
        let alias_name := lower (nth 0 (args_of args) []) in
        let target_cmd := typed_command (nth 1 (args_of args) []) in
        if negb (mem_str target_cmd (COMMAND_HANDLERS cfg))
        then
          let valid_commands :=
            join_with (u ", ")
              (firstn 15 (sorted_strs (COMMAND_HANDLERS cfg))) in
          (d, [ReplyAndDelete
                 (u "❌ Команда '<b>/" ++ target_cmd ++ u "</b>' не знайдена!"
                  ++ nl ++ nl
                  ++ u "✅ Коректні команди для дублерів:" ++ nl
                  ++ u "<code>" ++ valid_commands
                  ++ u "... та інші</code>")])
        else
          (add_command_alias d (now w) chat alias_name target_cmd uid,
           [ReplyAndDelete
              (u "✅ Дублер створено!" ++ nl
               ++ u "<b>" ++ alias_name ++ u "</b> → /" ++ target_cmd
               ++ nl ++ nl
               ++ u "📌 Тепер напишіть: <b>" ++ alias_name ++ u "</b>" ++ nl
               ++ u "   і запуститься команда: /" ++ target_cmd)])
  | _, _, _ => (d, [])
  end.

Definition del_cmd_command (cfg : config) (w : world) (d0 : database)
    (upd : update) (args : option (list str)) : database * list action :=
  let d := save_user_from_update w d0 upd in
  match effective_user upd, upd_message upd, effective_chat upd with
  | Some usr, Some _, Some chat =>
      let uid := user_id usr in
      if negb (can_ban_mute cfg d uid) then (d, [ReplyAndDelete no_rights])
      else if too_few args 1
      then (d, [ReplyAndDelete
                  (u "❌ Використання: /del_cmd <назва>" ++ nl
                   ++ u "Приклад: /del_cmd бан")])
      else
        let alias_name := lower (nth 0 (args_of args) []) in
        (delete_command_alias d chat alias_name,
         [ReplyAndDelete (u "✅ Дублер '" ++ alias_name ++ u "' видалено!")])
  | _, _, _ => (d, [])
  end.

(** [arg.lower() in ['@s1', '@s2', '@t']] *)
Definition is_placeholder (arg : str) : bool :=
  mem_str (lower arg) [u "@s1"; u "@s2"; u "@t"].

(** The index of the first placeholder among the arguments. *)
Fixpoint placeholder_index (args : list str) : option nat :=
  match args with
  | [] => None
  | a :: rest =>
      if is_placeholder a then Some 0
      else match placeholder_index rest with
           | Some i => Some (S i)
           | None => None
           end
  end.

(** The handler's result: the store, the replies, and what it leaves in
    [context.chat_data['last_personal_cmd_id']] when it writes there. *)
Definition set_personal_command (cfg : config) (w : world) (d0 : database)
    (upd : update) (args : option (list str))
    : database * list action * option (option Z) :=
  let d := save_user_from_update w d0 upd in
  match effective_user upd, upd_message upd, effective_chat upd with
  | Some usr, Some _, Some chat =>
      let uid := user_id usr in
      if negb (can_ban_mute cfg d uid)
      then (d, [ReplyAndDelete no_rights], None)
      else if too_few args 2
      then (d, [ReplyAndDelete
                  (u "❌ Використання: /set_personal <назва команди> <шаблон з @s1/@s2/@t>"
                   ++ nl
                   ++ u "Шаблон: @s1 = відправник, @s2 = одержувач, @t = додатковий текст"
                   ++ nl
                   ++ u "Приклад: /set_personal дати копня @s1 дав копня @s2")],
            None)
      else
        match placeholder_index (args_of args) with
        | None =>
            (d, [ReplyAndDelete
                   (u "❌ Шаблон має містити хоча б один плейсхолдер (@s1, @s2 або @t)!")],
             None)
        | Some placeholder_idx =>
            let cmd_name :=
              lower (join_space (firstn placeholder_idx (args_of args))) in
            let template :=
              join_space (skipn placeholder_idx (args_of args)) in
            let '(d', cmd_id) :=
              add_personal_command d (now w) chat cmd_name template uid in
            (d',
             [ReplyAndDelete
                (u "✅ Персональну команду '" ++ cmd_name ++ u "' створено!"
                 ++ nl ++ u "💬 Шаблон: " ++ template)],
             Some cmd_id)
        end
  | _, _, _ => (d, [], None)
  end.

Definition del_personal_command (cfg : config) (w : world) (d0 : database)
    (upd : update) (args : option (list str)) : database * list action :=
  let d := save_user_from_update w d0 upd in
  match effective_user upd, upd_message upd, effective_chat upd with
  | Some usr, Some _, Some chat =>
      let uid := user_id usr in
      if negb (can_ban_mute cfg d uid) then (d, [ReplyAndDelete no_rights])
      else if too_few args 1
      then (d, [ReplyAndDelete (u "❌ Використання: /del_personal <назва>")])
      else
        let cmd_name := lower (join_space (args_of args)) in
        (fst (delete_personal_command d chat cmd_name),
         [ReplyAndDelete (u "✅ Команда '" ++ cmd_name ++ u "' видалена!")])
  | _, _, _ => (d, [])
  end.

(** A row of [get_all_online_modes]: the session with the name and handle
    of the principal's role row, when there is one. *)
Record online_mode_info := {
  omi_user_id : Z; omi_mode : str; omi_started_at : str;
  omi_last_activity : str; omi_full_name : option str;
  omi_username : option str; omi_source_chat_id : option Z }.

(** [online_modes om LEFT JOIN roles r ON om.user_id = r.user_id] *)
Definition joined_online_modes (d : database) : list online_mode_info :=
  flat_map
    (fun om =>
       let info (n h : option str) :=
         {| omi_user_id := om_user_id om; omi_mode := om_mode om;
            omi_started_at := om_started_at om;
            omi_last_activity := om_last_activity om;
            omi_full_name := n; omi_username := h;
            omi_source_chat_id := om_source_chat_id om |} in
       match filter (fun r => (role_user_id r =? om_user_id om)%Z)
                    (roles d) with
       | [] => [info None None]
       | matched =>
           map (fun r => info (role_full_name r) (role_username r)) matched
       end)
    (by_rowid om_user_id (online_modes d)).

Definition mode_line (m : online_mode_info) : str :=
  let name := match omi_full_name m with
              | Some n => str_or n unknown
              | None => unknown
              end in
  u "• " ++ mention (omi_user_id m) name ++ u " (" ++ omi_mode m ++ u ")".

Definition sayoffall_command (cfg : config) (w : world) (d0 : database)
    (upd : update) : database * list action :=
  let d := save_user_from_update w d0 upd in
  match effective_user upd, upd_message upd with
  | Some usr, Some _ =>
      let uid := user_id usr in
      if negb (can_ban_mute cfg d uid)
      then (d, [ReplyAndDelete
                  (u "❌ Тільки власник і головні адміни мають доступ до цієї команди!")])
      else
        let all_modes := joined_online_modes d in
        match all_modes with
        | [] => (d, [ReplyAndDelete (u "❌ Немає активних режимів!")])
        | _ :: _ =>
            let count := str_of_Z (Z.of_nat (List.length all_modes)) in
            let admin_name :=
              safe_send_message (str_or (full_name usr) unknown) in
            let admin_username :=
              if opt_truthy (username usr)
              then 64%N :: match username usr with
                           | Some n => n | None => [] end
              else [] in
            (clear_all_online_modes d,
             ReplyAndDelete
               (u "✅ Вимкнено режим для " ++ count ++ u " користувачів")
             :: log_to_channel cfg
                  ((if is_owner cfg uid then u "Власник"
                    else u "Головний адмін") ++ nl
                   ++ mention uid admin_name ++ u " " ++ admin_username
                   ++ u " [" ++ str_of_Z uid ++ u "]" ++ nl
                   ++ u "Вимкнено режими для " ++ count
                   ++ u " користувачів:" ++ nl
                   ++ join_with nl (map mode_line all_modes) ++ nl
                   ++ u "#sayoffall"))
        end
  | _, _ => (d, [])
  end.

End Commands.

(* ================================================================= *)
(** ** Vocabulary for the commands and the store *)

Import Commands.

(** The key of an alias row: [UNIQUE(chat_id, alias_name)]. *)
Definition alias_id (r : alias_row) : Z * str :=
  (al_chat_id r, al_alias_name r).

Definition alias_keys_unique (d : database) : Prop :=
  NoDup (map alias_id (command_aliases d)).

(** The pool of a template command as a list: empty for [None]. *)
Definition pool (d : database) (command_id : Z) : list media_row :=
  match get_personal_command_media d command_id with
  | Some rows => rows
  | None => []
  end.

(** No media row points above the counter of [personal_commands]. *)
Definition media_ids_bounded (d : database) : Prop :=
  Forall (fun m => (pm_command_id m <= seq_personal_commands d)%Z)
         (personal_command_media d).

Definition user_ids_unique (d : database) : Prop :=
  NoDup (map usr_user_id (users d)).

(** A handler called in turn, and an import of a backup. *)
Definition is_call (a : action) : bool :=
  match a with Call _ _ => true | _ => false end.

Definition is_import (a : action) : bool :=
  match a with ProcessBackupImport _ => true | _ => false end.

Definition is_delete (a : action) : bool :=
  match a with DeleteMessage => true | _ => false end.

(** What the dispatch hands over to another handler: a command called
    in turn, or the import of a backup.  What the handler does then, to
    the store and to the message, is not part of the dispatch's own
    result. *)
Definition is_handed_over (a : action) : bool := is_call a || is_import a.

(** What an ordinary member must not obtain: a handler called in turn, an
    import, a message to another chat. *)
Definition is_privileged (a : action) : bool :=
  is_call a || is_import a || is_forward a.

(** A command that did nothing but refuse: the store is [d], and the
    sender got at most one reply. *)
Definition refused (d : database) (r : database * list action) : Prop :=
  fst r = d /\ (snd r = [] \/ exists b, snd r = [ReplyAndDelete b]).

(** The order of [ORDER BY command_name]. *)
Definition name_leb (a b : personal_command_row) : Prop :=
  str_leb (pc_command_name a) (pc_command_name b) = true.

(** An update as a command handler receives it. *)
Definition command_event (usr : tg_user) (chat : Z) : update :=
  {| upd_message := Some {| text := None; caption := None; message_id := 77;
                            reply_to_message := None |};
     effective_user := Some usr; effective_chat := Some chat |}.

(* ================================================================= *)
(** ** Facts about the string primitives *)

Lemma str_eqb_eq (a b : str) : str_eqb a b = true <-> a = b.
Proof.
  unfold str_eqb. destruct (list_eq_dec N.eq_dec a b); split; congruence.
Qed.

Lemma str_eqb_refl (a : str) : str_eqb a a = true.
Proof. now apply str_eqb_eq. Qed.

Lemma str_eqb_neq (a b : str) : str_eqb a b = false <-> a <> b.
Proof.
  unfold str_eqb. destruct (list_eq_dec N.eq_dec a b); split; congruence.
Qed.

Lemma insert_by_rowid_perm {A : Type} (key : A -> Z) (x : A) (l : list A) :
  Permutation (insert_by_rowid key x l) (x :: l).
Proof.
  induction l as [|y l IH]; cbn [insert_by_rowid]; [reflexivity|].
  destruct (key x <=? key y)%Z; [reflexivity|].
  rewrite IH. apply perm_swap.
Qed.

Lemma by_rowid_perm {A : Type} (key : A -> Z) (l : list A) :
  Permutation (by_rowid key l) l.
Proof.
  unfold by_rowid. induction l as [|x l IH]; cbn [fold_right]; [reflexivity|].
  rewrite insert_by_rowid_perm. now constructor.
Qed.

Lemma In_by_rowid {A : Type} (key : A -> Z) (l : list A) (x : A) :
  In x l -> In x (by_rowid key l).
Proof. apply Permutation_in, Permutation_sym, by_rowid_perm. Qed.

Lemma by_rowid_nil {A : Type} (key : A -> Z) (l : list A) :
  by_rowid key l = [] -> l = [].
Proof.
  intros H. apply Permutation_nil. rewrite <- H. apply by_rowid_perm.
Qed.

Section Runs.

Variable runs : list case_run.

Lemma find_all_false {A : Type} (p : A -> bool) (l : list A) :
  (forall x, In x l -> p x = false) -> find p l = None.
Proof.
  induction l as [|x l IH]; intros H; [reflexivity|]. cbn [find].
  rewrite (H x (or_introl eq_refl)). apply IH. intros y Hy.
  apply H. now right.
Qed.

Lemma in_run_bounds (c f l s t : N) :
  in_run c (f, l, s, t) = true -> (f <= c <= l)%N.
Proof.
  unfold in_run. intros H.
  apply andb_prop in H as [H _]. apply andb_prop in H as [H1 H2].
  apply N.leb_le in H1, H2. now split.
Qed.

Lemma in_run_even (c f l s t : N) :
  in_run c (f, l, s, t) = true -> uniform (f, l, s, t) = true ->
  N.even (c - f) = true.
Proof.
  intros H U. pose proof (in_run_bounds _ _ _ _ _ H) as [B1 B2].
  unfold in_run in H. apply andb_prop in H as [_ H].
  unfold uniform in U.
  destruct (N.eqb_spec f l) as [->|_].
  - replace c with l by lia. now rewrite N.sub_diag.
  - rewrite orb_false_r in U. apply N.eqb_eq in U. subst s.
    exact H.
Qed.

Lemma run_avoids_sound (r r' : case_run) (c : N) :
  run_avoids r r' = true -> in_run c r = true ->
  let '(f, _, _, t) := r in in_run (t + (c - f)) r' = false.
Proof.
  destruct r as [[[f l] s] t], r' as [[[f' l'] s'] t'].
  intros A H. pose proof (in_run_bounds _ _ _ _ _ H) as [B1 B2].
  destruct (in_run (t + (c - f)) (f', l', s', t')) eqn:H'; [|reflexivity].
  pose proof (in_run_bounds _ _ _ _ _ H') as [B1' B2'].
  unfold run_avoids in A.
  apply orb_prop in A as [A|A]; [apply orb_prop in A as [A|A]|].
  - apply N.ltb_lt in A. lia.
  - apply N.ltb_lt in A. lia.
  - apply andb_prop in A as [A P]. apply andb_prop in A as [U U'].
    pose proof (in_run_even _ _ _ _ _ H U) as E.
    pose proof (in_run_even _ _ _ _ _ H' U') as E'.
    rewrite N.even_sub in E' by exact B1'.
    rewrite N.even_add, E in E'.
    apply negb_true_iff in P.
    destruct (N.even t), (N.even f'); discriminate.
Qed.

Lemma map_run_idem (c : N) :
  runs_settle runs = true -> map_run runs (map_run runs c) = map_run runs c.
Proof.
  intros S. unfold map_run at 2 3.
  destruct (find (in_run c) runs) as [r|] eqn:F.
  - apply find_some in F as [Hin H].
    unfold runs_settle in S. rewrite forallb_forall in S.
    specialize (S r Hin). rewrite forallb_forall in S.
    destruct r as [[[f l] s] t]. unfold map_run.
    rewrite find_all_false; [reflexivity|].
    intros r' Hin'.
    exact (@run_avoids_sound (f, l, s, t) r' c (S r' Hin') H).
  - unfold map_run. now rewrite F.
Qed.

Lemma untouched_fixed (w : N) :
  untouched runs w = true -> map_run runs w = w.
Proof.
  intros U. unfold untouched in U. rewrite forallb_forall in U.
  unfold map_run. rewrite find_all_false; [reflexivity|].
  intros r Hin. specialize (U r Hin). destruct r as [[[f l] s] t].
  destruct (in_run w (f, l, s, t)) eqn:H; [|reflexivity].
  apply in_run_bounds in H as [B1 B2].
  apply andb_prop in U as [U _].
  apply orb_prop in U as [U|U]; apply N.ltb_lt in U; lia.
Qed.

Lemma untouched_only (w c : N) :
  untouched runs w = true -> map_run runs c = w -> c = w.
Proof.
  intros U. unfold untouched in U. rewrite forallb_forall in U.
  unfold map_run. destruct (find (in_run c) runs) as [r|] eqn:F;
    [|exact id].
  apply find_some in F as [Hin H]. specialize (U r Hin).
  destruct r as [[[f l] s] t]. apply in_run_bounds in H as [B1 B2].
  apply andb_prop in U as [_ U]. intros E.
  apply orb_prop in U as [U|U]; apply N.ltb_lt in U; lia.
Qed.

End Runs.

Lemma lower_runs_settle : runs_settle lower_runs = true.
Proof. vm_compute. reflexivity. Qed.

Lemma whitespace_untouched :
  forallb (untouched lower_runs) whitespace = true.
Proof. vm_compute. reflexivity. Qed.

Lemma isspace_whitespace (c : N) : isspace c = true -> In c whitespace.
Proof.
  unfold isspace, whitespace. cbn [In].
  rewrite !orb_true_iff, !andb_true_iff, !N.leb_le, !N.eqb_eq. lia.
Qed.

Lemma whitespace_isspace (c : N) : In c whitespace -> isspace c = true.
Proof.
  unfold whitespace. cbn [In]. intros H.
  repeat (destruct H as [<-|H]; [reflexivity|]). contradiction.
Qed.

Lemma lower_cp_idem (c : N) : lower_cp (lower_cp c) = lower_cp c.
Proof. apply map_run_idem, lower_runs_settle. Qed.

Lemma isspace_lower_cp (c : N) : isspace (lower_cp c) = isspace c.
Proof.
  pose proof whitespace_untouched as U. rewrite forallb_forall in U.
  destruct (isspace c) eqn:E.
  - apply isspace_whitespace in E.
    unfold lower_cp. rewrite (@untouched_fixed lower_runs c (U c E)).
    now apply whitespace_isspace.
  - destruct (isspace (lower_cp c)) eqn:E'; [|reflexivity].
    apply isspace_whitespace in E'.
    pose proof (@untouched_only lower_runs _ c (U _ E') eq_refl) as H.
    rewrite <- H in E'. apply whitespace_isspace in E'. congruence.
Qed.

Lemma lower_idem (s : str) : lower (lower s) = lower s.
Proof.
  unfold lower. rewrite map_map. apply map_ext. apply lower_cp_idem.
Qed.

Lemma lower_app (a b : str) : lower (a ++ b) = lower a ++ lower b.
Proof. apply map_app. Qed.

Lemma lower_rev (s : str) : lower (rev s) = rev (lower s).
Proof. unfold lower. now rewrite map_rev. Qed.

Lemma lstrip_lower (s : str) : lstrip (lower s) = lower (lstrip s).
Proof.
  induction s as [|c s IH]; simpl; [reflexivity|].
  rewrite isspace_lower_cp. destruct (isspace c); [exact IH | reflexivity].
Qed.

Lemma strip_lower (s : str) : strip (lower s) = lower (strip s).
Proof.
  unfold strip, rstrip.
  now rewrite lstrip_lower, <- lower_rev, lstrip_lower, lower_rev.
Qed.

Lemma is_word_rev (s : str) : is_word s = true -> is_word (rev s) = true.
Proof.
  unfold is_word. rewrite !forallb_forall. intros H c Hc.
  apply H. now apply in_rev.
Qed.

Lemma split_from_words (s cur : str) :
  is_word cur = true ->
  forall word, In word (split_from s cur) -> is_word word = true.
Proof.
  revert cur. induction s as [|c s IH]; intros cur Hcur word Hin.
  - destruct cur as [|x cur]; [contradiction|].
    destruct Hin as [<-|[]]. now apply (is_word_rev (x :: cur)).
  - cbn [split_from] in Hin. destruct (isspace c) eqn:Hc.
    + destruct cur as [|x cur].
      * now apply (IH [] eq_refl).
      * destruct Hin as [<-|Hin]; [now apply (is_word_rev (x :: cur))|].
        now apply (IH [] eq_refl).
    + apply (IH (c :: cur)); [|exact Hin].
      cbn. now rewrite Hc.
Qed.

Lemma split_words (s word : str) : In word (split s) -> is_word word = true.
Proof. now apply split_from_words. Qed.

Lemma is_word_lower (s : str) : is_word (lower s) = is_word s.
Proof.
  unfold is_word, lower. induction s as [|c s IH]; simpl; [reflexivity|].
  now rewrite isspace_lower_cp, IH.
Qed.

Lemma hd_split_word (s : str) : is_word (hd [] (split s)) = true.
Proof.
  destruct (split s) as [|w ws] eqn:E; [reflexivity|].
  apply (split_words s). rewrite E. now left.
Qed.

(* ================================================================= *)
(** ** Template selection *)

Section Selection.

Lemma insert_desc_perm (c : command_info) (l : list command_info) :
  Permutation (insert_desc c l) (c :: l).
Proof.
  induction l as [|x l IH]; simpl; [reflexivity|].
  destruct (word_count c <? word_count x); [|reflexivity].
  rewrite IH. apply perm_swap.
Qed.

Lemma sort_by_words_desc_perm (l : list command_info) :
  Permutation (sort_by_words_desc l) l.
Proof.
  induction l as [|x l IH]; simpl; [reflexivity|].
  rewrite insert_desc_perm. now constructor.
Qed.

Lemma insert_desc_sorted (c : command_info) (l : list command_info) :
  StronglySorted by_words_desc l ->
  StronglySorted by_words_desc (insert_desc c l).
Proof.
  induction 1 as [|x l Hs IH Hx]; simpl.
  - repeat constructor.
  - destruct (Nat.ltb_spec (word_count c) (word_count x)) as [Hlt|Hge].
    + constructor; [exact IH|].
      rewrite Forall_forall. intros y Hy.
      apply (Permutation_in _ (insert_desc_perm c l)) in Hy.
      destruct Hy as [<-|Hy].
      * unfold by_words_desc. lia.
      * rewrite Forall_forall in Hx. now apply Hx.
    + constructor; [now constructor|].
      constructor; [exact Hge|].
      rewrite Forall_forall in *. intros y Hy.
      specialize (Hx y Hy). unfold by_words_desc in *. lia.
Qed.

Lemma sort_by_words_desc_sorted (l : list command_info) :
  StronglySorted by_words_desc (sort_by_words_desc l).
Proof.
  induction l as [|x l IH]; simpl; [constructor|].
  now apply insert_desc_sorted.
Qed.

(** In a list sorted by falling word count the first hit of a search has
    the greatest word count of all hits. *)
Lemma find_sorted_greatest (p : command_info -> bool)
    (l : list command_info) (c : command_info) :
  StronglySorted by_words_desc l ->
  find p l = Some c ->
  forall c', In c' l -> p c' = true -> word_count c' <= word_count c.
Proof.
  induction 1 as [|x l Hs IH Hx]; simpl; [discriminate|].
  destruct (p x) eqn:Hp; intros Hf c' Hin Hc'.
  - injection Hf as <-. destruct Hin as [<-|Hin]; [lia|].
    rewrite Forall_forall in Hx. now apply Hx.
  - destruct Hin as [<-|Hin]; [congruence|]. now apply IH.
Qed.

End Selection.

(** C4: the commands of the chat are tried in the order of falling word
    count of their names, a permutation of what the store lists; at most
    one is selected, and it matches the text with the greatest word count
    of all the chat's commands whose lowercased name begins the lowercased
    text.  When none is selected, no command of the chat matches. *)
Theorem template_selection_greatest_word_count :
  forall (d : database) (chat : Z) (t : str),
    let cmds := get_all_personal_commands d chat in
    let tried := sort_by_words_desc cmds in
    Permutation tried cmds
    /\ StronglySorted by_words_desc tried
    /\ select_command d chat t = find (name_matches t) tried
    /\ match select_command d chat t with
       | Some c =>
           In c cmds
           /\ startswith (lower t) (lower (ci_name c)) = true
           /\ (forall c', In c' cmds ->
                          startswith (lower t) (lower (ci_name c')) = true ->
                          word_count c' <= word_count c)
       | None =>
           forall c', In c' cmds ->
                      startswith (lower t) (lower (ci_name c')) = false
       end.
Proof.
  intros d chat t cmds tried.
  assert (Hperm : Permutation tried cmds)
    by apply sort_by_words_desc_perm.
  assert (Hsorted : StronglySorted by_words_desc tried)
    by apply sort_by_words_desc_sorted.
  repeat split; try assumption.
  unfold select_command. fold cmds. fold tried.
  destruct (find (name_matches t) tried) as [c|] eqn:Hf.
  - destruct (find_some _ _ Hf) as [Hin Hm].
    repeat split.
    + now apply (Permutation_in _ Hperm).
    + exact Hm.
    + intros c' Hin' Hm'.
      apply (find_sorted_greatest (name_matches t) Hsorted Hf).
      * now apply (Permutation_in _ (Permutation_sym Hperm)).
      * exact Hm'.
  - intros c' Hin'.
    apply (find_none _ _ Hf).
    now apply (Permutation_in _ (Permutation_sym Hperm)).
Qed.

(** With the templates [давай] and [давай лапу] in chat 100, a text that
    begins with both selects the two-word one. *)
Lemma template_selection_witness :
  select_command Scenario.with_templates 100 (u "Давай лапу @someone")
  = Some {| ci_name := u "давай лапу";
            ci_template := u "@s1 тисне лапу @s2"; ci_id := 2 |}
  /\ (forall c',
        In c' (get_all_personal_commands Scenario.with_templates 100) ->
        startswith (lower (u "Давай лапу @someone")) (lower (ci_name c'))
        = true ->
        word_count c' <= 2).
Proof.
  assert (E : select_command Scenario.with_templates 100
                (u "Давай лапу @someone")
              = Some {| ci_name := u "давай лапу";
                        ci_template := u "@s1 тисне лапу @s2"; ci_id := 2 |})
    by (vm_compute; reflexivity).
  split; [exact E|].
  pose proof (template_selection_greatest_word_count
                Scenario.with_templates 100 (u "Давай лапу @someone")) as H.
  cbv zeta in H. rewrite E in H.
  destruct H as (_ & _ & _ & _ & _ & H). exact H.
Defined.

(* ================================================================= *)
(** ** Alias resolution *)

(** Only the first word of the text is looked up.  When the lookup
    succeeds the alias row carries that word, lowercased, as its name (a
    name without whitespace), and every other word of the text becomes an
    argument; a found row with a non-empty target always resolves. *)
Lemma alias_resolution_first_word :
  forall (d : database) (chat : Z) (t : str),
    (forall cmd args,
       resolve_alias d chat t = Some (cmd, args) ->
       exists r,
         In r (command_aliases d)
         /\ al_chat_id r = chat
         /\ al_alias_name r = lower (hd [] (split t))
         /\ is_word (al_alias_name r) = true
         /\ cmd = lower (lstrip_slash (al_target_command r))
         /\ args = tl (split t))
    /\ (forall r,
          find (alias_key chat (lower (hd [] (split t))))
               (command_aliases d) = Some r ->
          truthy (al_target_command r) = true ->
          resolve_alias d chat t
          = Some (lower (lstrip_slash (al_target_command r)), tl (split t))).
Proof.
  intros d chat t. split.
  - intros cmd args H. unfold resolve_alias, get_command_alias in H.
    destruct (find _ _) as [r|] eqn:Hf; [|discriminate].
    destruct (truthy (al_target_command r)); [|discriminate].
    injection H as <- <-.
    destruct (find_some _ _ Hf) as [Hin Hk].
    unfold alias_key in Hk. apply andb_prop in Hk as [Hc Hn].
    apply Z.eqb_eq in Hc. apply str_eqb_eq in Hn.
    exists r. repeat split; try assumption.
    + rewrite Hn. rewrite is_word_lower. apply hd_split_word.
  - intros r Hf Ht. unfold resolve_alias, get_command_alias.
    rewrite Hf, Ht. reflexivity.
Qed.

(* ================================================================= *)
(** ** The template store *)

Lemma delete_personal_command_keeps_media (d : database) (chat : Z)
    (name : str) :
  personal_command_media (fst (delete_personal_command d chat name))
  = personal_command_media d.
Proof. reflexivity. Qed.

(** On a connection that enforces foreign keys the same statement takes
    the pool away with its command. *)
Lemma cascade_when_enforced (d : database) (chat : Z) (name : str)
    (m : media_row) (r : personal_command_row) :
  In m (snd (sql_delete_personal_commands {| foreign_keys := true |}
               d chat name)) ->
  In r (personal_commands d) ->
  command_key chat name r = true ->
  pm_command_id m <> pc_id r.
Proof.
  unfold sql_delete_personal_commands. simpl. intros Hm Hr Hk E.
  apply filter_In in Hm as [_ Hm]. apply negb_true_iff in Hm.
  assert (Hex : existsb (fun r0 => (pc_id r0 =? pm_command_id m)%Z)
                  (filter (command_key chat name) (personal_commands d))
                = true).
  { apply existsb_exists. exists r. split.
    - apply filter_In. now split.
    - apply Z.eqb_eq. now rewrite E. }
  congruence.
Qed.

(** C8 on the code: the template [давай] of chat 100 has one picture in
    its pool; after [delete_personal_command] the command is gone and the
    picture is still returned for the command's id. *)
Theorem delete_personal_command_orphans_media :
  let d := Scenario.with_picture in
  let d' := fst (delete_personal_command d 100 (u "давай")) in
  get_personal_command d 100 (u "давай") = Some (1%Z, u "@s1 дає @s2 @t")
  /\ snd (delete_personal_command d 100 (u "давай")) = true
  /\ get_personal_command d' 100 (u "давай") = None
  /\ get_personal_command_media d' 1
     = Some [{| pm_id := 1; pm_command_id := 1; pm_media_type := u "photo";
                pm_file_id := u "AgACAgIAAxkBAAIB";
                pm_created_at := Scenario.clock |}].
Proof. repeat split; vm_compute; reflexivity. Qed.

(* ================================================================= *)
(** ** The session store *)

Section Sessions.

Variable cfg : config.

Lemma same_sessions_refl (d : database) : same_sessions d d.
Proof. repeat split. Qed.

Lemma same_sessions_trans (a b c : database) :
  same_sessions a b -> same_sessions b c -> same_sessions a c.
Proof.
  intros (R1 & B1 & K1 & M1 & S1) (R2 & B2 & K2 & M2 & S2).
  repeat split; congruence.
Qed.

Lemma save_user_same (w : world) (d : database) (upd : update) :
  roles (save_user_from_update w d upd) = roles d
  /\ say_blocks (save_user_from_update w d upd) = say_blocks d
  /\ online_modes (save_user_from_update w d upd) = online_modes d.
Proof.
  unfold save_user_from_update, add_or_update_user.
  destruct (effective_user upd); [|repeat split].
  destruct (find _ (users d)); repeat split.
Qed.

Lemma save_user_sessions (w : world) (d : database) (upd : update) :
  same_sessions d (save_user_from_update w d upd).
Proof.
  destruct (save_user_same w d upd) as (R & B & M).
  unfold same_sessions, get_online_mode, get_online_mode_source.
  rewrite R, B, M. repeat split.
Qed.

Lemma can_use_bot_same (d d' : database) (uid : Z) :
  roles d' = roles d -> can_use_bot cfg d' uid = can_use_bot cfg d uid.
Proof.
  intros R. unfold can_use_bot, is_head_admin, is_gnome, role_is, get_role.
  now rewrite R.
Qed.

Lemma is_say_blocked_same (d d' : database) (uid : Z) :
  say_blocks d' = say_blocks d -> is_say_blocked d' uid = is_say_blocked d uid.
Proof. intros B. unfold is_say_blocked. now rewrite B. Qed.

Lemma find_filter_out {A : Type} (p : A -> bool) (l : list A) :
  find p (filter (fun x => negb (p x)) l) = None.
Proof.
  induction l as [|x l IH]; simpl; [reflexivity|].
  destruct (p x) eqn:E; simpl; [exact IH|]. now rewrite E.
Qed.

Lemma find_app_none {A : Type} (p : A -> bool) (l l' : list A) :
  find p l = None -> find p (l ++ l') = find p l'.
Proof.
  induction l as [|x l IH]; simpl; [reflexivity|].
  destruct (p x); [discriminate|exact IH].
Qed.

Lemma get_online_mode_set (d : database) (t : str) (uid : Z) (m : str)
    (src : option Z) :
  get_online_mode (set_online_mode d t uid m src) uid = Some m
  /\ get_online_mode_source (set_online_mode d t uid m src) uid = src.
Proof.
  unfold get_online_mode, get_online_mode_source, set_online_mode. simpl.
  rewrite (find_app_none _ _ _
             (find_filter_out (fun r => (om_user_id r =? uid)%Z) _)).
  simpl. rewrite Z.eqb_refl. now split.
Qed.

Lemma get_online_mode_remove (d : database) (uid : Z) :
  get_online_mode (remove_online_mode d uid) uid = None.
Proof.
  unfold get_online_mode, remove_online_mode. simpl.
  now rewrite (find_filter_out (fun r => (om_user_id r =? uid)%Z)).
Qed.

Lemma update_activity_sessions (d : database) (t : str) (uid : Z) :
  same_sessions d (update_online_activity d t uid).
Proof.
  unfold same_sessions, get_online_mode, get_online_mode_source,
    update_online_activity. simpl.
  repeat split.
  - rewrite map_map. apply map_ext. intros r.
    now destruct (om_user_id r =? uid)%Z.
  - intros k. induction (online_modes d) as [|r l IH]; simpl; [reflexivity|].
    destruct (om_user_id r =? uid)%Z; simpl;
      destruct (om_user_id r =? k)%Z; auto.
  - intros k. induction (online_modes d) as [|r l IH]; simpl; [reflexivity|].
    destruct (om_user_id r =? uid)%Z; simpl;
      destruct (om_user_id r =? k)%Z; auto.
Qed.

Lemma handle_all_messages_sessions (w : world) (d : database)
    (upd : update) :
  same_sessions d (fst (handle_all_messages cfg w d upd)).
Proof.
  unfold handle_all_messages.
  destruct (effective_user upd) as [usr|]; [|apply same_sessions_refl].
  destruct (upd_message upd) as [msg|]; [|apply same_sessions_refl].
  destruct (effective_chat upd) as [chat|]; [|apply same_sessions_refl].
  pose proof (save_user_sessions w d upd) as Hs.
  repeat match goal with
    | |- context [if ?b then _ else _] => destruct b
    | |- context [match dash_command ?m with _ => _ end] =>
        destruct (dash_command m)
    end; cbn [fst]; try exact Hs.
  eapply same_sessions_trans; [exact Hs|]. apply update_activity_sessions.
Qed.

Lemma session_stage_sessions (w : world) (d d' : database) (usr : tg_user)
    (msg : message) (chat : Z) (mode : option str) (sent : list action) :
  session_stage cfg w d usr msg chat mode = Some (d', sent) ->
  same_sessions d d'.
Proof.
  unfold session_stage. intros H.
  repeat match type of H with
    | context [if ?b then _ else _] => destruct b
    | context [match ?o with Some _ => _ | None => _ end] => destruct o
    end;
    try discriminate; injection H as <- _;
    first [apply same_sessions_refl | apply update_activity_sessions].
Qed.

Lemma handle_text_commands_sessions (w : world) (d : database)
    (upd : update) :
  same_sessions d (store (handle_text_commands cfg w d upd)).
Proof.
  unfold handle_text_commands.
  destruct (upd_message upd) as [msg|]; [|apply same_sessions_refl].
  destruct (negb (opt_truthy (text msg))); [apply same_sessions_refl|].
  destruct (effective_user upd) as [usr|]; [|apply same_sessions_refl].
  destruct (user_id usr =? 0)%Z; [apply same_sessions_refl|].
  destruct (effective_chat upd) as [chat|]; [|apply same_sessions_refl].
  destruct (template_stage _ _ _ _ _ _); [apply same_sessions_refl|].
  unfold admin_stages.
  destruct (negb _); [apply same_sessions_refl|].
  assert (L : forall uid t,
             same_sessions d (store (let '(st, acts, d') :=
                                       command_stages cfg d uid chat t in
                                     {| ended := st; actions := acts;
                                        store := d' |}))).
  { intros uid t. unfold command_stages.
    destruct (phrase_stage _ _); [apply same_sessions_refl|].
    destruct (restore_stage _ _ _); [apply same_sessions_refl|].
    destruct (alias_stage _ _ _ _); apply same_sessions_refl. }
  destruct (opt_truthy _).
  - destruct (session_stage _ _ _ _ _ _ _) as [[d' sent]|] eqn:E.
    + cbn. now apply (session_stage_sessions _ _ _ _ _ _ E).
    + specialize (L (user_id usr)
                    (lower (strip match text msg with
                                  | Some s => s | None => [] end))).
      destruct (command_stages _ _ _ _ _) as [[st acts] d']. exact L.
  - specialize (L (user_id usr)
                  (lower (strip match text msg with
                                | Some s => s | None => [] end))).
    destruct (command_stages _ _ _ _ _) as [[st acts] d']. exact L.
Qed.

Lemma delivered_sessions (d : database) (x : delivery) :
  same_sessions d (fst (delivered cfg d x)).
Proof.
  destruct x as [w upd|w upd]; cbn.
  - apply handle_all_messages_sessions.
  - apply handle_text_commands_sessions.
Qed.

Lemma deliver_all_sessions (l : list delivery) (d : database) :
  same_sessions d (deliver_all cfg d l).
Proof.
  revert d. induction l as [|x l IH]; intros d; simpl.
  - apply same_sessions_refl.
  - eapply same_sessions_trans; [apply delivered_sessions|apply IH].
Qed.

End Sessions.

Section Toggles.

Variable cfg : config.

Lemma keys_filter_nodup (q : online_mode_row -> bool)
    (l : list online_mode_row) :
  NoDup (map om_user_id l) -> NoDup (map om_user_id (filter q l)).
Proof.
  induction l as [|r l IH]; simpl; intros H; [constructor|].
  apply NoDup_cons_iff in H as [Hn Hd].
  destruct (q r); simpl; [|now apply IH].
  constructor; [|now apply IH].
  intros Hin. apply Hn. apply in_map_iff in Hin as (x & Hx & Hf).
  apply filter_In in Hf as [Hf _]. apply in_map_iff. now exists x.
Qed.

Lemma set_online_mode_one (d : database) (t : str) (uid : Z) (m : str)
    (src : option Z) :
  one_session_each d -> one_session_each (set_online_mode d t uid m src).
Proof.
  unfold one_session_each, set_online_mode. simpl. intros H.
  rewrite map_app. apply NoDup_app.
  - now apply keys_filter_nodup.
  - repeat constructor. intros [].
  - intros k Hk [<-|[]]. simpl in Hk.
    apply in_map_iff in Hk as (x & Hx & Hf).
    apply filter_In in Hf as [_ Hf].
    rewrite <- Hx, Z.eqb_refl in Hf. discriminate.
Qed.

Lemma remove_online_mode_one (d : database) (uid : Z) :
  one_session_each d -> one_session_each (remove_online_mode d uid).
Proof.
  unfold one_session_each, remove_online_mode. simpl.
  apply keys_filter_nodup.
Qed.

Lemma same_sessions_one (d d' : database) :
  same_sessions d d' -> one_session_each d -> one_session_each d'.
Proof.
  intros (_ & _ & K & _) H. unfold one_session_each. now rewrite K.
Qed.

Lemma sessions_of_set (d : database) (t : str) (uid : Z) (m : str)
    (src : option Z) :
  List.length (sessions_of (set_online_mode d t uid m src) uid) = 1.
Proof.
  unfold sessions_of, set_online_mode. simpl.
  rewrite filter_app. simpl. rewrite Z.eqb_refl.
  replace (filter _ (filter _ (online_modes d))) with (@nil online_mode_row).
  - reflexivity.
  - symmetry. induction (online_modes d) as [|r l IH]; simpl; [reflexivity|].
    destruct (om_user_id r =? uid)%Z eqn:E; simpl; [exact IH|].
    now rewrite E.
Qed.

(** The store a toggle returns. *)
Ltac toggle_cases Hu Hm :=
  rewrite Hu, Hm;
  match goal with
  | |- context [save_user_from_update ?w ?d ?upd] =>
      destruct (save_user_same w d upd) as (R & B & M);
      rewrite (can_use_bot_same cfg _ _ _ R), (is_say_blocked_same _ _ _ B);
      replace (get_online_mode (save_user_from_update w d upd))
        with (get_online_mode d)
        by (unfold get_online_mode; now rewrite M)
  end;
  repeat match goal with
    | |- context [if ?b then _ else _] => destruct b; cbn [negb orb fst]
    end;
  try reflexivity.

Lemma sayon_command_store (w : world) (d : database) (upd : update)
    (usr : tg_user) (msg : message) :
  effective_user upd = Some usr -> upd_message upd = Some msg ->
  fst (sayon_command cfg w d upd)
  = toggle_store cfg w d upd (user_id usr) sayon.
Proof.
  intros Hu Hm. unfold sayon_command, toggle_store, source_of.
  toggle_cases Hu Hm.
Qed.

Lemma sayson_command_store (w : world) (d : database) (upd : update)
    (usr : tg_user) (msg : message) :
  effective_user upd = Some usr -> upd_message upd = Some msg ->
  fst (sayson_command cfg w d upd)
  = toggle_store cfg w d upd (user_id usr) sayson.
Proof.
  intros Hu Hm. unfold sayson_command, toggle_store, source_of.
  toggle_cases Hu Hm.
Qed.

Lemma toggle_store_one (w : world) (d : database) (upd : update) (uid : Z)
    (m : str) :
  one_session_each d -> one_session_each (toggle_store cfg w d upd uid m).
Proof.
  intros H. unfold toggle_store.
  assert (H' : one_session_each (save_user_from_update w d upd))
    by (eapply same_sessions_one; [apply save_user_sessions|exact H]).
  destruct (_ || _); [exact H'|].
  destruct (mode_is _ _).
  - now apply remove_online_mode_one.
  - now apply set_online_mode_one.
Qed.

Lemma sayon_command_one (w : world) (d : database) (upd : update) :
  one_session_each d -> one_session_each (fst (sayon_command cfg w d upd)).
Proof.
  intros H.
  destruct (effective_user upd) as [usr|] eqn:Hu;
    [destruct (upd_message upd) as [msg|] eqn:Hm|].
  - rewrite (sayon_command_store w d upd Hu Hm). now apply toggle_store_one.
  - unfold sayon_command. rewrite Hu, Hm. cbn [fst].
    eapply same_sessions_one; [apply save_user_sessions|exact H].
  - unfold sayon_command. rewrite Hu. cbn [fst].
    eapply same_sessions_one; [apply save_user_sessions|exact H].
Qed.

Lemma sayson_command_one (w : world) (d : database) (upd : update) :
  one_session_each d -> one_session_each (fst (sayson_command cfg w d upd)).
Proof.
  intros H.
  destruct (effective_user upd) as [usr|] eqn:Hu;
    [destruct (upd_message upd) as [msg|] eqn:Hm|].
  - rewrite (sayson_command_store w d upd Hu Hm). now apply toggle_store_one.
  - unfold sayson_command. rewrite Hu, Hm. cbn [fst].
    eapply same_sessions_one; [apply save_user_sessions|exact H].
  - unfold sayson_command. rewrite Hu. cbn [fst].
    eapply same_sessions_one; [apply save_user_sessions|exact H].
Qed.

Lemma sayoff_command_one (w : world) (d : database) (upd : update) :
  one_session_each d -> one_session_each (fst (sayoff_command cfg w d upd)).
Proof.
  intros H.
  assert (H' : one_session_each (save_user_from_update w d upd))
    by (eapply same_sessions_one; [apply save_user_sessions|exact H]).
  unfold sayoff_command.
  destruct (effective_user upd) as [usr|]; [|exact H'].
  destruct (upd_message upd) as [msg|]; [|exact H'].
  repeat match goal with
    | |- context [if ?b then _ else _] => destruct b; cbn [fst]
    end; try exact H'.
  now apply remove_online_mode_one.
Qed.

End Toggles.

(** C9: every operation on the session table, the three session commands
    and both message handlers leave at most one session per principal.
    The toggle of the other mode, by a principal who may use the bot and
    is not blocked, replaces the session where it stands: the mode becomes
    the toggled one, the source becomes the chat of the toggle, and the
    principal still has exactly one row. *)
Theorem one_session_per_principal :
  forall (cfg : config) (w : world) (d : database) (upd : update)
         (t : str) (uid : Z) (m : str) (src : option Z) (x : delivery),
    one_session_each d ->
    one_session_each (set_online_mode d t uid m src)
    /\ one_session_each (update_online_activity d t uid)
    /\ one_session_each (remove_online_mode d uid)
    /\ one_session_each (clear_all_online_modes d)
    /\ one_session_each (fst (sayon_command cfg w d upd))
    /\ one_session_each (fst (sayson_command cfg w d upd))
    /\ one_session_each (fst (sayoff_command cfg w d upd))
    /\ one_session_each (fst (delivered cfg d x))
    /\ (forall usr msg,
          effective_user upd = Some usr -> upd_message upd = Some msg ->
          can_use_bot cfg d (user_id usr) = true ->
          is_say_blocked d (user_id usr) = false ->
          (get_online_mode d (user_id usr) = Some sayson ->
           let d' := fst (sayon_command cfg w d upd) in
           get_online_mode d' (user_id usr) = Some sayon
           /\ get_online_mode_source d' (user_id usr) = Some (source_of upd)
           /\ List.length (sessions_of d' (user_id usr)) = 1)
          /\ (get_online_mode d (user_id usr) = Some sayon ->
              let d' := fst (sayson_command cfg w d upd) in
              get_online_mode d' (user_id usr) = Some sayson
              /\ get_online_mode_source d' (user_id usr)
                 = Some (source_of upd)
              /\ List.length (sessions_of d' (user_id usr)) = 1)).
Proof.
  intros cfg w d upd t uid m src x H.
  split; [now apply set_online_mode_one|].
  split; [eapply same_sessions_one;
          [apply update_activity_sessions|exact H]|].
  split; [now apply remove_online_mode_one|].
  split; [constructor|].
  split; [now apply sayon_command_one|].
  split; [now apply sayson_command_one|].
  split; [now apply sayoff_command_one|].
  split; [eapply same_sessions_one; [apply delivered_sessions|exact H]|].
  intros usr msg Hu Hm Hcan Hblk. split; intros Hmode d'; subst d'.
  - rewrite (sayon_command_store cfg w d upd Hu Hm).
    unfold toggle_store. rewrite Hcan, Hblk, Hmode. cbn [negb orb mode_is].
    replace (str_eqb sayson sayon) with false by reflexivity.
    destruct (get_online_mode_set (save_user_from_update w d upd) (now w)
                (user_id usr) sayon (Some (source_of upd))) as [A B].
    repeat split; [exact A|exact B|apply sessions_of_set].
  - rewrite (sayson_command_store cfg w d upd Hu Hm).
    unfold toggle_store. rewrite Hcan, Hblk, Hmode. cbn [negb orb mode_is].
    replace (str_eqb sayon sayson) with false by reflexivity.
    destruct (get_online_mode_set (save_user_from_update w d upd) (now w)
                (user_id usr) sayson (Some (source_of upd))) as [A B].
    repeat split; [exact A|exact B|apply sessions_of_set].
Qed.

(** Dana has a signed session opened in chat 600 and toggles the
    anonymous mode in chat 650. *)
Lemma one_session_per_principal_witness :
  one_session_each Scenario.dana_signed
  /\ let d' := fst (sayson_command Scenario.cfg0 Scenario.world0
                      Scenario.dana_signed
                      (Scenario.event Scenario.dana 650 (u "/sayson"))) in
     get_online_mode d' 7 = Some sayson
     /\ get_online_mode_source d' 7 = Some 650%Z
     /\ List.length (sessions_of d' 7) = 1.
Proof.
  assert (H : one_session_each Scenario.dana_signed).
  { unfold one_session_each. vm_compute. repeat constructor. intros []. }
  split; [exact H|].
  destruct (one_session_per_principal Scenario.cfg0 Scenario.world0
              (Scenario.event Scenario.dana 650 (u "/sayson"))
              Scenario.clock 7 sayon None
              (ViaAllMessages Scenario.world0
                 (Scenario.event Scenario.dana 650 (u "/sayson"))) H)
    as (_ & _ & _ & _ & _ & _ & _ & _ & K).
  destruct (K Scenario.dana (Scenario.plain (u "/sayson")) eq_refl eq_refl)
    as [_ K2]; try (vm_compute; reflexivity).
  apply K2. vm_compute. reflexivity.
Defined.

(** C7: a principal without a session invokes the toggle of one mode,
    any number of messages are then forwarded through the message
    handlers, and the same principal invokes the same toggle again: the
    principal is without a session.  When the principal may use the bot and
    is not blocked, the first toggle creates the session in that mode, with
    the chat of the toggle as its source, and the forwards leave it in
    place. *)
Theorem toggle_twice_returns_to_inactive :
  forall (cfg : config)
         (toggle : config -> world -> database -> update
                   -> database * list action)
         (m : str),
    (toggle = sayon_command /\ m = sayon)
    \/ (toggle = sayson_command /\ m = sayson) ->
    forall (w1 w2 : world) (d : database) (upd1 upd2 : update)
           (usr1 usr2 : tg_user) (msg1 msg2 : message)
           (between : list delivery),
      effective_user upd1 = Some usr1 -> upd_message upd1 = Some msg1 ->
      effective_user upd2 = Some usr2 -> upd_message upd2 = Some msg2 ->
      user_id usr2 = user_id usr1 ->
      get_online_mode d (user_id usr1) = None ->
      let d1 := fst (toggle cfg w1 d upd1) in
      let d2 := deliver_all cfg d1 between in
      let d3 := fst (toggle cfg w2 d2 upd2) in
      only_forwards cfg d1 between = true ->
      get_online_mode d3 (user_id usr1) = None
      /\ (can_use_bot cfg d (user_id usr1) = true ->
          is_say_blocked d (user_id usr1) = false ->
          get_online_mode d1 (user_id usr1) = Some m
          /\ get_online_mode_source d1 (user_id usr1) = Some (source_of upd1)
          /\ get_online_mode d2 (user_id usr1) = Some m).
Proof.
  intros cfg toggle m Htoggle w1 w2 d upd1 upd2 usr1 usr2 msg1 msg2 between
    Hu1 Hm1 Hu2 Hm2 Hid Hnone d1 d2 d3 _.
  set (uid := user_id usr1) in *.
  assert (E1 : d1 = toggle_store cfg w1 d upd1 uid m).
  { subst d1 uid. destruct Htoggle as [[-> ->]|[-> ->]].
    - apply (sayon_command_store cfg w1 d upd1 Hu1 Hm1).
    - apply (sayson_command_store cfg w1 d upd1 Hu1 Hm1). }
  assert (E3 : d3 = toggle_store cfg w2 d2 upd2 uid m).
  { subst d3 uid. rewrite <- Hid. destruct Htoggle as [[-> ->]|[-> ->]].
    - apply (sayon_command_store cfg w2 d2 upd2 Hu2 Hm2).
    - apply (sayson_command_store cfg w2 d2 upd2 Hu2 Hm2). }
  assert (Hmm : mode_is (Some m) m = true) by apply str_eqb_refl.
  destruct (deliver_all_sessions cfg between d1) as (R2 & B2 & _ & M2 & _).
  fold d2 in R2, B2, M2.
  destruct (save_user_same w1 d upd1) as (R1 & B1 & O1).
  destruct (save_user_same w2 d2 upd2) as (R3 & B3 & O3).
  assert (Hsave1 : forall k, get_online_mode (save_user_from_update w1 d upd1) k
                             = get_online_mode d k)
    by (intros k; unfold get_online_mode; now rewrite O1).
  assert (Hsave3 : forall k, get_online_mode (save_user_from_update w2 d2 upd2) k
                             = get_online_mode d2 k)
    by (intros k; unfold get_online_mode; now rewrite O3).
  destruct (negb (can_use_bot cfg d uid) || is_say_blocked d uid) eqn:Hperm.
  - (* the toggle is refused both times *)
    assert (D1 : d1 = save_user_from_update w1 d upd1)
      by (rewrite E1; unfold toggle_store; now rewrite Hperm).
    assert (Hperm2 : negb (can_use_bot cfg d2 uid) || is_say_blocked d2 uid
                     = true).
    { rewrite (can_use_bot_same cfg d d2 uid),
        (is_say_blocked_same d d2 uid); [exact Hperm| |];
        rewrite ?R2, ?B2, D1; assumption. }
    split.
    + rewrite E3. unfold toggle_store. rewrite Hperm2.
      rewrite Hsave3, M2, D1, Hsave1. exact Hnone.
    + intros Hc Hb. rewrite Hc, Hb in Hperm. discriminate.
  - (* the first toggle opens the session, the second closes it *)
    assert (D1 : d1 = set_online_mode (save_user_from_update w1 d upd1)
                        (now w1) uid m (Some (source_of upd1))).
    { rewrite E1. unfold toggle_store. rewrite Hperm, Hnone. reflexivity. }
    destruct (get_online_mode_set (save_user_from_update w1 d upd1) (now w1)
                uid m (Some (source_of upd1))) as [A B].
    rewrite <- D1 in A, B.
    assert (Hperm2 : negb (can_use_bot cfg d2 uid) || is_say_blocked d2 uid
                     = false).
    { rewrite (can_use_bot_same cfg d d2 uid),
        (is_say_blocked_same d d2 uid); [exact Hperm| |];
        rewrite ?R2, ?B2, D1; assumption. }
    split.
    + rewrite E3. unfold toggle_store. rewrite Hperm2, M2, A, Hmm.
      apply get_online_mode_remove.
    + intros _ _. repeat split; [exact A|exact B|].
      now rewrite M2.
Qed.

(** Alice, an owner without a session, toggles the signed mode in chat
    500, sends [hello] there, and toggles the signed mode again. *)
Lemma toggle_twice_witness :
  let d1 := fst (sayon_command Scenario.cfg0 Scenario.world0 Scenario.staff
                   (Scenario.event Scenario.alice 500 (u "/sayon"))) in
  let hello := [ViaTextCommands Scenario.world0
                  (Scenario.event Scenario.alice 500 (u "hello"))] in
  let d2 := deliver_all Scenario.cfg0 d1 hello in
  let d3 := fst (sayon_command Scenario.cfg0 Scenario.world0 d2
                   (Scenario.event Scenario.alice 500 (u "/sayon"))) in
  get_online_mode Scenario.staff 9 = None
  /\ only_forwards Scenario.cfg0 d1 hello = true
  /\ get_online_mode d1 9 = Some sayon
  /\ get_online_mode d3 9 = None.
Proof.
  intros d1 hello d2 d3.
  assert (Hnone : get_online_mode Scenario.staff 9 = None) by reflexivity.
  assert (Hfw : only_forwards Scenario.cfg0 d1 hello = true)
    by (vm_compute; reflexivity).
  destruct (toggle_twice_returns_to_inactive Scenario.cfg0
              (or_introl (conj eq_refl eq_refl))
              Scenario.world0 Scenario.world0 Scenario.staff
              (Scenario.event Scenario.alice 500 (u "/sayon"))
              (Scenario.event Scenario.alice 500 (u "/sayon"))
              hello eq_refl eq_refl eq_refl eq_refl eq_refl Hnone Hfw)
    as [H3 H1].
  destruct H1 as (H1 & _ & _); try (vm_compute; reflexivity).
  repeat split; assumption.
Defined.

(* ================================================================= *)
(** ** Forwarding under a session *)

Section Forwarding.

Variable cfg : config.

Lemma mode_is_sayon : mode_is (Some sayon) sayon = true.
Proof. reflexivity. Qed.

Lemma mode_is_sayson : mode_is (Some sayson) sayson = true.
Proof. reflexivity. Qed.

Lemma sayson_is_not_sayon : mode_is (Some sayson) sayon = false.
Proof. reflexivity. Qed.

(** The body a session forwards: the text, or else the caption. *)
Lemma forward_under_mode_body (mode : option str) (usr : tg_user)
    (msg : message) (dest chat : Z) (body : str) :
  (text msg = Some body /\ truthy body = true)
  \/ (opt_truthy (text msg) = false
      /\ caption msg = Some body /\ truthy body = true) ->
  forward_under_mode mode usr msg dest chat
  = if mode_is mode sayon
    then [SendMessage dest (safe_send_message body ++ signature usr)]
    else if mode_is mode sayson
    then [SendMessage dest (safe_send_message body)]
    else [].
Proof.
  unfold forward_under_mode.
  intros [[Ht Hb]|(Ht & Hc & Hb)].
  - rewrite Ht. cbn [opt_truthy]. rewrite Hb. reflexivity.
  - rewrite Ht, Hc. cbn [opt_truthy]. rewrite Hb. reflexivity.
Qed.

Lemma forward_under_mode_forwards (mode : option str) (usr : tg_user)
    (msg : message) (dest chat : Z) :
  mode_is mode sayon || mode_is mode sayson = true ->
  forward_under_mode mode usr msg dest chat <> []
  /\ forallb is_forward (forward_under_mode mode usr msg dest chat) = true.
Proof.
  unfold forward_under_mode. intros H.
  destruct (mode_is mode sayon); [|destruct (mode_is mode sayson)];
    try discriminate;
    destruct (opt_truthy (text msg)); try (split; [discriminate|reflexivity]);
    destruct (opt_truthy (caption msg)); split;
    try discriminate; reflexivity.
Qed.

Lemma session_stage_sent (w : world) (d d' : database) (usr : tg_user)
    (msg : message) (chat : Z) (mode : option str) (sent : list action)
    (body : str) :
  text msg = Some body -> truthy body = true ->
  session_stage cfg w d usr msg chat mode = Some (d', sent) ->
  sent = []
  \/ (exists dest,
        USER_CHAT_ID cfg = Some dest
        /\ sent = if mode_is mode sayon
                  then [SendMessage dest
                          (safe_send_message body ++ signature usr)]
                  else if mode_is mode sayson
                  then [SendMessage dest (safe_send_message body)]
                  else []).
Proof.
  intros Ht Hb. unfold session_stage. rewrite Ht. cbn [opt_truthy].
  rewrite Hb.
  destruct (_ || _); [|discriminate].
  destruct (USER_CHAT_ID cfg) as [dest|]; cbn [id_truthy negb].
  - destruct (negb (dest =? 0)%Z); cbn [negb].
    + intros H. right. exists dest. split; [reflexivity|].
      destruct (mode_is mode sayon); [|destruct (mode_is mode sayson)];
        now injection H as _ <-.
    + intros H. left. now injection H as _ <-.
  - intros H. left. now injection H as _ <-.
Qed.

End Forwarding.

(** C5, as the code has it: a text or caption forwarded under the signed
    mode is the body as the forwarder cleans it, an empty line, and one
    line made of a dash, the full name the platform gives for the sender
    and the sender's handle behind [@], both cleaned, without
    parentheses; the store, and with it a display name set for the
    sender, has no part in it.  Under the anonymous mode it is the
    cleaned body and nothing else.  The text dispatch sends the same, or
    nothing when no broadcast chat is configured. *)
Theorem signed_forward_appends_signature :
  forall (cfg : config) (w : world) (d : database) (usr : tg_user)
         (msg : message) (dest chat : Z) (body : str),
    (text msg = Some body /\ truthy body = true)
    \/ (opt_truthy (text msg) = false
        /\ caption msg = Some body /\ truthy body = true) ->
    let name := safe_send_message (str_or (full_name usr) unknown) in
    let handle :=
      match username usr with
      | Some h => if truthy h then u "@" ++ safe_send_message h else []
      | None => []
      end in
    let signed :=
      safe_send_message body ++ nl ++ nl ++ u "— " ++ name ++ u " " ++ handle in
    forward_under_mode (Some sayon) usr msg dest chat
    = [SendMessage dest signed]
    /\ forward_under_mode (Some sayson) usr msg dest chat
       = [SendMessage dest (safe_send_message body)]
    /\ (text msg = Some body ->
        forall d' sent,
          (session_stage cfg w d usr msg chat (Some sayon) = Some (d', sent) ->
           sent = []
           \/ exists to, USER_CHAT_ID cfg = Some to
                         /\ sent = [SendMessage to signed])
          /\ (session_stage cfg w d usr msg chat (Some sayson)
              = Some (d', sent) ->
              sent = []
              \/ exists to, USER_CHAT_ID cfg = Some to
                            /\ sent = [SendMessage to
                                         (safe_send_message body)])).
Proof.
  intros cfg w d usr msg dest chat body Hbody name handle signed.
  assert (Hsig : safe_send_message body ++ signature usr = signed).
  { unfold signed, signature, name, handle.
    destruct (username usr) as [h|]; cbn [opt_truthy];
      [destruct (truthy h)|]; rewrite <- ?app_assoc; reflexivity. }
  rewrite <- Hsig.
  split; [|split].
  - rewrite (forward_under_mode_body _ usr msg dest chat Hbody).
    now rewrite mode_is_sayon.
  - rewrite (forward_under_mode_body _ usr msg dest chat Hbody).
    now rewrite sayson_is_not_sayon, mode_is_sayson.
  - intros Ht d' sent.
    assert (Hb : truthy body = true).
    { destruct Hbody as [[_ H]|(_ & _ & H)]; exact H. }
    split; intros H;
      destruct (session_stage_sent cfg w d usr msg chat _ Ht Hb H)
        as [->|(to & Hto & ->)]; try (now left); right; exists to.
    + now rewrite mode_is_sayon.
    + now rewrite sayson_is_not_sayon, mode_is_sayson.
Qed.

(** Alice, with the handle [ownerhandle], forwards [hello] under the
    signed mode. *)
Lemma signed_forward_witness :
  forward_under_mode (Some sayon) Scenario.alice (Scenario.plain (u "hello"))
    (-1001) 500
  = [SendMessage (-1001) (u "hello" ++ nl ++ nl ++ u "— Alice @ownerhandle")]
  /\ forward_under_mode (Some sayson) Scenario.alice
       (Scenario.plain (u "hello")) (-1001) 500
     = [SendMessage (-1001) (u "hello")].
Proof.
  destruct (signed_forward_appends_signature Scenario.cfg0 Scenario.world0
              Scenario.alice_signed Scenario.alice
              (Scenario.plain (u "hello")) (-1001) 500 (body := u "hello")
              (or_introl (conj eq_refl eq_refl)))
    as (H1 & H2 & _).
  split; [exact H1|exact H2].
Defined.

(** C5, as the claim has it, fails: the second scenario, in both message
    handlers, ends in [— Alice @ownerhandle]; the handle is not put in
    parentheses.  The name is the full name of the platform also when
    the sender has a display name of her own. *)
Lemma signature_parentheses_counterexample :
  let upd := Scenario.event Scenario.alice 500 (u "hello") in
  let sent := u "hello" ++ nl ++ nl ++ u "— Alice @ownerhandle" in
  let claimed := u "hello" ++ nl ++ nl ++ u "— Alice (@ownerhandle)" in
  get_online_mode Scenario.alice_signed 9 = Some sayon
  /\ snd (handle_all_messages Scenario.cfg0 Scenario.world0
            Scenario.alice_signed upd)
     = [SendMessage (-1001) sent]
  /\ actions (handle_text_commands Scenario.cfg0 Scenario.world0
                Scenario.alice_signed upd)
     = [SendMessage (-1001) sent]
  /\ sent <> claimed
  /\ get_display_name Scenario.alice_renamed 9 (Some (u "Alice")) = u "Санта"
  /\ snd (handle_all_messages Scenario.cfg0 Scenario.world0
            Scenario.alice_renamed upd)
     = [SendMessage (-1001) sent].
Proof.
  repeat split; try (vm_compute; reflexivity).
  vm_compute. discriminate.
Qed.

(* ================================================================= *)
(** ** Where the text dispatch forwards *)

Section Affinity.

Variable cfg : config.

Lemma send_media_no_forward (chat : Z) (m : media_row) (body : str) :
  existsb is_forward (send_media chat m body) = false.
Proof.
  unfold send_media.
  repeat match goal with
    | |- context [if ?b then _ else _] => destruct b
    end; reflexivity.
Qed.

Lemma template_stage_no_forward (w : world) (d : database) (usr : tg_user)
    (msg : message) (chat : Z) (t : str) (sent : list action) :
  template_stage w d usr msg chat t = Some sent ->
  existsb is_forward sent = false.
Proof.
  unfold template_stage.
  destruct (select_command d chat t); [|discriminate].
  destruct (clickable_s2 _); [|discriminate].
  destruct (_ && _); [|discriminate].
  destruct (get_personal_command_media _ _) as [pool|].
  - destruct (random_choice w pool); intros H; injection H as <-;
      [apply send_media_no_forward|reflexivity].
  - intros H. now injection H as <-.
Qed.

Lemma phrase_stage_no_forward (t : str) (acts : list action) :
  phrase_stage cfg t = Some acts -> existsb is_forward acts = false.
Proof.
  unfold phrase_stage, unmarry.
  repeat match goal with
    | |- context [if ?b then _ else _] => destruct b
    end; intros H; try discriminate; now injection H as <-.
Qed.

Lemma restore_stage_no_forward (uid : Z) (t : str) (acts : list action) :
  restore_stage cfg uid t = Some acts -> existsb is_forward acts = false.
Proof.
  unfold restore_stage, owner_only_import.
  destruct (Re.search_code _); [|destruct (Re.match_bare_code _)];
    destruct (is_owner cfg uid); intros H; try discriminate;
    now injection H as <-.
Qed.

Lemma alias_stage_no_forward (d : database) (chat : Z) (t : str)
    (acts : list action) :
  alias_stage cfg d chat t = Some acts -> existsb is_forward acts = false.
Proof.
  unfold alias_stage.
  destruct (resolve_alias d chat t) as [[cmd args]|]; [|discriminate].
  destruct (mem_str _ _); intros H; now injection H as <-.
Qed.

Lemma cleanup_no_forward (t : str) : existsb is_forward (cleanup t) = false.
Proof. unfold cleanup. now destruct (startswith _ _). Qed.

Lemma command_stages_no_forward (d : database) (uid chat : Z) (t : str) :
  existsb is_forward (snd (fst (command_stages cfg d uid chat t))) = false.
Proof.
  unfold command_stages.
  destruct (phrase_stage cfg t) eqn:P;
    [now apply (phrase_stage_no_forward t)|].
  destruct (restore_stage cfg uid t) eqn:R;
    [now apply (restore_stage_no_forward uid t)|].
  destruct (alias_stage cfg d chat t) eqn:A;
    [now apply (alias_stage_no_forward d chat t)|reflexivity].
Qed.

Lemma command_stages_store (d : database) (uid chat : Z) (t : str) :
  snd (command_stages cfg d uid chat t) = d.
Proof.
  unfold command_stages.
  destruct (phrase_stage cfg t); [reflexivity|].
  destruct (restore_stage cfg uid t); [reflexivity|].
  destruct (alias_stage cfg d chat t); reflexivity.
Qed.

Lemma command_stages_stage (d : database) (uid chat : Z) (t : str) :
  In (fst (fst (command_stages cfg d uid chat t)))
     [AtPhrase; AtRestore; AtAlias; AtEnd].
Proof.
  unfold command_stages.
  destruct (phrase_stage cfg t); [now left|].
  destruct (restore_stage cfg uid t); [now right; left|].
  destruct (alias_stage cfg d chat t); cbn; tauto.
Qed.

Lemma session_stage_closed (w : world) (d : database) (usr : tg_user)
    (msg : message) (chat : Z) (mode : option str) :
  is_owner cfg (user_id usr) = false ->
  get_online_mode_source d (user_id usr) <> Some chat ->
  session_stage cfg w d usr msg chat mode = None.
Proof.
  intros Ho Hs. unfold session_stage. rewrite Ho. cbn [orb].
  destruct (get_online_mode_source d (user_id usr)) as [s|]; [|reflexivity].
  destruct (Z.eqb_spec s chat); [|reflexivity]. congruence.
Qed.

Lemma session_stage_open (w : world) (d : database) (usr : tg_user)
    (msg : message) (chat dest : Z) (mode : option str) (body : str) :
  is_owner cfg (user_id usr) = true
  \/ get_online_mode_source d (user_id usr) = Some chat ->
  USER_CHAT_ID cfg = Some dest -> dest <> 0%Z ->
  text msg = Some body -> truthy body = true ->
  session_stage cfg w d usr msg chat mode
  = Some (update_online_activity d (now w) (user_id usr),
          forward_under_mode mode usr msg dest chat).
Proof.
  intros Hopen Hdest Hnz Ht Hb. unfold session_stage, forward_under_mode.
  replace (is_owner cfg (user_id usr)
           || match get_online_mode_source d (user_id usr) with
              | Some s => (s =? chat)%Z
              | None => false
              end) with true.
  - rewrite Hdest, Ht. cbn [id_truthy opt_truthy].
    rewrite Hb. destruct (Z.eqb_spec dest 0); [contradiction|].
    cbn [negb].
    destruct (mode_is mode sayon); [|destruct (mode_is mode sayson)];
      reflexivity.
  - symmetry. destruct Hopen as [->| ->]; [reflexivity|].
    rewrite Z.eqb_refl. apply orb_true_r.
Qed.

Lemma handle_text_commands_forward_free (w : world) (d : database)
    (upd : update) (usr : tg_user) (chat : Z) :
  effective_user upd = Some usr -> effective_chat upd = Some chat ->
  is_owner cfg (user_id usr) = false ->
  get_online_mode_source d (user_id usr) <> Some chat ->
  existsb is_forward (actions (handle_text_commands cfg w d upd)) = false.
Proof.
  intros Hu Hc Ho Hs. unfold handle_text_commands. rewrite Hu, Hc.
  destruct (upd_message upd) as [msg|]; [|reflexivity].
  destruct (negb (opt_truthy (text msg))); [reflexivity|].
  destruct (user_id usr =? 0)%Z; [reflexivity|].
  destruct (template_stage _ _ _ _ _ _) as [sent|] eqn:T.
  - cbn [actions]. rewrite existsb_app, cleanup_no_forward.
    now apply (template_stage_no_forward _ _ _ _ _ _ T).
  - unfold admin_stages.
    rewrite (session_stage_closed w d usr msg _ Ho Hs).
    destruct (negb _);
      [cbn [actions]; rewrite existsb_app, cleanup_no_forward; reflexivity|].
    pose proof (command_stages_no_forward d (user_id usr) chat
                  (lower (strip match text msg with
                                | Some s => s | None => [] end))) as L.
    destruct (opt_truthy _);
      destruct (command_stages _ _ _ _ _) as [[st acts] d'];
      cbn [actions]; rewrite existsb_app, cleanup_no_forward; exact L.
Qed.

Lemma mode_active_truthy (mode : option str) :
  mode_is mode sayon || mode_is mode sayson = true -> opt_truthy mode = true.
Proof.
  destruct mode as [m|]; [|discriminate]. cbn [mode_is opt_truthy].
  intros H. apply orb_prop in H as [H|H]; apply str_eqb_eq in H; now subst.
Qed.

End Affinity.

(** C6: a principal who is not an owner and writes from another chat than
    the source of the session has nothing forwarded, by either message
    handler; an owner with a session in one of the two modes has the
    message forwarded to the broadcast chat from whatever chat it comes
    ([handle_all_messages] on any message that is not a profile command,
    the text dispatch on any text its template stage passes on). *)
Theorem source_affinity :
  forall (cfg : config) (w : world) (d : database) (upd : update)
         (usr : tg_user) (msg : message) (chat : Z),
    effective_user upd = Some usr -> upd_message upd = Some msg ->
    effective_chat upd = Some chat ->
    let uid := user_id usr in
    let mode := get_online_mode d uid in
    (is_owner cfg uid = false ->
     get_online_mode_source d uid <> Some chat ->
     existsb is_forward (snd (handle_all_messages cfg w d upd)) = false
     /\ existsb is_forward (actions (handle_text_commands cfg w d upd))
        = false)
    /\ (is_owner cfg uid = true ->
        mode_is mode sayon || mode_is mode sayson = true ->
        forall dest, USER_CHAT_ID cfg = Some dest -> dest <> 0%Z ->
          forward_under_mode mode usr msg dest chat <> []
          /\ forallb is_forward (forward_under_mode mode usr msg dest chat)
             = true
          /\ (dash_command msg = None ->
              snd (handle_all_messages cfg w d upd)
              = forward_under_mode mode usr msg dest chat)
          /\ (forall body,
                text msg = Some body -> truthy body = true ->
                uid <> 0%Z ->
                template_stage w d usr msg chat (lower (strip body)) = None ->
                ended (handle_text_commands cfg w d upd) = AtSession
                /\ actions (handle_text_commands cfg w d upd)
                   = cleanup (lower (strip body))
                     ++ forward_under_mode mode usr msg dest chat)).
Proof.
  intros cfg w d upd usr msg chat Hu Hm Hc uid mode.
  destruct (save_user_same w d upd) as (R & B & O).
  assert (Hmode : get_online_mode (save_user_from_update w d upd) uid = mode)
    by (unfold mode, get_online_mode; now rewrite O).
  assert (Hsrc : get_online_mode_source (save_user_from_update w d upd) uid
                 = get_online_mode_source d uid)
    by (unfold get_online_mode_source; now rewrite O).
  split.
  - intros Ho Hs. split.
    + unfold handle_all_messages. rewrite Hu, Hm, Hc. fold uid.
      rewrite Hmode, Hsrc, Ho.
      destruct (negb (can_use_bot _ _ _)); [reflexivity|].
      destruct (dash_command msg) as [call|] eqn:Hd.
      * unfold dash_command in Hd.
        destruct (text msg); [|discriminate].
        repeat match type of Hd with
          | context [if ?b then _ else _] => destruct b
          end; try discriminate; now injection Hd as <-.
      * destruct (negb (id_truthy _)); [reflexivity|].
        destruct (negb (opt_truthy mode)); [reflexivity|].
        replace (match get_online_mode_source d uid with
                 | Some s => (s =? chat)%Z
                 | None => false
                 end) with false; [reflexivity|].
        destruct (get_online_mode_source d uid) as [s|]; [|reflexivity].
        destruct (Z.eqb_spec s chat); [congruence|reflexivity].
    + now apply (handle_text_commands_forward_free cfg w d upd Hu Hc).
  - intros Ho Hact dest Hdest Hnz.
    destruct (forward_under_mode_forwards mode usr msg dest chat Hact)
      as [Hne Hall].
    pose proof (mode_active_truthy mode Hact) as Htr.
    split; [exact Hne|]. split; [exact Hall|]. split.
    + intros Hd. unfold handle_all_messages. rewrite Hu, Hm, Hc. fold uid.
      rewrite Hmode, Hsrc, Ho, Hd, Hdest, Htr.
      unfold can_use_bot. fold uid. rewrite Ho. cbn [orb negb id_truthy].
      destruct (Z.eqb_spec dest 0); [contradiction|]. reflexivity.
    + intros body Ht Hb Hz HT.
      unfold handle_text_commands. rewrite Hu, Hm, Hc, Ht. fold uid.
      cbn [opt_truthy]. rewrite Hb.
      destruct (Z.eqb_spec uid 0); [contradiction|]. cbn [negb].
      rewrite HT. unfold admin_stages. fold uid. rewrite Ho. cbn [orb negb].
      fold mode. rewrite Htr.
      rewrite (@session_stage_open cfg w d usr msg chat dest mode body
                 (or_introl Ho) Hdest Hnz Ht Hb).
      split; reflexivity.
Qed.

(** The third scenario: Dana, a head admin with a signed session opened in
    chat 600, writes from chat 700 and nothing is forwarded; Alice, an
    owner with a signed session opened in chat 500, writes from chat 700
    and the message is forwarded. *)
Lemma source_affinity_witness :
  existsb is_forward
    (actions (handle_text_commands Scenario.cfg0 Scenario.world0
                Scenario.dana_signed
                (Scenario.event Scenario.dana 700 (u "hello")))) = false
  /\ actions (handle_text_commands Scenario.cfg0 Scenario.world0
                Scenario.alice_signed
                (Scenario.event Scenario.alice 700 (u "hello")))
     = [SendMessage (-1001) (u "hello" ++ nl ++ nl ++ u "— Alice @ownerhandle")].
Proof.
  split.
  - destruct (source_affinity Scenario.cfg0 Scenario.world0
                Scenario.dana_signed
                (Scenario.event Scenario.dana 700 (u "hello"))
                eq_refl eq_refl eq_refl) as [H _].
    apply H; [reflexivity|].
    vm_compute. discriminate.
  - destruct (source_affinity Scenario.cfg0 Scenario.world0
                Scenario.alice_signed
                (Scenario.event Scenario.alice 700 (u "hello"))
                eq_refl eq_refl eq_refl) as [_ H].
    destruct (H eq_refl eq_refl (-1001)%Z eq_refl) as (_ & _ & _ & K);
      [discriminate|].
    destruct (K (u "hello") eq_refl eq_refl) as [_ K2];
      [discriminate|vm_compute; reflexivity|].
    rewrite K2. vm_compute. reflexivity.
Defined.

(* ================================================================= *)
(** ** The order of the stages *)

Section Stages.

Variable cfg : config.

Lemma admin_stages_stage (w : world) (d : database) (usr : tg_user)
    (msg : message) (chat : Z) (t : str) :
  In (fst (fst (admin_stages cfg w d usr msg chat t)))
     [AtGate; AtSession; AtPhrase; AtRestore; AtAlias; AtEnd].
Proof.
  unfold admin_stages.
  destruct (negb _); [now left|].
  assert (L := command_stages_stage cfg d (user_id usr) chat t).
  destruct (opt_truthy _);
    [destruct (session_stage _ _ _ _ _ _ _) as [[d' sent]|];
     [now right; left|]|];
    cbn in L |- *; tauto.
Qed.

(** The text dispatch of a well-formed text event, stage by stage. *)
Lemma handle_text_commands_unfold (w : world) (d : database) (upd : update)
    (usr : tg_user) (msg : message) (chat : Z) (body : str) :
  effective_user upd = Some usr -> upd_message upd = Some msg ->
  effective_chat upd = Some chat ->
  text msg = Some body -> truthy body = true -> user_id usr <> 0%Z ->
  let t := lower (strip body) in
  handle_text_commands cfg w d upd
  = match template_stage w d usr msg chat t with
    | Some sent =>
        {| ended := AtTemplate; actions := cleanup t ++ sent; store := d |}
    | None =>
        let '(st, acts, d') := admin_stages cfg w d usr msg chat t in
        {| ended := st; actions := cleanup t ++ acts; store := d' |}
    end.
Proof.
  intros Hu Hm Hc Ht Hb Hz t. unfold handle_text_commands.
  rewrite Hu, Hm, Hc, Ht. cbn [opt_truthy]. rewrite Hb. cbn [negb].
  destruct (Z.eqb_spec (user_id usr) 0); [contradiction|]. reflexivity.
Qed.

Lemma find_participant_unresolved (w : world) (d : database)
    (msg : message) (extra : str) :
  (forall h, Re.search_username extra = Some h ->
             get_user_by_username d h = None
             /\ get_chat w (64%N :: h) = None) ->
  (forall r, reply_to_message msg = Some r -> from_user r = None) ->
  find_participant w d msg extra
  = {| target_id := None; clickable_s2 := None;
       extra_text_for_output := extra |}.
Proof.
  intros Hh Hr. unfold find_participant.
  destruct (Re.search_username extra) as [h|].
  - destruct (Hh h eq_refl) as [Hd Ht].
    unfold find_in_db, find_in_telegram. rewrite Hd. cbn. rewrite Ht.
    unfold find_in_reply. cbn.
    destruct (reply_to_message msg) as [r|]; [|reflexivity].
    now rewrite (Hr r eq_refl).
  - unfold find_in_reply. cbn.
    destruct (reply_to_message msg) as [r|]; [|reflexivity].
    now rewrite (Hr r eq_refl).
Qed.

Lemma template_stage_unresolved (w : world) (d : database) (usr : tg_user)
    (msg : message) (chat : Z) (t : str) (c : command_info) :
  select_command d chat t = Some c ->
  id_truthy (target_id
               (find_participant w d msg
                  (strip (slice_from t (List.length (ci_name c)))))) = false ->
  template_stage w d usr msg chat t = None.
Proof.
  intros Hs Hn. unfold template_stage. rewrite Hs.
  destruct (clickable_s2 _); [|reflexivity]. now rewrite Hn.
Qed.

End Stages.

(** C1, as the code has it: when the text matches a template command of
    its chat and no second participant is found (the handle in the rest of
    the text, if there is one, is neither in the local directory nor known
    to the platform, and the message answers nobody), the template stage
    sends nothing and the dispatch goes on exactly as if no template had
    matched: it is decided by the stages from the role test on.  For a
    sender who is neither owner nor head admin it ends at that test with
    nothing sent. *)
Theorem unresolved_template_falls_through :
  forall (cfg : config) (w : world) (d : database) (upd : update)
         (usr : tg_user) (msg : message) (chat : Z) (body : str)
         (c : command_info),
    effective_user upd = Some usr -> upd_message upd = Some msg ->
    effective_chat upd = Some chat ->
    text msg = Some body -> truthy body = true -> user_id usr <> 0%Z ->
    let t := lower (strip body) in
    let rest := strip (slice_from t (List.length (ci_name c))) in
    select_command d chat t = Some c ->
    (forall h, Re.search_username rest = Some h ->
               get_user_by_username d h = None
               /\ get_chat w (u "@" ++ h) = None) ->
    (forall r, reply_to_message msg = Some r -> from_user r = None) ->
    let r := handle_text_commands cfg w d upd in
    template_stage w d usr msg chat t = None
    /\ (ended r, actions r, store r)
       = (let '(st, acts, d') := admin_stages cfg w d usr msg chat t in
          (st, cleanup t ++ acts, d'))
    /\ In (ended r) [AtGate; AtSession; AtPhrase; AtRestore; AtAlias; AtEnd]
    /\ (is_owner cfg (user_id usr) || role_is d (user_id usr) (u "head_admin")
        = false ->
        ended r = AtGate /\ actions r = cleanup t /\ store r = d).
Proof.
  intros cfg w d upd usr msg chat body c Hu Hm Hc Ht Hb Hz t rest Hs Hh Hr r.
  assert (HT : template_stage w d usr msg chat t = None).
  { apply (template_stage_unresolved w d usr msg chat t Hs).
    fold rest. now rewrite (find_participant_unresolved w d msg rest Hh Hr). }
  assert (E : r = let '(st, acts, d') := admin_stages cfg w d usr msg chat t in
                  {| ended := st; actions := cleanup t ++ acts;
                     store := d' |}).
  { unfold r. rewrite (handle_text_commands_unfold cfg w d upd Hu Hm Hc Ht Hb Hz).
    fold t. now rewrite HT. }
  split; [exact HT|].
  pose proof (admin_stages_stage cfg w d usr msg chat t) as Hst.
  split; [|split].
  - rewrite E. now destruct (admin_stages _ _ _ _ _ _ _) as [[st acts] d'].
  - rewrite E. now destruct (admin_stages _ _ _ _ _ _ _) as [[st acts] d'].
  - intros Hadm. rewrite E. unfold admin_stages. rewrite Hadm. cbn.
    rewrite app_nil_r. now repeat split.
Qed.

(** Mila, an ordinary member, writes [давай права] in chat 100, where the
    template [давай] is registered: nothing is sent. *)
Lemma unresolved_template_witness :
  select_command Scenario.with_templates 100 (u "давай права")
  = Some {| ci_name := u "давай"; ci_template := u "@s1 дає @s2 @t";
            ci_id := 1 |}
  /\ let r := handle_text_commands Scenario.cfg0 Scenario.world0
                Scenario.with_templates
                (Scenario.event Scenario.mila 100 (u "давай права")) in
     ended r = AtGate /\ actions r = [] /\ store r = Scenario.with_templates.
Proof.
  assert (E : select_command Scenario.with_templates 100
                (lower (strip (u "давай права")))
              = Some {| ci_name := u "давай";
                        ci_template := u "@s1 дає @s2 @t"; ci_id := 1 |})
    by (vm_compute; reflexivity).
  split; [exact E|].
  destruct (unresolved_template_falls_through Scenario.cfg0 Scenario.world0
              Scenario.with_templates
              (Scenario.event Scenario.mila 100 (u "давай права"))
              (body := u "давай права")
              eq_refl eq_refl eq_refl eq_refl eq_refl
              ltac:(discriminate) E)
    as (_ & _ & _ & H).
  - intros h Hh. vm_compute in Hh. discriminate.
  - intros r Hr. discriminate.
  - apply H. vm_compute. reflexivity.
Defined.

(** C1, as the claim has it, fails: Alice, an owner, writes [давай права]
    in chat 100, where the template [давай] is registered, names nobody
    and answers nobody.  The template matches, no participant is found, and
    the dispatch goes on to the phrase table, which calls [giveperm]. *)
Lemma unresolved_template_counterexample :
  let upd := Scenario.event Scenario.alice 100 (u "давай права") in
  let r := handle_text_commands Scenario.cfg0 Scenario.world0
             Scenario.with_templates upd in
  select_command Scenario.with_templates 100 (u "давай права")
  = Some {| ci_name := u "давай"; ci_template := u "@s1 дає @s2 @t";
            ci_id := 1 |}
  /\ Re.search_username (u "права") = None
  /\ ended r = AtPhrase
  /\ actions r = [Call (u "giveperm") None]
  /\ ~ (ended r = AtTemplate /\ actions r = []).
Proof.
  repeat split; try (vm_compute; reflexivity).
  intros [H _]. vm_compute in H. discriminate.
Qed.

(** C2, as the code has it: for a text the template stage passes on, from
    an owner or head admin with a session, the dispatch ends at the session
    stage when the sender is an owner or writes from the chat the session
    was opened in; whatever is sent there is a forward, and without a
    configured broadcast chat nothing is.  A sender who is not an owner and
    writes from another chat has nothing forwarded, and the dispatch is
    decided by the phrase table, the backup codes and the aliases. *)
Theorem session_short_circuit :
  forall (cfg : config) (w : world) (d : database) (upd : update)
         (usr : tg_user) (msg : message) (chat : Z) (body : str),
    effective_user upd = Some usr -> upd_message upd = Some msg ->
    effective_chat upd = Some chat ->
    text msg = Some body -> truthy body = true -> user_id usr <> 0%Z ->
    let uid := user_id usr in
    let t := lower (strip body) in
    template_stage w d usr msg chat t = None ->
    is_owner cfg uid || role_is d uid (u "head_admin") = true ->
    opt_truthy (get_online_mode d uid) = true ->
    let r := handle_text_commands cfg w d upd in
    (is_owner cfg uid = true \/ get_online_mode_source d uid = Some chat ->
     ended r = AtSession
     /\ (exists sent, actions r = cleanup t ++ sent
                      /\ forallb is_forward sent = true)
     /\ (id_truthy (USER_CHAT_ID cfg) = false -> actions r = cleanup t))
    /\ (is_owner cfg uid = false ->
        get_online_mode_source d uid <> Some chat ->
        existsb is_forward (actions r) = false
        /\ (ended r, actions r, store r)
           = (let '(st, acts, d') := command_stages cfg d uid chat t in
              (st, cleanup t ++ acts, d'))).
Proof.
  intros cfg w d upd usr msg chat body Hu Hm Hc Ht Hb Hz uid t HT Hadm Hact r.
  assert (E : r = let '(st, acts, d') := admin_stages cfg w d usr msg chat t in
                  {| ended := st; actions := cleanup t ++ acts;
                     store := d' |}).
  { unfold r. rewrite (handle_text_commands_unfold cfg w d upd Hu Hm Hc Ht Hb Hz).
    fold t. now rewrite HT. }
  split.
  - intros Hopen. rewrite E. unfold admin_stages. fold uid.
    rewrite Hadm, Hact. cbn [negb].
    unfold session_stage. fold uid.
    replace (is_owner cfg uid
             || match get_online_mode_source d uid with
                | Some s => (s =? chat)%Z
                | None => false
                end) with true.
    + rewrite Ht. cbn [opt_truthy]. rewrite Hb.
      destruct (id_truthy (USER_CHAT_ID cfg)); cbn [negb].
      * destruct (mode_is _ sayon); [|destruct (mode_is _ sayson)];
          cbn [ended actions]; (split; [reflexivity|]);
          (split; [eexists; split; reflexivity|discriminate]).
      * cbn [ended actions]. split; [reflexivity|].
        split; [exists []; split; reflexivity|].
        intros _. apply app_nil_r.
    + symmetry. destruct Hopen as [->| ->]; [reflexivity|].
      rewrite Z.eqb_refl. apply orb_true_r.
  - intros Ho Hs. split.
    + now apply (handle_text_commands_forward_free cfg w d upd Hu Hc).
    + rewrite E. unfold admin_stages. fold uid.
      rewrite Hadm, Hact. cbn [negb].
      rewrite (session_stage_closed cfg w d usr msg _ Ho Hs).
      now destruct (command_stages _ _ _ _ _) as [[st acts] d'].
Qed.

(** Dana, a head admin with a signed session opened in chat 600, writes
    [адміни] there: the text is forwarded and the dispatch ends. *)
Lemma session_short_circuit_witness :
  let r := handle_text_commands Scenario.cfg0 Scenario.world0
             Scenario.dana_signed
             (Scenario.event Scenario.dana 600 (u "адміни")) in
  get_online_mode Scenario.dana_signed 7 = Some sayon
  /\ ended r = AtSession
  /\ exists sent, actions r = cleanup (lower (strip (u "адміни"))) ++ sent
                  /\ forallb is_forward sent = true.
Proof.
  intros r. split; [vm_compute; reflexivity|].
  destruct (session_short_circuit Scenario.cfg0 Scenario.world0
              Scenario.dana_signed
              (Scenario.event Scenario.dana 600 (u "адміни"))
              (body := u "адміни")
              eq_refl eq_refl eq_refl eq_refl eq_refl ltac:(discriminate))
    as [H _]; try (vm_compute; reflexivity).
  destruct H as (H1 & H2 & _).
  - right. vm_compute. reflexivity.
  - split; [exact H1|exact H2].
Defined.

(** C2, as the claim has it, fails: Dana has a signed session opened in
    chat 600 and writes [адміни] in chat 700.  Nothing is forwarded and the
    phrase table runs: [admin_list] is called. *)
Lemma session_short_circuit_counterexample :
  let r := handle_text_commands Scenario.cfg0 Scenario.world0
             Scenario.dana_signed
             (Scenario.event Scenario.dana 700 (u "адміни")) in
  get_online_mode Scenario.dana_signed 7 = Some sayon
  /\ get_online_mode_source Scenario.dana_signed 7 = Some 600%Z
  /\ ended r = AtPhrase
  /\ actions r = [Call (u "admin_list") None]
  /\ ended r <> AtSession.
Proof.
  repeat split; try (vm_compute; reflexivity).
  vm_compute. discriminate.
Qed.

(* ================================================================= *)
(** ** Lowercasing before the template stage *)

Section Lowercase.

Lemma is_lowercase_forall (s : str) : is_lowercase s <-> Forall lower_fixed s.
Proof.
  unfold is_lowercase, lower, lower_fixed.
  induction s as [|c s IH]; simpl; split; intros H.
  - constructor.
  - reflexivity.
  - injection H as Hc Hs. constructor; [exact Hc|now apply IH].
  - inversion H as [|? ? Hc Hs]; subst. rewrite Hc. f_equal. now apply IH.
Qed.

Lemma lower_is_lowercase (s : str) : is_lowercase (lower s).
Proof. apply lower_idem. Qed.

Lemma Forall_skip {A : Type} (P : A -> Prop) (n : nat) (l : list A) :
  Forall P l -> Forall P (skipn n l).
Proof.
  revert l. induction n as [|n IH]; intros l H; [exact H|].
  destruct l as [|x l]; [constructor|].
  inversion H; subst. now apply IH.
Qed.

Lemma Forall_lstrip (P : N -> Prop) (s : str) :
  Forall P s -> Forall P (lstrip s).
Proof.
  induction 1 as [|c s Hc Hs IH]; simpl; [constructor|].
  destruct (isspace c); [exact IH|now constructor].
Qed.

Lemma Forall_strip (P : N -> Prop) (s : str) :
  Forall P s -> Forall P (strip s).
Proof.
  intros H. unfold strip, rstrip.
  apply Forall_rev, Forall_lstrip, Forall_rev, Forall_lstrip, H.
Qed.

(** Deleting the occurrences of a substring leaves characters of the
    string. *)
Lemma Forall_replace_from (P : N -> Prop) (old s : str) (k : nat) :
  Forall P s -> Forall P (replace_from old [] s k).
Proof.
  intros H. revert k.
  induction H as [|c s Hc Hs IH]; intros k; cbn [replace_from].
  - constructor.
  - destruct k as [|k]; [|apply IH].
    destruct (startswith (c :: s) old); cbn [app]; [apply IH|].
    constructor; [exact Hc|apply IH].
Qed.

Lemma Forall_delete (P : N -> Prop) (s old : str) :
  old <> [] -> Forall P s -> Forall P (replace s old []).
Proof.
  intros Ho H. unfold replace. destruct old; [contradiction|].
  now apply Forall_replace_from.
Qed.

Lemma without_handle_chars (P : N -> Prop) (extra h : str) :
  Forall P extra -> Forall P (without_handle extra h).
Proof.
  intros H. unfold without_handle.
  apply Forall_strip, Forall_delete; [discriminate|exact H].
Qed.

(** The text put in the place of [@t] is made of characters of the rest
    of the text. *)
Lemma find_participant_chars (P : N -> Prop) (w : world) (d : database)
    (msg : message) (extra : str) :
  Forall P extra ->
  Forall P (extra_text_for_output (find_participant w d msg extra)).
Proof.
  intros H. unfold find_participant.
  assert (R : forall p, extra_text_for_output (find_in_reply d msg p)
                        = extra_text_for_output p).
  { intros p. unfold find_in_reply.
    destruct (id_truthy _); [reflexivity|].
    destruct (reply_to_message msg) as [r|]; [|reflexivity].
    now destruct (from_user r). }
  rewrite R.
  destruct (Re.search_username extra) as [h|]; [|exact H].
  unfold find_in_telegram, find_in_db.
  destruct (get_user_by_username d h); cbn [target_id extra_text_for_output];
    repeat match goal with
      | |- context [if ?b then _ else _] => destruct b
      | |- context [match get_chat ?w ?n with _ => _ end] =>
          destruct (get_chat w n)
      end;
    cbn [extra_text_for_output];
    first [exact H | now apply without_handle_chars].
Qed.

(** What the template stage sends when it handles a text. *)
Lemma template_stage_sent (w : world) (d : database) (usr : tg_user)
    (msg : message) (chat : Z) (t : str) (sent : list action) :
  template_stage w d usr msg chat t = Some sent ->
  exists c s2,
    select_command d chat t = Some c
    /\ let p := find_participant w d msg
                  (strip (slice_from t (List.length (ci_name c)))) in
       let out :=
         render (ci_template c)
           (mention (user_id usr)
              (get_display_name d (user_id usr)
                 (Some (str_or (full_name usr) unknown))))
           s2 (extra_text_for_output p) in
       clickable_s2 p = Some s2
       /\ (sent = [ReplyText out] \/ exists m, sent = send_media chat m out).
Proof.
  unfold template_stage.
  destruct (select_command d chat t) as [c|]; [|discriminate].
  destruct (clickable_s2 _) as [s2|] eqn:E; [|discriminate].
  destruct (_ && _); [|discriminate].
  intros H. exists c, s2. split; [reflexivity|]. cbv zeta.
  split; [exact E|].
  destruct (get_personal_command_media _ _) as [rows|].
  - destruct (random_choice w rows) as [m|]; injection H as <-;
      [right; now exists m|now left].
  - injection H as <-. now left.
Qed.

Lemma find_participant_reply (w : world) (d : database) (msg msg' : message)
    (extra : str) :
  reply_to_message msg' = reply_to_message msg ->
  find_participant w d msg' extra = find_participant w d msg extra.
Proof.
  intros H. unfold find_participant, find_in_reply. now rewrite H.
Qed.

Lemma template_stage_reply (w : world) (d : database) (usr : tg_user)
    (msg msg' : message) (chat : Z) (t : str) :
  reply_to_message msg' = reply_to_message msg ->
  template_stage w d usr msg' chat t = template_stage w d usr msg chat t.
Proof.
  intros H. unfold template_stage.
  destruct (select_command d chat t); [|reflexivity].
  now rewrite (find_participant_reply w d msg msg' _ H).
Qed.

Lemma lower_strip_lower (s : str) :
  lower (strip (lower s)) = lower (strip s).
Proof. now rewrite strip_lower, lower_idem. Qed.

Lemma truthy_lower (s : str) : truthy (lower s) = truthy s.
Proof. now destruct s. Qed.

End Lowercase.

(** C10: the template stage works on the lowercased text.  When it
    handles a text, the command was selected for the lowercased, trimmed
    text; the reply is the template of that command filled in, and what
    stands in the place of [@t] is the rest of the lowercased text behind
    the name of the command, without the handle that was used: a
    lowercase string made of characters of the lowercased text.  The
    lowercased form of the text is dispatched to the same result.  The
    text and the names of the commands are taken without U+0130 and
    U+03A3, for which [lower] is not [str.lower]. *)
Theorem template_dispatch_lowercases :
  forall (cfg : config) (w : world) (d : database) (upd : update)
         (usr : tg_user) (msg : message) (chat : Z) (body : str),
    effective_user upd = Some usr -> upd_message upd = Some msg ->
    effective_chat upd = Some chat -> text msg = Some body ->
    lower_exact body ->
    Forall (fun r => lower_exact (pc_command_name r)) (personal_commands d) ->
    let t := lower (strip body) in
    let r := handle_text_commands cfg w d upd in
    ended r = AtTemplate ->
    exists c s2,
      select_command d chat t = Some c
      /\ let p := find_participant w d msg
                    (strip (slice_from t (List.length (ci_name c)))) in
         let extra := extra_text_for_output p in
         let out :=
           render (ci_template c)
             (mention (user_id usr)
                (get_display_name d (user_id usr)
                   (Some (str_or (full_name usr) unknown))))
             s2 extra in
         clickable_s2 p = Some s2
         /\ is_lowercase extra
         /\ Forall (fun ch => In ch (lower body)) extra
         /\ (actions r = cleanup t ++ [ReplyText out]
             \/ exists m, actions r = cleanup t ++ send_media chat m out)
         /\ handle_text_commands cfg w d (with_text upd (lower body)) = r.
Proof.
  intros cfg w d upd usr msg chat body Hu Hm Hc Ht _ _ t r Hend.
  set (upd' := with_text upd (lower body)).
  assert (Hm' : upd_message upd'
                = Some {| text := Some (lower body); caption := caption msg;
                          message_id := message_id msg;
                          reply_to_message := reply_to_message msg |})
    by (unfold upd', with_text; now rewrite Hm).
  assert (Hb : truthy body = true).
  { destruct (truthy body) eqn:Hb; [reflexivity|].
    unfold r, handle_text_commands in Hend. rewrite Hm, Ht in Hend.
    cbn [opt_truthy] in Hend. rewrite Hb in Hend. discriminate. }
  assert (Hz : user_id usr <> 0%Z).
  { intros Hz. unfold r, handle_text_commands in Hend.
    rewrite Hm, Ht, Hu in Hend. cbn [opt_truthy] in Hend.
    rewrite Hb, Hz in Hend. discriminate. }
  assert (Hr : r = match template_stage w d usr msg chat t with
                   | Some sent =>
                       {| ended := AtTemplate; actions := cleanup t ++ sent;
                          store := d |}
                   | None =>
                       let '(st, acts, d') :=
                         admin_stages cfg w d usr msg chat t in
                       {| ended := st; actions := cleanup t ++ acts;
                          store := d' |}
                   end)
    by exact (handle_text_commands_unfold cfg w d upd Hu Hm Hc Ht Hb Hz).
  destruct (template_stage w d usr msg chat t) as [sent|] eqn:T.
  - assert (Hr' : handle_text_commands cfg w d upd' = r).
    { rewrite Hr.
      rewrite (handle_text_commands_unfold cfg w d upd'
                 (usr := usr) (chat := chat) (body := lower body)
                 (Hu : effective_user upd' = Some usr) Hm'
                 (Hc : effective_chat upd' = Some chat) eq_refl);
        [|now rewrite truthy_lower|exact Hz].
      rewrite lower_strip_lower. fold t.
      rewrite (@template_stage_reply w d usr msg
                 {| text := Some (lower body); caption := caption msg;
                    message_id := message_id msg;
                    reply_to_message := reply_to_message msg |}
                 chat t eq_refl).
      now rewrite T. }
    destruct (template_stage_sent _ _ _ _ _ _ T)
      as (c & s2 & Hsel & Hs2 & Hsent).
    exists c, s2. split; [exact Hsel|]. cbv zeta.
    assert (Hchars : forall P : N -> Prop,
               Forall P (lower body) ->
               Forall P (extra_text_for_output
                           (find_participant w d msg
                              (strip (slice_from t
                                        (List.length (ci_name c))))))).
    { intros P HP. apply find_participant_chars, Forall_strip, Forall_skip.
      unfold t. rewrite <- strip_lower. now apply Forall_strip. }
    split; [exact Hs2|]. split; [|split; [|split; [|exact Hr']]].
    + apply is_lowercase_forall, Hchars.
      apply is_lowercase_forall, lower_is_lowercase.
    + apply Hchars. now apply Forall_forall.
    + rewrite Hr. cbn [actions].
      destruct Hsent as [->|(m & ->)]; [now left|right; now exists m].
  - exfalso. rewrite Hr in Hend.
    pose proof (admin_stages_stage cfg w d usr msg chat t) as Hst.
    destruct (admin_stages cfg w d usr msg chat t) as [[st acts] d'].
    cbn in Hend, Hst. subst st.
    repeat (destruct Hst as [Hst|Hst]; [discriminate|]). contradiction.
Qed.

(** Mila greets Bob in capitals, Latin, Cyrillic and Polish: the template
    is filled in with the lowercase rest of the text, and the lowercased
    text is dispatched to the same message. *)
Lemma template_dispatch_lowercases_witness :
  let upd := Scenario.event Scenario.mila 100 (u "ПРИВІТ @Bobby ŁUKASZ") in
  let upd' := Scenario.event Scenario.mila 100 (u "привіт @bobby łukasz") in
  actions (handle_text_commands Scenario.cfg0 Scenario.world0
             Scenario.with_greeting upd)
  = [ReplyText (u "<a href='tg://user?id=1'>Mila</a> привітав <a href='tg://user?id=2'>Bob</a>! łukasz")]
  /\ handle_text_commands Scenario.cfg0 Scenario.world0
       Scenario.with_greeting upd'
     = handle_text_commands Scenario.cfg0 Scenario.world0
         Scenario.with_greeting upd.
Proof.
  intros upd upd'.
  split; [vm_compute; reflexivity|].
  destruct (@template_dispatch_lowercases Scenario.cfg0 Scenario.world0
              Scenario.with_greeting upd Scenario.mila
              (Scenario.plain (u "ПРИВІТ @Bobby ŁUKASZ")) 100
              (u "ПРИВІТ @Bobby ŁUKASZ")
              eq_refl eq_refl eq_refl eq_refl)
    as (c & s2 & _ & _ & _ & _ & _ & H).
  - split; vm_compute; intuition discriminate.
  - repeat constructor; vm_compute; intuition discriminate.
  - vm_compute. reflexivity.
  - assert (E : with_text upd (lower (u "ПРИВІТ @Bobby ŁUKASZ")) = upd')
      by (vm_compute; reflexivity).
    rewrite E in H. exact H.
Defined.

(* ================================================================= *)
(** ** More on the string primitives *)

Section Strings.

Lemma lstrip_idem (s : str) : lstrip (lstrip s) = lstrip s.
Proof.
  induction s as [|c s IH]; simpl; [reflexivity|].
  destruct (isspace c) eqn:E; [exact IH|]. simpl. now rewrite E.
Qed.

Lemma lstrip_app_solid (l : str) (c : N) :
  isspace c = false -> lstrip (l ++ [c]) = lstrip l ++ [c].
Proof.
  intros Hc. induction l as [|x l IH]; simpl.
  - now rewrite Hc.
  - destruct (isspace x); [exact IH|reflexivity].
Qed.

Lemma lstrip_solid (c : N) (s : str) :
  isspace c = false -> lstrip (c :: s) = c :: s.
Proof. intros H. simpl. now rewrite H. Qed.

Lemma lstrip_shape (s : str) :
  lstrip s = [] \/ exists c r, lstrip s = c :: r /\ isspace c = false.
Proof.
  induction s as [|c s IH]; simpl; [now left|].
  destruct (isspace c) eqn:E; [exact IH|]. right. now exists c, s.
Qed.

Lemma rstrip_strip (s : str) : rstrip (strip s) = strip s.
Proof.
  unfold strip, rstrip. now rewrite rev_involutive, lstrip_idem.
Qed.

Lemma lstrip_strip (s : str) : lstrip (strip s) = strip s.
Proof.
  unfold strip, rstrip.
  destruct (lstrip_shape s) as [->|(c & r & -> & Hc)]; [reflexivity|].
  cbn [rev]. rewrite (@lstrip_app_solid (rev r) c Hc), rev_app_distr. cbn [rev app].
  now apply (@lstrip_solid c).
Qed.

Lemma strip_idem (s : str) : strip (strip s) = strip s.
Proof.
  unfold strip at 1. now rewrite lstrip_strip, rstrip_strip.
Qed.

Lemma In_lstrip (c : N) (s : str) : In c (lstrip s) -> In c s.
Proof.
  induction s as [|x s IH]; simpl; [tauto|].
  destruct (isspace x); [|tauto]. intros H. right. now apply IH.
Qed.

Lemma In_strip (c : N) (s : str) : In c (strip s) -> In c s.
Proof.
  unfold strip, rstrip. intros H.
  apply in_rev, In_lstrip in H. apply in_rev in H. now apply In_lstrip.
Qed.

Lemma split_from_word (word s cur : str) :
  is_word word = true ->
  split_from (word ++ s) cur = split_from s (rev word ++ cur).
Proof.
  revert cur. induction word as [|c word IH]; intros cur H; [reflexivity|].
  cbn in H. apply andb_prop in H as [Hc Hw]. apply negb_true_iff in Hc.
  cbn [app split_from]. rewrite Hc, (IH (c :: cur) Hw). cbn [rev].
  now rewrite <- app_assoc.
Qed.

Lemma take_run_spec (p : N -> bool) (n : nat) (s : str) :
  List.length (Re.take_run p n s) <= n
  /\ forallb p (Re.take_run p n s) = true
  /\ exists rest, s = Re.take_run p n s ++ rest.
Proof.
  revert s. induction n as [|n IH]; intros s.
  - cbn. repeat split; [lia|now exists s].
  - destruct s as [|c s]; cbn -[Nat.leb].
    + repeat split; [lia|now exists []].
    + destruct (p c) eqn:E.
      * destruct (IH s) as (L & F & rest & R). cbn. rewrite E, F.
        repeat split; [lia|]. exists rest. now rewrite <- R.
      * cbn. repeat split; [lia|]. now exists (c :: s).
Qed.

Lemma replace_from_absent (a : N) (old new s : str) :
  ~ In a s -> replace_from (a :: old) new s 0 = s.
Proof.
  induction s as [|c s IH]; intros H; [reflexivity|].
  cbn [replace_from startswith].
  destruct (N.eqb_spec a c) as [->|Hne]; [exfalso; apply H; now left|].
  cbn [andb]. f_equal. apply IH. intros Hin. apply H. now right.
Qed.

End Strings.

(** X1: What [safe_send_message] returns holds none of the characters
    [<>&@#[]], has no whitespace at either end, and is left as it is by a
    second cleaning. *)
Theorem safe_send_message_clean :
  forall s : str,
    (forall c, In c (safe_send_message s) -> is_unsafe c = false)
    /\ lstrip (safe_send_message s) = safe_send_message s
    /\ rstrip (safe_send_message s) = safe_send_message s
    /\ safe_send_message (safe_send_message s) = safe_send_message s.
Proof.
  intros s.
  assert (Hin : forall c, In c (safe_send_message s) -> is_unsafe c = false).
  { intros c. unfold safe_send_message.
    destruct (truthy s); [|intros []].
    intros H. apply In_strip, filter_In in H as [_ H].
    now apply negb_true_iff. }
  split; [exact Hin|].
  assert (Hl : lstrip (safe_send_message s) = safe_send_message s)
    by (unfold safe_send_message; destruct (truthy s);
        [apply lstrip_strip|reflexivity]).
  assert (Hr : rstrip (safe_send_message s) = safe_send_message s)
    by (unfold safe_send_message; destruct (truthy s);
        [apply rstrip_strip|reflexivity]).
  split; [exact Hl|]. split; [exact Hr|].
  set (r := safe_send_message s) in *.
  unfold safe_send_message at 1. destruct (truthy r) eqn:Ht.
  - assert (Hf : filter (fun c => negb (is_unsafe c)) r = r).
    { apply forallb_filter_id. apply forallb_forall. intros c Hc.
      now rewrite (Hin c Hc). }
    rewrite Hf. unfold strip. now rewrite Hl, Hr.
  - destruct r; [reflexivity|discriminate].
Qed.

(** X2: A handle found by the pattern [@([a-zA-Z0-9_]{5,32})] has between 5
    and 32 characters, all of them letters, digits or underscores of
    ASCII, and stands in the text right behind an [@]. *)
Theorem search_username_shape :
  forall s h : str,
    Re.search_username s = Some h ->
    5 <= List.length h <= 32
    /\ forallb Re.is_uname_char h = true
    /\ exists before after, s = before ++ u "@" ++ h ++ after.
Proof.
  induction s as [|c s IH]; intros h H; [discriminate|].
  cbn [Re.search_username] in H.
  assert (Hrec : Re.search_username s = Some h ->
                 5 <= List.length h <= 32
                 /\ forallb Re.is_uname_char h = true
                 /\ exists before after, c :: s = before ++ u "@" ++ h ++ after).
  { intros H'. destruct (IH h H') as (L & F & b & a & E).
    repeat split; try tauto. exists (c :: b), a. now rewrite E. }
  destruct (N.eqb_spec c 64) as [->|_]; [|now apply Hrec].
  destruct (take_run_spec Re.is_uname_char 32 s) as (L & F & rest & R).
  destruct (Nat.leb_spec 5 (List.length (Re.take_run Re.is_uname_char 32 s)));
    [|now apply Hrec].
  injection H as <-. repeat split; try assumption.
  exists [], rest. change (u "@") with [64%N]. cbn [app].
  f_equal. exact R.
Qed.

Lemma search_username_witness :
  Re.search_username (u "привіт @bob і @bobby_1, здоров") = Some (u "bobby_1")
  /\ 5 <= List.length (u "bobby_1") <= 32.
Proof.
  assert (E : Re.search_username (u "привіт @bob і @bobby_1, здоров")
              = Some (u "bobby_1")) by (vm_compute; reflexivity).
  split; [exact E|].
  exact (proj1 (search_username_shape _ E)).
Defined.

(** X3: Splitting the words joined by single spaces gives the words back. *)
Theorem split_join_space :
  forall words : list str,
    Forall (fun word => word <> [] /\ is_word word = true) words ->
    split (join_space words) = words.
Proof.
  unfold split. induction 1 as [|word rest [Hne Hw] Hrest IH]; [reflexivity|].
  cbn [join_space]. destruct rest as [|next rest'].
  - pose proof (@split_from_word word [] [] Hw) as P.
    rewrite !app_nil_r in P. rewrite P.
    cbn [split_from]. destruct (rev word) eqn:E.
    + apply (f_equal (@rev N)) in E. rewrite rev_involutive in E.
      now subst.
    + now rewrite <- E, rev_involutive.
  - rewrite (@split_from_word word _ [] Hw), app_nil_r.
    cbn [split_from]. replace (isspace 32) with true by reflexivity.
    destruct (rev word) eqn:E.
    + apply (f_equal (@rev N)) in E. rewrite rev_involutive in E.
      now subst.
    + rewrite <- E, rev_involutive. f_equal. exact IH.
Qed.

Lemma split_join_space_witness :
  split (join_space [u "дати"; u "копня"]) = [u "дати"; u "копня"].
Proof.
  apply split_join_space.
  repeat constructor; discriminate.
Defined.

(** X4: A template without [@] is sent as it was written, whoever the
    participants are and whatever text follows the command. *)
Theorem render_without_placeholder :
  forall template s1 s2 extra : str,
    ~ In 64%N template -> render template s1 s2 extra = template.
Proof.
  intros template s1 s2 extra H. unfold render.
  change (u "@s1") with (64%N :: u "s1").
  change (u "@s2") with (64%N :: u "s2").
  change (u "@t") with (64%N :: u "t").
  unfold replace at 3. rewrite (@replace_from_absent 64%N _ _ template H).
  unfold replace at 2. rewrite (@replace_from_absent 64%N _ _ template H).
  unfold replace. apply (@replace_from_absent 64%N _ _ template H).
Qed.

Lemma render_without_placeholder_witness :
  render (u "усім привіт") (u "A") (u "B") (u "C") = u "усім привіт".
Proof.
  apply render_without_placeholder. vm_compute. intuition discriminate.
Defined.

(* ================================================================= *)
(** ** The alias table *)

Section Aliases.

Lemma alias_key_spec (chat : Z) (name : str) (r : alias_row) :
  alias_key chat name r = true <-> alias_id r = (chat, name).
Proof.
  unfold alias_key, alias_id. split.
  - intros H. apply andb_prop in H as [Hc Hn].
    apply Z.eqb_eq in Hc. apply str_eqb_eq in Hn. now subst.
  - intros H. injection H as -> ->. now rewrite Z.eqb_refl, str_eqb_refl.
Qed.

Lemma filter_filter_out {A : Type} (p : A -> bool) (l : list A) :
  filter p (filter (fun x => negb (p x)) l) = [].
Proof.
  induction l as [|x l IH]; simpl; [reflexivity|].
  destruct (p x) eqn:E; simpl; [exact IH|]. now rewrite E.
Qed.

Lemma find_filter_keeps {A : Type} (p q : A -> bool) (l : list A) :
  (forall x, p x = true -> q x = true) ->
  find p (filter q l) = find p l.
Proof.
  intros H. induction l as [|x l IH]; simpl; [reflexivity|].
  destruct (q x) eqn:Q; simpl.
  - destruct (p x); [reflexivity|exact IH].
  - destruct (p x) eqn:P; [|exact IH].
    rewrite (H x P) in Q. discriminate.
Qed.

Lemma find_app_miss {A : Type} (p : A -> bool) (l : list A) (x : A) :
  p x = false -> find p (l ++ [x]) = find p l.
Proof.
  intros H. induction l as [|y l IH]; simpl; [now rewrite H|].
  destruct (p y); [reflexivity|exact IH].
Qed.

Lemma NoDup_map_filter {A B : Type} (f : A -> B) (q : A -> bool)
    (l : list A) :
  NoDup (map f l) -> NoDup (map f (filter q l)).
Proof.
  induction l as [|x l IH]; simpl; intros H; [constructor|].
  apply NoDup_cons_iff in H as [Hn Hd].
  destruct (q x); simpl; [|now apply IH].
  constructor; [|now apply IH].
  intros Hin. apply Hn. apply in_map_iff in Hin as (y & Hy & Hf).
  apply filter_In in Hf as [Hf _]. apply in_map_iff. now exists y.
Qed.

Lemma other_alias_key (chat chat' : Z) (name name' : str) (r : alias_row) :
  (chat', name') <> (chat, name) ->
  alias_key chat' name' r = true ->
  negb (alias_key chat name r) = true.
Proof.
  intros Hne H. apply alias_key_spec in H. apply negb_true_iff.
  destruct (alias_key chat name r) eqn:E; [|reflexivity].
  apply alias_key_spec in E. congruence.
Qed.

End Aliases.

(** X5: An alias registered for a chat is found again in that chat under any
    spelling of its name that differs only in case, and gives the command
    it was registered for. *)
Theorem alias_registered_is_found :
  forall (d : database) (t : str) (chat : Z) (name name' target : str)
         (by_whom : Z),
    lower name' = lower name ->
    get_command_alias (add_command_alias d t chat name target by_whom)
      chat name'
    = Some target.
Proof.
  intros d t chat name name' target by_whom H.
  unfold get_command_alias, add_command_alias. cbn [command_aliases
    with_command_aliases]. rewrite H.
  rewrite (find_app_none _ _ _
             (find_filter_out (alias_key chat (lower name)) _)).
  unfold alias_key. cbn [find al_chat_id al_alias_name].
  rewrite Z.eqb_refl, str_eqb_refl. reflexivity.
Qed.

Lemma alias_registered_witness :
  get_command_alias
    (add_command_alias Scenario.staff Scenario.clock 100 (u "Бан")
       (u "ban_s") 9)
    100 (u "БАН")
  = Some (u "ban_s").
Proof.
  apply alias_registered_is_found. vm_compute. reflexivity.
Defined.

(** X6: Registering an alias leaves exactly one row for its chat and name,
    whatever was registered before, keeps the keys of the table free of
    duplicates, and adds no row but its own. *)
Theorem alias_registration_overwrites :
  forall (d : database) (t : str) (chat : Z) (name target : str)
         (by_whom : Z),
    let d' := add_command_alias d t chat name target by_whom in
    List.length (filter (alias_key chat (lower name)) (command_aliases d'))
    = 1
    /\ (alias_keys_unique d -> alias_keys_unique d')
    /\ (forall r, In r (command_aliases d') ->
                  In r (command_aliases d)
                  \/ (alias_id r = (chat, lower name)
                      /\ al_target_command r = target)).
Proof.
  intros d t chat name target by_whom d'.
  unfold d', add_command_alias.
  cbn [command_aliases with_command_aliases].
  split; [|split].
  - rewrite filter_app, filter_filter_out.
    unfold alias_key. cbn [filter app al_chat_id al_alias_name].
    rewrite Z.eqb_refl, str_eqb_refl. reflexivity.
  - unfold alias_keys_unique. cbn [command_aliases with_command_aliases].
    intros H. rewrite map_app. apply NoDup_app.
    + now apply NoDup_map_filter.
    + repeat constructor. intros [].
    + intros k Hk [<-|[]].
      apply in_map_iff in Hk as (x & Hx & Hf).
      apply filter_In in Hf as [_ Hf]. apply negb_true_iff in Hf.
      assert (Hkey : alias_key chat (lower name) x = true)
        by (apply alias_key_spec; exact Hx).
      congruence.
  - intros r Hin. apply in_app_or in Hin as [Hin|[<-|[]]].
    + left. now apply filter_In in Hin.
    + right. now split.
Qed.

Lemma alias_registration_witness :
  alias_keys_unique
    (add_command_alias Scenario.with_aliases Scenario.clock 100 (u "БАН")
       (u "ban_t") 9).
Proof.
  apply (alias_registration_overwrites Scenario.with_aliases Scenario.clock
           100 (u "БАН") (u "ban_t") 9).
  unfold alias_keys_unique. vm_compute.
  repeat constructor; cbn; intuition discriminate.
Defined.

(** X7: A deleted alias is found under no spelling of its name. *)
Theorem alias_deleted_is_gone :
  forall (d : database) (chat : Z) (name name' : str),
    lower name' = lower name ->
    get_command_alias (delete_command_alias d chat name) chat name' = None.
Proof.
  intros d chat name name' H.
  unfold get_command_alias, delete_command_alias.
  cbn [command_aliases with_command_aliases]. rewrite H.
  now rewrite (find_filter_out (alias_key chat (lower name))).
Qed.

Lemma alias_deleted_witness :
  get_command_alias (delete_command_alias Scenario.with_aliases 100 (u "БАН"))
    100 (u "бан")
  = None.
Proof.
  apply alias_deleted_is_gone. vm_compute. reflexivity.
Defined.

(** X8: Registering or deleting an alias changes what is found under no other
    name and in no other chat. *)
Theorem alias_changes_are_local :
  forall (d : database) (t : str) (chat chat' : Z)
         (name name' target : str) (by_whom : Z),
    (chat', lower name') <> (chat, lower name) ->
    get_command_alias (add_command_alias d t chat name target by_whom)
      chat' name'
    = get_command_alias d chat' name'
    /\ get_command_alias (delete_command_alias d chat name) chat' name'
       = get_command_alias d chat' name'.
Proof.
  intros d t chat chat' name name' target by_whom Hne.
  unfold get_command_alias, add_command_alias, delete_command_alias.
  cbn [command_aliases with_command_aliases].
  assert (Hkeep : find (alias_key chat' (lower name'))
                    (filter (fun r => negb (alias_key chat (lower name) r))
                            (command_aliases d))
                  = find (alias_key chat' (lower name')) (command_aliases d)).
  { apply find_filter_keeps. intros x. now apply other_alias_key. }
  split.
  - rewrite find_app_miss; [now rewrite Hkeep|].
    destruct (alias_key chat' (lower name') _) eqn:E; [|reflexivity].
    apply alias_key_spec in E. unfold alias_id in E. cbn in E. congruence.
  - now rewrite Hkeep.
Qed.

Lemma alias_changes_witness :
  get_command_alias
    (add_command_alias Scenario.with_aliases Scenario.clock 200 (u "бан")
       (u "kick") 9)
    100 (u "бан")
  = Some (u "ban").
Proof.
  destruct (@alias_changes_are_local Scenario.with_aliases Scenario.clock
              200 100 (u "бан") (u "бан") (u "kick") 9) as [H _].
  - vm_compute. discriminate.
  - rewrite H. vm_compute. reflexivity.
Defined.

(* ================================================================= *)
(** ** Alias resolution in the dispatch *)

Section Resolution.

Variable cfg : config.

Lemma added_alias_elsewhere (d : database) (t : str) (chat chat' : Z)
    (name name' target : str) (by_whom : Z) :
  lower name' <> lower name ->
  get_command_alias (add_command_alias d t chat name target by_whom)
    chat' name'
  = get_command_alias d chat' name'.
Proof.
  intros Hne. unfold get_command_alias, add_command_alias.
  cbn [command_aliases with_command_aliases].
  rewrite find_app_miss.
  - rewrite find_filter_keeps; [reflexivity|].
    intros r. apply other_alias_key. congruence.
  - destruct (alias_key chat' (lower name') _) eqn:E; [|reflexivity].
    apply alias_key_spec in E. unfold alias_id in E. cbn in E. congruence.
Qed.

(** The first word of a text is not the name of an alias that holds
    whitespace. *)
Lemma first_word_elsewhere (t name : str) :
  is_word name = false -> lower (hd [] (split t)) <> lower name.
Proof.
  intros Hn E. pose proof (hd_split_word t) as Hw.
  rewrite <- is_word_lower, E, is_word_lower in Hw. congruence.
Qed.

Lemma template_stage_aliases (w : world) (d : database) (l : list alias_row)
    (q : Z) (usr : tg_user) (msg : message) (chat : Z) (t : str) :
  template_stage w (with_command_aliases d l q) usr msg chat t
  = template_stage w d usr msg chat t.
Proof. reflexivity. Qed.

Lemma session_stage_aliases (w : world) (d : database) (l : list alias_row)
    (q : Z) (usr : tg_user) (msg : message) (chat : Z) (mode : option str) :
  option_map snd (session_stage cfg w (with_command_aliases d l q) usr msg
                    chat mode)
  = option_map snd (session_stage cfg w d usr msg chat mode).
Proof.
  unfold session_stage.
  change (get_online_mode_source (with_command_aliases d l q) (user_id usr))
    with (get_online_mode_source d (user_id usr)).
  repeat match goal with
    | |- context [if ?b then _ else _] => destruct b
    | |- context [match ?o with Some _ => _ | None => _ end] => destruct o
    end; reflexivity.
Qed.

Lemma admin_stages_aliases (w : world) (d : database) (l : list alias_row)
    (q : Z) (usr : tg_user) (msg : message) (chat : Z) (t : str) :
  alias_stage cfg (with_command_aliases d l q) chat t
  = alias_stage cfg d chat t ->
  fst (admin_stages cfg w (with_command_aliases d l q) usr msg chat t)
  = fst (admin_stages cfg w d usr msg chat t).
Proof.
  intros A. unfold admin_stages.
  change (role_is (with_command_aliases d l q) (user_id usr))
    with (role_is d (user_id usr)).
  change (get_online_mode (with_command_aliases d l q) (user_id usr))
    with (get_online_mode d (user_id usr)).
  destruct (negb _); [reflexivity|].
  assert (C : fst (command_stages cfg (with_command_aliases d l q)
                     (user_id usr) chat t)
              = fst (command_stages cfg d (user_id usr) chat t)).
  { unfold command_stages. rewrite A.
    destruct (phrase_stage cfg t); [reflexivity|].
    destruct (restore_stage cfg (user_id usr) t); [reflexivity|].
    now destruct (alias_stage cfg d chat t). }
  destruct (opt_truthy _); [|exact C].
  pose proof (session_stage_aliases w d l q usr msg chat
                (get_online_mode d (user_id usr))) as S.
  destruct (session_stage cfg w (with_command_aliases d l q) usr msg chat _)
    as [[d1 sent1]|],
    (session_stage cfg w d usr msg chat _) as [[d2 sent2]|];
    cbn in S; try discriminate; [|exact C].
  injection S as ->. reflexivity.
Qed.

End Resolution.

(** C3: the dispatch looks up the first word of the text and nothing
    longer.  An alias whose name holds whitespace changes the outcome of
    no dispatch, whatever the text.  With [бан] and [бан тихо] registered
    in chat 100 for the commands [ban_s] and [ban_t], the text
    [бан тихо 12345] of a head admin calls [ban_s] with the arguments
    [тихо] and [12345], where the resolution by the longest run gives
    [ban_t] with the argument [12345]; with the names of the fourth
    scenario the lookup gives [ban] with two arguments, not [ban_silent]
    with one. *)
Theorem alias_dispatch_ignores_longer_runs :
  (forall (cfg : config) (w : world) (d : database) (upd : update)
          (t : str) (chat : Z) (name target : str) (by_whom : Z),
      is_word name = false ->
      let d' := add_command_alias d t chat name target by_whom in
      ended (handle_text_commands cfg w d' upd)
      = ended (handle_text_commands cfg w d upd)
      /\ actions (handle_text_commands cfg w d' upd)
         = actions (handle_text_commands cfg w d upd))
  /\ (let d := Scenario.with_handler_aliases in
      let r := handle_text_commands Scenario.cfg0 Scenario.world0 d
                 (Scenario.event Scenario.dana 100 (u "бан тихо 12345")) in
      get_command_alias d 100 (u "бан") = Some (u "ban_s")
      /\ get_command_alias d 100 (u "бан тихо") = Some (u "ban_t")
      /\ spec_resolve_alias d 100 (u "бан тихо 12345")
         = Some (u "ban_t", [u "12345"])
      /\ ended r = AtAlias
      /\ actions r = [Call (u "ban_s") (Some [u "тихо"; u "12345"])])
  /\ (let d := Scenario.with_aliases in
      get_command_alias d 100 (u "бан тихо") = Some (u "ban_silent")
      /\ spec_resolve_alias d 100 (u "бан тихо 12345")
         = Some (u "ban_silent", [u "12345"])
      /\ resolve_alias d 100 (u "бан тихо 12345")
         = Some (u "ban", [u "тихо"; u "12345"])).
Proof.
  split; [|split; repeat split; vm_compute; reflexivity].
  intros cfg w d upd t chat name target by_whom Hn d'.
  unfold handle_text_commands.
  destruct (upd_message upd) as [msg|]; [|now split].
  destruct (negb (opt_truthy (text msg))); [now split|].
  destruct (effective_user upd) as [usr|]; [|now split].
  destruct (user_id usr =? 0)%Z; [now split|].
  destruct (effective_chat upd) as [chat'|]; [|now split].
  set (body := lower (strip match text msg with
                             | Some s => s | None => [] end)).
  unfold d', add_command_alias. rewrite template_stage_aliases.
  destruct (template_stage w d usr msg chat' body); [now split|].
  assert (A : alias_stage cfg
                (add_command_alias d t chat name target by_whom) chat' body
              = alias_stage cfg d chat' body).
  { unfold alias_stage, resolve_alias.
    rewrite added_alias_elsewhere; [reflexivity|].
    now apply first_word_elsewhere. }
  pose proof (@admin_stages_aliases cfg w d _ _ usr msg chat' body A) as E.
  unfold add_command_alias in E.
  destruct (admin_stages cfg w (with_command_aliases d _ _) usr msg chat'
              body) as [[st1 acts1] d1],
    (admin_stages cfg w d usr msg chat' body) as [[st2 acts2] d2].
  cbn [fst] in E. injection E as -> ->. now split.
Qed.

(* ================================================================= *)
(** ** Template commands and their pools *)

Section Pools.

Lemma insert_by_created_perm (m : media_row) (l : list media_row) :
  Permutation (insert_by_created m l) (m :: l).
Proof.
  induction l as [|x l IH]; simpl; [reflexivity|].
  destruct (str_leb _ _); [reflexivity|].
  rewrite IH. apply perm_swap.
Qed.

Lemma order_by_created_perm (l : list media_row) :
  Permutation (fold_right insert_by_created [] l) l.
Proof.
  induction l as [|x l IH]; simpl; [reflexivity|].
  rewrite insert_by_created_perm. now constructor.
Qed.

Lemma pool_rows (d : database) (id : Z) :
  pool d id
  = fold_right insert_by_created []
      (filter (fun m => (pm_command_id m =? id)%Z)
              (personal_command_media d)).
Proof.
  unfold pool, get_personal_command_media.
  now destruct (fold_right insert_by_created [] _).
Qed.

Lemma pool_perm (d : database) (id : Z) :
  Permutation (pool d id)
    (filter (fun m => (pm_command_id m =? id)%Z) (personal_command_media d)).
Proof. rewrite pool_rows. apply order_by_created_perm. Qed.

Lemma filter_none {A : Type} (P : A -> Prop) (q : A -> bool) (l : list A) :
  Forall P l -> (forall x, P x -> q x = false) -> filter q l = [].
Proof.
  intros H Hq. induction H as [|x l Hx Hl IH]; simpl; [reflexivity|].
  now rewrite (Hq x Hx).
Qed.

Lemma registered_rows (d : database) (t : str) (chat : Z)
    (name template : str) (by_whom : Z) :
  personal_commands (fst (add_personal_command d t chat name template by_whom))
  = filter (fun r => negb (command_key chat (lower name) r))
           (personal_commands d)
    ++ [{| pc_id := seq_personal_commands d + 1; pc_chat_id := chat;
           pc_command_name := lower name; pc_template_text := template;
           pc_created_by := by_whom; pc_created_at := t |}].
Proof. reflexivity. Qed.

Lemma registered_find (d : database) (t : str) (chat : Z)
    (name template : str) (by_whom : Z) :
  find (command_key chat (lower name))
    (personal_commands
       (fst (add_personal_command d t chat name template by_whom)))
  = Some {| pc_id := seq_personal_commands d + 1; pc_chat_id := chat;
            pc_command_name := lower name; pc_template_text := template;
            pc_created_by := by_whom; pc_created_at := t |}.
Proof.
  rewrite registered_rows.
  rewrite (find_app_none _ _ _
             (find_filter_out (command_key chat (lower name)) _)).
  unfold command_key. cbn [find pc_chat_id pc_command_name].
  rewrite Z.eqb_refl, str_eqb_refl. reflexivity.
Qed.

Lemma registered_id (d : database) (t : str) (chat : Z)
    (name template : str) (by_whom : Z) :
  snd (add_personal_command d t chat name template by_whom)
  = match find (command_key chat (lower name))
            (personal_commands
               (fst (add_personal_command d t chat name template by_whom)))
    with
    | Some r => Some (pc_id r)
    | None => None
    end.
Proof. reflexivity. Qed.

End Pools.

(** X9: Registering a template command gives it the next id of the table; the
    command is then found in its chat under any spelling of its name that
    differs only in case, with the template it was registered with, and the
    chat holds exactly one command of that name. *)
Theorem personal_command_registered :
  forall (d : database) (t : str) (chat : Z) (name name' template : str)
         (by_whom : Z),
    lower name' = lower name ->
    let r := add_personal_command d t chat name template by_whom in
    snd r = Some (seq_personal_commands d + 1)%Z
    /\ get_personal_command (fst r) chat name'
       = Some ((seq_personal_commands d + 1)%Z, template)
    /\ List.length (filter (command_key chat (lower name))
                           (personal_commands (fst r))) = 1.
Proof.
  intros d t chat name name' template by_whom H r.
  pose proof (registered_find d t chat name template by_whom) as Hfind.
  fold r in Hfind.
  split; [|split].
  - unfold r. rewrite registered_id. fold r. now rewrite Hfind.
  - unfold get_personal_command. rewrite H, Hfind. reflexivity.
  - unfold r. rewrite registered_rows, filter_app, filter_filter_out.
    unfold command_key. cbn [filter app pc_chat_id pc_command_name].
    rewrite Z.eqb_refl, str_eqb_refl. reflexivity.
Qed.

Lemma personal_command_registered_witness :
  get_personal_command
    (fst (add_personal_command Scenario.with_templates Scenario.clock 100
            (u "Давай") (u "@s1 кличе @s2") 9))
    100 (u "ДАВАЙ")
  = Some (3%Z, u "@s1 кличе @s2").
Proof.
  apply (@personal_command_registered Scenario.with_templates Scenario.clock
           100 (u "Давай") (u "ДАВАЙ") (u "@s1 кличе @s2") 9).
  vm_compute. reflexivity.
Defined.

(** X10: A template command registered again under its name starts with an
    empty pool: no media row of the table belongs to its new id.  The rows
    themselves stay in the table. *)
Theorem reregistration_starts_empty_pool :
  forall (d : database) (t : str) (chat : Z) (name template : str)
         (by_whom : Z),
    media_ids_bounded d ->
    let r := add_personal_command d t chat name template by_whom in
    get_personal_command_media (fst r) (seq_personal_commands d + 1) = None
    /\ personal_command_media (fst r) = personal_command_media d
    /\ media_ids_bounded (fst r).
Proof.
  intros d t chat name template by_whom H r.
  assert (Hm : personal_command_media (fst r) = personal_command_media d)
    by reflexivity.
  split; [|split; [exact Hm|]].
  - unfold get_personal_command_media. rewrite Hm.
    rewrite (@filter_none _
               (fun m => (pm_command_id m <= seq_personal_commands d)%Z)
               (fun m => (pm_command_id m =? seq_personal_commands d + 1)%Z)
               _ H); [reflexivity|].
    intros m Hle. apply Z.eqb_neq. lia.
  - unfold media_ids_bounded. rewrite Hm.
    replace (seq_personal_commands (fst r))
      with (seq_personal_commands d + 1)%Z by reflexivity.
    eapply Forall_impl; [|exact H]. cbn. intros m Hle. lia.
Qed.

(** The template [давай] has one picture; registered again, it has
    none, and the picture is still listed for the old id. *)
Lemma reregistration_witness :
  let d' := fst (add_personal_command Scenario.with_picture Scenario.clock
                   100 (u "давай") (u "@s1 дає @s2 @t") 9) in
  get_personal_command d' 100 (u "давай") = Some (3%Z, u "@s1 дає @s2 @t")
  /\ get_personal_command_media d' 3 = None
  /\ List.length (pool d' 1) = 1.
Proof.
  intros d'.
  split; [vm_compute; reflexivity|].
  split; [|vm_compute; reflexivity].
  apply (@reregistration_starts_empty_pool Scenario.with_picture
           Scenario.clock 100 (u "давай") (u "@s1 дає @s2 @t") 9).
  unfold media_ids_bounded. vm_compute. repeat constructor; discriminate.
Defined.

(** X11: Adding a medium to a command makes its pool one longer, whatever the
    pool held before: the pool then holds what it held and the new row,
    and every other pool is as it was. *)
Theorem media_pool_appends :
  forall (d : database) (t : str) (id : Z) (media_type file_id : str),
    let d' := fst (add_personal_command_media d t id media_type file_id) in
    let added := {| pm_id := seq_personal_command_media d + 1;
                    pm_command_id := id; pm_media_type := media_type;
                    pm_file_id := file_id; pm_created_at := t |} in
    List.length (pool d' id) = S (List.length (pool d id))
    /\ (forall m, In m (pool d' id) <-> In m (pool d id) \/ m = added)
    /\ (forall id', id' <> id -> pool d' id' = pool d id').
Proof.
  intros d t id media_type file_id d' added.
  assert (Hrows : personal_command_media d'
                  = personal_command_media d ++ [added]) by reflexivity.
  assert (Hperm : Permutation (pool d' id) (added :: pool d id)).
  { rewrite (pool_perm d' id), Hrows, filter_app.
    cbn [filter]. replace (pm_command_id added =? id)%Z with true
      by (symmetry; apply Z.eqb_refl).
    rewrite <- (pool_perm d id).
    rewrite Permutation_app_comm. reflexivity. }
  split; [|split].
  - now rewrite (Permutation_length Hperm).
  - intros m. split.
    + intros Hin. apply (Permutation_in _ Hperm) in Hin.
      destruct Hin as [<-|Hin]; [now right|now left].
    + intros Hin. apply (Permutation_in _ (Permutation_sym Hperm)).
      destruct Hin as [Hin| ->]; [now right|now left].
  - intros id' Hne. rewrite !pool_rows, Hrows, filter_app.
    cbn [filter]. replace (pm_command_id added =? id')%Z with false.
    + now rewrite app_nil_r.
    + symmetry. apply Z.eqb_neq. cbn. congruence.
Qed.

(** X12: Deleting a medium by its id takes exactly the rows of that id out of
    every pool. *)
Theorem media_delete_exact :
  forall (d : database) (media_id id : Z) (m : media_row),
    In m (pool (fst (delete_personal_command_media d media_id)) id)
    <-> In m (pool d id) /\ pm_id m <> media_id.
Proof.
  intros d media_id id m.
  set (d' := fst (delete_personal_command_media d media_id)).
  assert (Hrows : personal_command_media d'
                  = filter (fun x => negb (pm_id x =? media_id)%Z)
                           (personal_command_media d)) by reflexivity.
  split.
  - intros Hin. apply (Permutation_in _ (pool_perm d' id)) in Hin.
    rewrite Hrows in Hin.
    apply filter_In in Hin as [Hin Hid].
    apply filter_In in Hin as [Hin Hkeep].
    apply negb_true_iff, Z.eqb_neq in Hkeep. split; [|exact Hkeep].
    apply (Permutation_in _ (Permutation_sym (pool_perm d id))).
    apply filter_In. now split.
  - intros [Hin Hne].
    apply (Permutation_in _ (pool_perm d id)) in Hin.
    apply filter_In in Hin as [Hin Hid].
    apply (Permutation_in _ (Permutation_sym (pool_perm d' id))).
    rewrite Hrows. apply filter_In. split; [|exact Hid].
    apply filter_In. split; [exact Hin|].
    now apply negb_true_iff, Z.eqb_neq.
Qed.

Section Listing.

Lemma str_leb_total (a b : str) : str_leb a b = false -> str_leb b a = true.
Proof.
  revert b. induction a as [|x a IH]; intros b; [discriminate|].
  destruct b as [|y b]; [reflexivity|]. cbn.
  destruct (N.ltb_spec x y), (N.ltb_spec y x); try discriminate;
    try reflexivity; try lia.
  apply IH.
Qed.

Lemma insert_by_name_perm (r : personal_command_row)
    (l : list personal_command_row) :
  Permutation (insert_by_name r l) (r :: l).
Proof.
  induction l as [|x l IH]; simpl; [reflexivity|].
  destruct (str_leb _ _); [reflexivity|].
  rewrite IH. apply perm_swap.
Qed.

Lemma order_by_name_perm (l : list personal_command_row) :
  Permutation (order_by_name l) l.
Proof.
  unfold order_by_name.
  induction l as [|x l IH]; simpl; [reflexivity|].
  rewrite insert_by_name_perm. now constructor.
Qed.

Lemma insert_by_name_hd (x r : personal_command_row)
    (l : list personal_command_row) :
  name_leb x r -> HdRel name_leb x l -> HdRel name_leb x (insert_by_name r l).
Proof.
  intros Hxr Hl. destruct l as [|y l]; simpl; [now constructor|].
  destruct (str_leb _ _); constructor; [exact Hxr|].
  now inversion Hl.
Qed.

Lemma insert_by_name_sorted (r : personal_command_row)
    (l : list personal_command_row) :
  Sorted name_leb l -> Sorted name_leb (insert_by_name r l).
Proof.
  induction 1 as [|x l Hs IH Hx]; simpl.
  - repeat constructor.
  - destruct (str_leb (pc_command_name r) (pc_command_name x)) eqn:E.
    + constructor; [now constructor|]. now constructor.
    + constructor; [exact IH|].
      apply insert_by_name_hd; [|exact Hx].
      now apply str_leb_total.
Qed.

Lemma order_by_name_sorted (l : list personal_command_row) :
  Sorted name_leb (order_by_name l).
Proof.
  unfold order_by_name.
  induction l as [|x l IH]; simpl; [constructor|].
  now apply insert_by_name_sorted.
Qed.

Lemma Sorted_map_names (l : list personal_command_row) :
  Sorted name_leb l ->
  Sorted (fun a b => str_leb a b = true) (map pc_command_name l).
Proof.
  induction 1 as [|x l Hs IH Hx]; simpl; constructor; [exact IH|].
  destruct Hx; simpl; now constructor.
Qed.

End Listing.

(** X13: The listing of a chat's template commands holds the commands of that
    chat and no others, in the order of their names. *)
Theorem listing_is_scoped_and_sorted :
  forall (d : database) (chat : Z),
    (forall c,
       In c (get_all_personal_commands d chat)
       <-> exists r,
             In r (personal_commands d) /\ pc_chat_id r = chat
             /\ c = {| ci_name := pc_command_name r;
                       ci_template := pc_template_text r;
                       ci_id := pc_id r |})
    /\ Sorted (fun a b => str_leb a b = true)
              (map ci_name (get_all_personal_commands d chat)).
Proof.
  intros d chat. unfold get_all_personal_commands. split.
  - intros c. rewrite in_map_iff. split.
    + intros (r & <- & Hin).
      apply (Permutation_in _ (order_by_name_perm _)) in Hin.
      apply filter_In in Hin as [Hin Hc]. apply Z.eqb_eq in Hc.
      now exists r.
    + intros (r & Hin & Hc & ->). exists r. split; [reflexivity|].
      apply (Permutation_in _ (Permutation_sym (order_by_name_perm _))).
      apply filter_In. split; [exact Hin|]. now apply Z.eqb_eq.
  - rewrite map_map. cbn [ci_name].
    apply Sorted_map_names, order_by_name_sorted.
Qed.

(* ================================================================= *)
(** ** The directory of users *)

Section Users.

Lemma find_In_some {A : Type} (p : A -> bool) (l : list A) (x : A) :
  In x l -> p x = true -> exists y, find p l = Some y /\ p y = true.
Proof.
  intros Hin Hp. destruct (find p l) as [y|] eqn:E.
  - exists y. split; [reflexivity|]. now apply find_some in E.
  - now rewrite (find_none p l E x Hin) in Hp.
Qed.

Lemma find_id_none (l : list user_row) (uid : Z) :
  find (fun r => (usr_user_id r =? uid)%Z) l = None ->
  ~ In uid (map usr_user_id l).
Proof.
  intros H Hin. apply in_map_iff in Hin as (r & Hr & Hin).
  pose proof (find_none _ _ H r Hin) as Hf. cbn in Hf.
  rewrite Hr, Z.eqb_refl in Hf. discriminate.
Qed.

Lemma find_map_update (f : user_row -> user_row) (l : list user_row)
    (uid k : Z) :
  (forall r, usr_user_id (f r) = usr_user_id r) ->
  find (fun r => (usr_user_id r =? k)%Z)
       (map (fun r => if (usr_user_id r =? uid)%Z then f r else r) l)
  = match find (fun r => (usr_user_id r =? k)%Z) l with
    | Some r => Some (if (usr_user_id r =? uid)%Z then f r else r)
    | None => None
    end.
Proof.
  intros Hf. induction l as [|r l IH]; cbn [map find]; [reflexivity|].
  destruct (usr_user_id r =? uid)%Z eqn:E.
  - rewrite Hf. destruct (usr_user_id r =? k)%Z; [now rewrite E|exact IH].
  - destruct (usr_user_id r =? k)%Z; [now rewrite E|exact IH].
Qed.

(** The row of [uid] after [add_or_update_user]. *)
Lemma saved_row (d : database) (t : str) (uid : Z) (handle name : str) :
  find (fun r => (usr_user_id r =? uid)%Z)
       (users (add_or_update_user d t uid handle name))
  = Some
      match find (fun r => (usr_user_id r =? uid)%Z) (users d) with
      | Some r =>
          {| usr_user_id := usr_user_id r;
             usr_username := if truthy handle then Some handle
                             else usr_username r;
             usr_full_name := if truthy name then Some name
                              else usr_full_name r;
             usr_joined_at := usr_joined_at r |}
      | None =>
          {| usr_user_id := uid; usr_username := Some handle;
             usr_full_name := Some name; usr_joined_at := Some t |}
      end.
Proof.
  unfold add_or_update_user.
  destruct (find _ (users d)) as [r|] eqn:E; cbn [users with_users].
  - rewrite (find_map_update
               (fun r => {| usr_user_id := usr_user_id r;
                            usr_username := if truthy handle then Some handle
                                            else usr_username r;
                            usr_full_name := if truthy name then Some name
                                             else usr_full_name r;
                            usr_joined_at := usr_joined_at r |})
               (users d) uid uid (fun _ => eq_refl)).
    rewrite E. apply find_some in E as [_ E]. cbn in E. now rewrite E.
  - rewrite (find_app_none _ _ _ E). cbn. now rewrite Z.eqb_refl.
Qed.

Lemma saved_others (d : database) (t : str) (uid k : Z) (handle name : str) :
  k <> uid ->
  find (fun r => (usr_user_id r =? k)%Z)
       (users (add_or_update_user d t uid handle name))
  = find (fun r => (usr_user_id r =? k)%Z) (users d).
Proof.
  intros Hne. unfold add_or_update_user.
  destruct (find _ (users d)) as [r0|] eqn:E; cbn [users with_users].
  - rewrite (find_map_update
               (fun r => {| usr_user_id := usr_user_id r;
                            usr_username := if truthy handle then Some handle
                                            else usr_username r;
                            usr_full_name := if truthy name then Some name
                                             else usr_full_name r;
                            usr_joined_at := usr_joined_at r |})
               (users d) uid k (fun _ => eq_refl)).
    destruct (find (fun r => (usr_user_id r =? k)%Z) (users d))
      as [r|] eqn:F; [|reflexivity].
    apply find_some in F as [_ F]. apply Z.eqb_eq in F.
    destruct (Z.eqb_spec (usr_user_id r) uid); [congruence|reflexivity].
  - apply find_app_miss. cbn. apply Z.eqb_neq. congruence.
Qed.

Lemma saved_ids (d : database) (t : str) (uid : Z) (handle name : str) :
  map usr_user_id (users (add_or_update_user d t uid handle name))
  = match find (fun r => (usr_user_id r =? uid)%Z) (users d) with
    | Some _ => map usr_user_id (users d)
    | None => map usr_user_id (users d) ++ [uid]
    end.
Proof.
  unfold add_or_update_user.
  destruct (find _ (users d)); cbn [users with_users].
  - rewrite map_map. apply map_ext. intros r.
    now destruct (usr_user_id r =? uid)%Z.
  - now rewrite map_app.
Qed.

Lemma filter_id_one (l : list user_row) (uid : Z) :
  NoDup (map usr_user_id l) ->
  forall x, In x l -> usr_user_id x = uid ->
  List.length (filter (fun r => (usr_user_id r =? uid)%Z) l) = 1.
Proof.
  induction l as [|r l IH]; intros U x Hin Hid; [contradiction|].
  cbn [map] in U. apply NoDup_cons_iff in U as [Hn Hd].
  cbn [filter]. destruct (Z.eqb_spec (usr_user_id r) uid) as [E|E].
  - cbn [List.length]. f_equal.
    rewrite (@filter_none _ (fun y => usr_user_id y <> uid)); [reflexivity| |].
    + apply Forall_forall. intros y Hy Heq. apply Hn.
      apply in_map_iff. exists y. split; [congruence|exact Hy].
    + intros y Hy. now apply Z.eqb_neq.
  - destruct Hin as [Hin|Hin]; [congruence|].
    now apply (IH Hd x).
Qed.

Lemma like_percent (p s : str) :
  like (37%N :: p) s
  = like p s || match s with [] => false | _ :: s' => like (37%N :: p) s' end.
Proof. destruct s; reflexivity. Qed.

Lemma like_percent_skip (p pre s : str) :
  like (37%N :: p) s = true -> like (37%N :: p) (pre ++ s) = true.
Proof.
  intros H. induction pre as [|c pre IH]; [exact H|].
  cbn [app]. rewrite like_percent, IH. apply orb_true_r.
Qed.

Lemma like_percent_all (s : str) : like [37%N] s = true.
Proof.
  induction s as [|c s IH]; [reflexivity|].
  rewrite like_percent, IH. apply orb_true_r.
Qed.

Lemma like_itself (p q rest : str) :
  like q rest = true -> like (p ++ q) (p ++ rest) = true.
Proof.
  intros H. induction p as [|c p IH]; [exact H|].
  cbn [app]. destruct (N.eqb_spec c 37) as [->|Hc].
  - rewrite like_percent, (like_percent (p ++ q) (p ++ rest)), IH.
    cbn [orb]. apply orb_true_r.
  - cbn [like]. apply N.eqb_neq in Hc. rewrite Hc.
    now rewrite N.eqb_refl, orb_true_r, IH.
Qed.

Lemma like_fragment (name pre post : str) :
  like (37%N :: name ++ [37%N]) (pre ++ name ++ post) = true.
Proof.
  apply like_percent_skip. rewrite like_percent.
  rewrite (like_itself name [37%N] post (like_percent_all post)).
  reflexivity.
Qed.

Lemma first_of_some {A : Type} (a b : option A) :
  b <> None -> first_of a b <> None.
Proof. destruct a; [discriminate|exact id]. Qed.

End Users.

(** X14: Saving a user leaves one row for every user id: the ids of the table
    stay free of duplicates, the saved user has exactly one row, and the
    row of every other user is what it was. *)
Theorem saving_keeps_one_row_each :
  forall (d : database) (t : str) (uid : Z) (handle name : str),
    user_ids_unique d ->
    let d' := add_or_update_user d t uid handle name in
    user_ids_unique d'
    /\ List.length (filter (fun r => (usr_user_id r =? uid)%Z) (users d')) = 1
    /\ (forall k, k <> uid ->
          find (fun r => (usr_user_id r =? k)%Z) (users d')
          = find (fun r => (usr_user_id r =? k)%Z) (users d)).
Proof.
  intros d t uid handle name H d'.
  assert (U : user_ids_unique d').
  { unfold user_ids_unique, d'. rewrite saved_ids.
    destruct (find _ (users d)) eqn:E; [exact H|].
    apply NoDup_app; [exact H|repeat constructor; intros []|].
    intros k Hk [<-|[]]. now apply (find_id_none _ _ E). }
  split; [exact U|split].
  - pose proof (saved_row d t uid handle name) as S. fold d' in S.
    apply find_some in S as [Hin Hid]. apply Z.eqb_eq in Hid.
    exact (filter_id_one (users d') U _ Hin Hid).
  - intros k Hk. now apply saved_others.
Qed.

Lemma saving_witness :
  user_ids_unique
    (add_or_update_user Scenario.with_greeting Scenario.clock 2 (u "bob")
       (u "Bob B"))
  /\ user_ids_unique
       (add_or_update_user Scenario.with_greeting Scenario.clock 3 (u "eve")
          (u "Eve")).
Proof.
  split.
  - apply (@saving_keeps_one_row_each Scenario.with_greeting Scenario.clock 2
             (u "bob") (u "Bob B")).
    unfold user_ids_unique. vm_compute. repeat constructor. intros [].
  - apply (@saving_keeps_one_row_each Scenario.with_greeting Scenario.clock 3
             (u "eve") (u "Eve")).
    unfold user_ids_unique. vm_compute. repeat constructor. intros [].
Defined.

(** X15: What the table holds for a user after a save.  A user not yet known
    gets a row with the handle and the name as given, also when they are
    empty, and the time of the save as the date of joining.  For a known
    user an empty handle or name leaves the stored one in place, and the
    date of joining is never rewritten. *)
Theorem saved_user_row :
  forall (d : database) (t : str) (uid : Z) (handle name : str),
    let stored :=
      find (fun r => (usr_user_id r =? uid)%Z)
           (users (add_or_update_user d t uid handle name)) in
    match find (fun r => (usr_user_id r =? uid)%Z) (users d) with
    | None =>
        stored = Some {| usr_user_id := uid; usr_username := Some handle;
                         usr_full_name := Some name;
                         usr_joined_at := Some t |}
    | Some r =>
        exists r',
          stored = Some r' /\ usr_user_id r' = uid
          /\ usr_joined_at r' = usr_joined_at r
          /\ usr_username r' = (if truthy handle then Some handle
                                else usr_username r)
          /\ usr_full_name r' = (if truthy name then Some name
                                 else usr_full_name r)
    end.
Proof.
  intros d t uid handle name stored. unfold stored. rewrite saved_row.
  destruct (find _ (users d)) as [r|] eqn:E; [|reflexivity].
  eexists. split; [reflexivity|]. cbn.
  apply find_some in E as [_ E]. apply Z.eqb_eq in E. now repeat split.
Qed.

(** X16: A sender with a handle, once saved, is found by that handle: the
    search returns a user whose stored handle is the sender's up to the
    case of ASCII letters (the one of them with the smallest id). *)
Theorem saved_sender_is_found_by_handle :
  forall (w : world) (d : database) (upd : update) (usr : tg_user)
         (handle : str),
    effective_user upd = Some usr ->
    username usr = Some handle ->
    truthy handle = true ->
    exists r,
      get_user_by_username (save_user_from_update w d upd) handle = Some r
      /\ username_is r handle = true.
Proof.
  intros w d upd usr handle Hu Hh Ht.
  unfold save_user_from_update. rewrite Hu, Hh.
  pose proof (saved_row d (now w) (user_id usr) handle (full_name usr)) as S.
  set (d' := add_or_update_user d (now w) (user_id usr) handle
               (full_name usr)) in *.
  apply find_some in S as [Hin _].
  apply (In_by_rowid usr_user_id) in Hin.
  destruct (@find_In_some _ (fun r => username_is r handle)
              (by_rowid usr_user_id (users d')) _ Hin)
    as (r & Hr & Hp).
  - unfold username_is.
    destruct (find _ (users d)); cbn; rewrite ?Ht; apply str_eqb_refl.
  - exists r. unfold get_user_by_username. cbv zeta. rewrite Hr.
    now split.
Qed.

Lemma saved_sender_witness :
  exists r,
    get_user_by_username
      (save_user_from_update Scenario.world0 Scenario.staff
         (Scenario.event Scenario.dana 100 (u "hello")))
      (u "dana_admin")
    = Some r
    /\ username_is r (u "dana_admin") = true.
Proof.
  apply (@saved_sender_is_found_by_handle Scenario.world0 Scenario.staff
           (Scenario.event Scenario.dana 100 (u "hello")) Scenario.dana
           (u "dana_admin")); reflexivity.
Defined.

(** X17: The search by handle finds someone whenever a stored handle contains
    the wanted name, up to the case of ASCII letters. *)
Theorem handle_fragment_is_found :
  forall (d : database) (name stored pre post : str) (r : user_row),
    In r (users d) ->
    usr_username r = Some stored ->
    sqlite_lower stored = pre ++ sqlite_lower name ++ post ->
    exists r',
      get_user_by_username d name = Some r' /\ usr_username r' <> None.
Proof.
  intros d name stored pre post r Hin Hn Hs.
  assert (Hlike : username_like r (37%N :: name ++ [37%N]) = true).
  { unfold username_like. rewrite Hn, Hs.
    change (sqlite_lower (37%N :: name ++ [37%N]))
      with (37%N :: sqlite_lower (name ++ [37%N])).
    unfold sqlite_lower at 1. rewrite map_app.
    apply like_fragment. }
  apply (In_by_rowid usr_user_id) in Hin.
  destruct (find_In_some (fun x => username_like x (37%N :: name ++ [37%N]))
              (by_rowid usr_user_id (users d)) r Hin Hlike)
    as (y & Hy & Hyp).
  unfold get_user_by_username. cbv zeta.
  destruct (find (fun x => username_is x name)
              (by_rowid usr_user_id (users d))) as [a|] eqn:A.
  - exists a. split; [reflexivity|].
    apply find_some in A as [_ A]. unfold username_is in A.
    now destruct (usr_username a).
  - destruct (find (fun x => username_is x (64%N :: name))
                (by_rowid usr_user_id (users d))) as [b|] eqn:B.
    + exists b. split; [reflexivity|].
      apply find_some in B as [_ B]. unfold username_is in B.
      now destruct (usr_username b).
    + exists y. cbn [first_of]. rewrite Hy. split; [reflexivity|].
      unfold username_like in Hyp. now destruct (usr_username y).
Qed.

(** Bob is stored as [bobby]; the fragment [OBB] finds him. *)
Lemma handle_fragment_witness :
  exists r',
    get_user_by_username Scenario.with_greeting (u "OBB") = Some r'
    /\ usr_username r' <> None.
Proof.
  apply (@handle_fragment_is_found Scenario.with_greeting (u "OBB")
           (u "bobby") (u "b") (u "y")
           {| usr_user_id := 2; usr_username := Some (u "bobby");
              usr_full_name := Some (u "Bob"); usr_joined_at := None |}).
  - vm_compute. now left.
  - reflexivity.
  - vm_compute. reflexivity.
Defined.

(* ================================================================= *)
(** ** What the text dispatch does and never does *)

Section Kinds.

Variable cfg : config.

(** A kind of action [q] that no reply, no message to another chat and no
    call of a handler belongs to. *)
Variable q : action -> bool.
Hypothesis q_text : forall b, q (ReplyText b) = false.
Hypothesis q_photo : forall c f b, q (SendPhoto c f b) = false.
Hypothesis q_animation : forall c f b, q (SendAnimation c f b) = false.
Hypothesis q_video : forall c f b, q (SendVideo c f b) = false.
Hypothesis q_sticker : forall c f, q (SendSticker c f) = false.
Hypothesis q_refusal : forall b, q (ReplyAndDelete b) = false.
Hypothesis q_send : forall c b, q (SendMessage c b) = false.
Hypothesis q_call : forall c a, q (Call c a) = false.
Hypothesis q_import : forall c, q (ProcessBackupImport c) = false.

Lemma send_media_free (chat : Z) (m : media_row) (body : str) :
  existsb q (send_media chat m body) = false.
Proof.
  unfold send_media.
  repeat match goal with
    | |- context [if ?b then _ else _] => destruct b
    end; cbn [existsb];
    rewrite ?q_photo, ?q_animation, ?q_video, ?q_sticker, ?q_text;
    reflexivity.
Qed.

Lemma template_stage_free (w : world) (d : database) (usr : tg_user)
    (msg : message) (chat : Z) (t : str) (sent : list action) :
  template_stage w d usr msg chat t = Some sent -> existsb q sent = false.
Proof.
  unfold template_stage.
  destruct (select_command d chat t); [|discriminate].
  destruct (clickable_s2 _); [|discriminate].
  destruct (_ && _); [|discriminate].
  destruct (get_personal_command_media _ _) as [rows|].
  - destruct (random_choice w rows); intros H; injection H as <-;
      [apply send_media_free|cbn; now rewrite q_text].
  - intros H. injection H as <-. cbn. now rewrite q_text.
Qed.

Lemma session_stage_free (w : world) (d d' : database) (usr : tg_user)
    (msg : message) (chat : Z) (mode : option str) (sent : list action) :
  session_stage cfg w d usr msg chat mode = Some (d', sent) ->
  existsb q sent = false.
Proof.
  unfold session_stage. intros H.
  repeat match type of H with
    | context [if ?b then _ else _] => destruct b
    | context [match ?o with Some _ => _ | None => _ end] => destruct o
    end;
    try discriminate; injection H as _ <-; cbn; now rewrite ?q_send.
Qed.

Lemma phrase_stage_free (t : str) (acts : list action) :
  phrase_stage cfg t = Some acts -> existsb q acts = false.
Proof.
  unfold phrase_stage, unmarry.
  repeat match goal with
    | |- context [if ?b then _ else _] => destruct b
    end; intros H; try discriminate; injection H as <-; cbn;
    now rewrite ?q_call, ?q_refusal.
Qed.

Lemma alias_stage_free (d : database) (chat : Z) (t : str)
    (acts : list action) :
  alias_stage cfg d chat t = Some acts -> existsb q acts = false.
Proof.
  unfold alias_stage.
  destruct (resolve_alias d chat t) as [[cmd args]|]; [|discriminate].
  destruct (mem_str _ _); intros H; injection H as <-; cbn;
    now rewrite ?q_call.
Qed.

Lemma restore_stage_free (uid : Z) (t : str) (acts : list action) :
  restore_stage cfg uid t = Some acts -> existsb q acts = false.
Proof.
  unfold restore_stage, owner_only_import.
  destruct (Re.search_code _); [|destruct (Re.match_bare_code _)];
    destruct (is_owner cfg uid); intros H; try discriminate;
    injection H as <-; cbn; now rewrite ?q_import, ?q_refusal.
Qed.

Lemma command_stages_free (d : database) (uid chat : Z) (t : str) :
  existsb q (snd (fst (command_stages cfg d uid chat t))) = false.
Proof.
  unfold command_stages.
  destruct (phrase_stage cfg t) eqn:P; [now apply (phrase_stage_free t)|].
  destruct (restore_stage cfg uid t) eqn:R;
    [now apply (restore_stage_free uid t)|].
  destruct (alias_stage cfg d chat t) eqn:A;
    [now apply (alias_stage_free d chat t)|reflexivity].
Qed.

Lemma admin_stages_free (w : world) (d : database) (usr : tg_user)
    (msg : message) (chat : Z) (t : str) :
  existsb q (snd (fst (admin_stages cfg w d usr msg chat t))) = false.
Proof.
  unfold admin_stages.
  destruct (negb _); [reflexivity|].
  destruct (opt_truthy _); [|apply command_stages_free].
  destruct (session_stage _ _ _ _ _ _ _) as [[d' sent]|] eqn:S;
    [|apply command_stages_free].
  now apply (session_stage_free _ _ _ _ _ _ S).
Qed.

End Kinds.

Section Dispatch.

Variable cfg : config.

Lemma lower_cp_slash (c : N) : (47 =? lower_cp c)%N = (47 =? c)%N.
Proof.
  assert (U : untouched lower_runs 47 = true) by (vm_compute; reflexivity).
  destruct (N.eqb_spec 47 c) as [<-|Hc].
  - unfold lower_cp. rewrite (@untouched_fixed lower_runs 47 U).
    apply N.eqb_refl.
  - apply N.eqb_neq. intros E. apply Hc. symmetry.
    now apply (@untouched_only lower_runs 47 c U).
Qed.

Lemma cleanup_delete (t : str) :
  existsb is_delete (cleanup t) = startswith t (u "/").
Proof. unfold cleanup. now destruct (startswith _ _). Qed.

Lemma cleanup_privileged (t : str) :
  existsb is_privileged (cleanup t) = false.
Proof. unfold cleanup. now destruct (startswith _ _). Qed.

Lemma cleanup_import (t : str) : existsb is_import (cleanup t) = false.
Proof. unfold cleanup. now destruct (startswith _ _). Qed.

Lemma gate_closed (w : world) (d : database) (usr : tg_user) (msg : message)
    (chat : Z) (t : str) :
  can_ban_mute cfg d (user_id usr) = false ->
  admin_stages cfg w d usr msg chat t = (AtGate, [], d).
Proof.
  intros H. unfold admin_stages.
  change (is_owner cfg (user_id usr)
          || role_is d (user_id usr) (u "head_admin"))
    with (can_ban_mute cfg d (user_id usr)).
  now rewrite H.
Qed.

Lemma session_stage_store (w : world) (d d' : database) (usr : tg_user)
    (msg : message) (chat : Z) (mode : option str) (sent : list action) :
  session_stage cfg w d usr msg chat mode = Some (d', sent) ->
  d' = d \/ d' = update_online_activity d (now w) (user_id usr).
Proof.
  unfold session_stage. intros H.
  repeat match type of H with
    | context [if ?b then _ else _] => destruct b
    | context [match ?o with Some _ => _ | None => _ end] => destruct o
    end;
    try discriminate; injection H as <- _; auto.
Qed.

Lemma command_stages_import (d : database) (uid chat : Z) (t : str) :
  existsb is_import (snd (fst (command_stages cfg d uid chat t))) = true ->
  is_owner cfg uid = true
  /\ fst (fst (command_stages cfg d uid chat t)) = AtRestore.
Proof.
  unfold command_stages.
  destruct (phrase_stage cfg t) as [acts|] eqn:P.
  - cbn. intros H.
    rewrite (@phrase_stage_free cfg is_import
               (fun _ => eq_refl) (fun _ _ => eq_refl) t acts P) in H.
    discriminate.
  - destruct (restore_stage cfg uid t) as [acts|] eqn:R.
    + cbn. intros H. split; [|reflexivity].
      destruct (is_owner cfg uid) eqn:O; [reflexivity|].
      revert R. unfold restore_stage, owner_only_import. rewrite O.
      destruct (Re.search_code _); [|destruct (Re.match_bare_code _)];
        intros R; try discriminate; injection R as <-; discriminate.
    + destruct (alias_stage cfg d chat t) as [acts|] eqn:A.
      * cbn. intros H.
        rewrite (@alias_stage_free cfg is_import (fun _ _ => eq_refl)
                   d chat t acts A) in H.
        discriminate.
      * cbn. discriminate.
Qed.

End Dispatch.

(** X18: A text from a sender who is neither an owner nor a head admin never
    calls a handler, never imports a backup and never sends anything to
    another chat, and it leaves the store as it was: all such a sender
    can obtain is the reply of a template command. *)
Theorem member_text_is_inert :
  forall (cfg : config) (w : world) (d : database) (upd : update),
    (forall usr, effective_user upd = Some usr ->
                 can_ban_mute cfg d (user_id usr) = false) ->
    let r := handle_text_commands cfg w d upd in
    store r = d
    /\ existsb is_privileged (actions r) = false
    /\ In (ended r) [AtGuard; AtTemplate; AtGate; Crashed].
Proof.
  intros cfg w d upd H r. unfold r, handle_text_commands.
  destruct (upd_message upd) as [msg|]; [|cbn; tauto].
  destruct (negb (opt_truthy (text msg))); [cbn; tauto|].
  destruct (effective_user upd) as [usr|]; [|cbn; tauto].
  destruct (user_id usr =? 0)%Z; [cbn; tauto|].
  specialize (H usr eq_refl).
  destruct (effective_chat upd) as [chat|].
  - destruct (template_stage _ _ _ _ _ _) as [sent|] eqn:T.
    + cbn [store actions ended].
      rewrite existsb_app, cleanup_privileged.
      rewrite (@template_stage_free is_privileged
                 (fun _ => eq_refl) (fun _ _ _ => eq_refl)
                 (fun _ _ _ => eq_refl) (fun _ _ _ => eq_refl)
                 (fun _ _ => eq_refl) _ _ _ _ _ _ _ T).
      cbn; tauto.
    + rewrite (gate_closed cfg w d usr msg chat _ H).
      cbn [store actions ended]. rewrite app_nil_r, cleanup_privileged.
      cbn; tauto.
  - cbn [store actions ended]. rewrite cleanup_privileged. cbn; tauto.
Qed.

(** Mila, an ordinary member, writes the phrase that gives the rights of
    an admin, and a backup code. *)
Lemma member_text_witness :
  actions (handle_text_commands Scenario.cfg0 Scenario.world0 Scenario.staff
             (Scenario.event Scenario.mila 100 (u "давай права"))) = []
  /\ existsb is_privileged
       (actions (handle_text_commands Scenario.cfg0 Scenario.world0
                   Scenario.staff
                   (Scenario.event Scenario.mila 100 (u "ABCDEF012345"))))
     = false.
Proof.
  split; [vm_compute; reflexivity|].
  apply (@member_text_is_inert Scenario.cfg0 Scenario.world0 Scenario.staff
           (Scenario.event Scenario.mila 100 (u "ABCDEF012345"))).
  intros usr Hu. injection Hu as <-. vm_compute. reflexivity.
Defined.

(** X19: A backup is imported only for an owner, and only at the stage of the
    backup codes: whatever the text, the store and the session of the
    sender, the text dispatch asks for an import for nobody else. *)
Theorem import_is_owner_only :
  forall (cfg : config) (w : world) (d : database) (upd : update)
         (code : str),
    let r := handle_text_commands cfg w d upd in
    In (ProcessBackupImport code) (actions r) ->
    exists usr,
      effective_user upd = Some usr
      /\ is_owner cfg (user_id usr) = true
      /\ ended r = AtRestore.
Proof.
  intros cfg w d upd code r Hin.
  assert (Hex : existsb is_import (actions r) = true).
  { apply existsb_exists. exists (ProcessBackupImport code). now split. }
  clear Hin. revert Hex. unfold r, handle_text_commands.
  destruct (upd_message upd) as [msg|]; [|discriminate].
  destruct (negb (opt_truthy (text msg))); [discriminate|].
  destruct (effective_user upd) as [usr|]; [|discriminate].
  destruct (user_id usr =? 0)%Z; [discriminate|].
  destruct (effective_chat upd) as [chat|];
    [|cbn [actions]; rewrite cleanup_import; discriminate].
  set (t := lower (strip match text msg with Some s => s | None => [] end)).
  destruct (template_stage _ _ _ _ _ _) as [sent|] eqn:T.
  - cbn [actions]. rewrite existsb_app, cleanup_import.
    rewrite (@template_stage_free is_import
               (fun _ => eq_refl) (fun _ _ _ => eq_refl)
               (fun _ _ _ => eq_refl) (fun _ _ _ => eq_refl)
               (fun _ _ => eq_refl) _ _ _ _ _ _ _ T).
    discriminate.
  - assert (L : existsb is_import
                  (snd (fst (admin_stages cfg w d usr msg chat t))) = true ->
                is_owner cfg (user_id usr) = true
                /\ fst (fst (admin_stages cfg w d usr msg chat t))
                   = AtRestore).
    { unfold admin_stages.
      destruct (negb _); [discriminate|].
      destruct (opt_truthy _); [|apply command_stages_import].
      destruct (session_stage _ _ _ _ _ _ _) as [[d' sent]|] eqn:S;
        [|apply command_stages_import].
      cbn. intros H.
      rewrite (@session_stage_free cfg is_import (fun _ _ => eq_refl)
                 _ _ _ _ _ _ _ _ S) in H.
      discriminate. }
    destruct (admin_stages cfg w d usr msg chat t) as [[st acts] d'].
    cbn [actions ended fst snd] in *.
    rewrite existsb_app, cleanup_import. cbn [orb]. intros H.
    destruct (L H) as [Ho Hs]. exists usr. now repeat split.
Qed.

Lemma import_witness :
  exists usr,
    effective_user (Scenario.event Scenario.alice 100 (u "abcdef012345"))
    = Some usr
    /\ is_owner Scenario.cfg0 (user_id usr) = true
    /\ ended (handle_text_commands Scenario.cfg0 Scenario.world0
                Scenario.staff
                (Scenario.event Scenario.alice 100 (u "abcdef012345")))
       = AtRestore.
Proof.
  apply (@import_is_owner_only Scenario.cfg0 Scenario.world0 Scenario.staff
           (Scenario.event Scenario.alice 100 (u "abcdef012345"))
           (u "ABCDEF012345")).
  vm_compute. now left.
Defined.

(** X20: A text dispatch that hands nothing over to another handler, no
    command called in turn and no import, writes nothing but the time of
    the sender's last activity, and that only when it ends at the session
    stage: roles, users, aliases and template commands are not written by
    the dispatch itself. *)
Theorem text_dispatch_writes_only_activity :
  forall (cfg : config) (w : world) (d : database) (upd : update),
    let r := handle_text_commands cfg w d upd in
    existsb is_handed_over (actions r) = false ->
    store r = d
    \/ (exists usr,
          effective_user upd = Some usr
          /\ ended r = AtSession
          /\ store r = update_online_activity d (now w) (user_id usr)).
Proof.
  intros cfg w d upd r _. unfold r, handle_text_commands.
  destruct (upd_message upd) as [msg|]; [|now left].
  destruct (negb (opt_truthy (text msg))); [now left|].
  destruct (effective_user upd) as [usr|]; [|now left].
  destruct (user_id usr =? 0)%Z; [now left|].
  destruct (effective_chat upd) as [chat|]; [|now left].
  destruct (template_stage _ _ _ _ _ _); [now left|].
  unfold admin_stages.
  destruct (negb _); [now left|].
  set (t := lower (strip match text msg with Some s => s | None => [] end)).
  pose proof (command_stages_store cfg d (user_id usr) chat t) as C.
  destruct (opt_truthy _).
  - destruct (session_stage _ _ _ _ _ _ _) as [[d' sent]|] eqn:S.
    + cbn [store ended].
      destruct (session_stage_store _ _ _ _ _ _ _ S) as [-> | ->];
        [now left|right]. exists usr. now repeat split.
    + destruct (command_stages _ _ _ _ _) as [[st acts] d'].
      left. exact C.
  - destruct (command_stages _ _ _ _ _) as [[st acts] d'].
    left. exact C.
Qed.

(** Alice, under her signed session, writes [hello]: the dispatch
    forwards it and refreshes her session. *)
Lemma text_dispatch_writes_witness :
  let r := handle_text_commands Scenario.cfg0 Scenario.world0
             Scenario.alice_signed
             (Scenario.event Scenario.alice 500 (u "hello")) in
  ended r = AtSession
  /\ (store r = Scenario.alice_signed
      \/ exists usr,
           Some Scenario.alice = Some usr
           /\ ended r = AtSession
           /\ store r = update_online_activity Scenario.alice_signed
                          Scenario.clock (user_id usr)).
Proof.
  intros r. split; [vm_compute; reflexivity|].
  apply (@text_dispatch_writes_only_activity Scenario.cfg0 Scenario.world0
           Scenario.alice_signed
           (Scenario.event Scenario.alice 500 (u "hello"))).
  vm_compute. reflexivity.
Defined.

(** X21: A text that begins with a slash, once trimmed, is deleted from
    the chat by the dispatch, whoever sent it.  When the dispatch hands
    nothing over to another handler, the message is deleted in that case
    only. *)
Theorem slash_text_is_deleted :
  forall (cfg : config) (w : world) (d : database) (upd : update)
         (usr : tg_user) (msg : message) (body : str),
    upd_message upd = Some msg -> text msg = Some body ->
    truthy body = true ->
    effective_user upd = Some usr -> user_id usr <> 0%Z ->
    let r := handle_text_commands cfg w d upd in
    (startswith (strip body) (u "/") = true -> In DeleteMessage (actions r))
    /\ (existsb is_handed_over (actions r) = false ->
        existsb is_delete (actions r) = startswith (strip body) (u "/")).
Proof.
  intros cfg w d upd usr msg body Hm Ht Hb Hu Hz r.
  assert (Hs : startswith (lower (strip body)) (u "/")
               = startswith (strip body) (u "/")).
  { change (u "/") with [47%N].
    destruct (strip body) as [|c s]; [reflexivity|].
    unfold lower. cbn [map startswith]. rewrite lower_cp_slash.
    now destruct s. }
  assert (E : existsb is_delete (actions r) = startswith (strip body) (u "/")).
  { rewrite <- Hs. unfold r, handle_text_commands.
    rewrite Hm, Ht, Hu. cbn [opt_truthy]. rewrite Hb. cbn [negb].
    destruct (Z.eqb_spec (user_id usr) 0); [contradiction|].
    destruct (effective_chat upd) as [chat|];
      [|cbn [actions]; apply cleanup_delete].
    destruct (template_stage _ _ _ _ _ _) as [sent|] eqn:T.
    - cbn [actions]. rewrite existsb_app, cleanup_delete.
      rewrite (@template_stage_free is_delete
                 (fun _ => eq_refl) (fun _ _ _ => eq_refl)
                 (fun _ _ _ => eq_refl) (fun _ _ _ => eq_refl)
                 (fun _ _ => eq_refl) _ _ _ _ _ _ _ T).
      apply orb_false_r.
    - pose proof (@admin_stages_free cfg is_delete
                    (fun _ => eq_refl) (fun _ _ => eq_refl)
                    (fun _ _ => eq_refl) (fun _ => eq_refl)
                    w d usr msg chat (lower (strip body))) as L.
      destruct (admin_stages _ _ _ _ _ _ _) as [[st acts] d'].
      cbn [actions fst snd] in *. rewrite existsb_app, cleanup_delete, L.
      apply orb_false_r. }
  split; [|intros _; exact E].
  intros H. rewrite H in E. apply existsb_exists in E as (a & Hin & Ha).
  destruct a; try discriminate. exact Hin.
Qed.

Lemma slash_text_witness :
  In DeleteMessage
    (actions (handle_text_commands Scenario.cfg0 Scenario.world0
                Scenario.staff
                (Scenario.event Scenario.mila 100 (u "  /Ban @someone")))).
Proof.
  apply (@slash_text_is_deleted Scenario.cfg0 Scenario.world0 Scenario.staff
           (Scenario.event Scenario.mila 100 (u "  /Ban @someone"))
           Scenario.mila (Scenario.plain (u "  /Ban @someone"))
           (u "  /Ban @someone")); try reflexivity.
  vm_compute. discriminate.
Defined.

(* ================================================================= *)
(** ** The commands that manage aliases, templates and sessions *)

Section Management.

Variable cfg : config.

Lemma save_user_tables (w : world) (d : database) (upd : update) :
  command_aliases (save_user_from_update w d upd) = command_aliases d
  /\ personal_commands (save_user_from_update w d upd) = personal_commands d
  /\ personal_command_media (save_user_from_update w d upd)
     = personal_command_media d
  /\ seq_personal_commands (save_user_from_update w d upd)
     = seq_personal_commands d.
Proof.
  unfold save_user_from_update, add_or_update_user.
  destruct (effective_user upd); [|repeat split].
  destruct (find _ (users d)); repeat split.
Qed.

Lemma can_ban_mute_saved (w : world) (d : database) (upd : update) (uid : Z) :
  can_ban_mute cfg (save_user_from_update w d upd) uid
  = can_ban_mute cfg d uid.
Proof.
  destruct (save_user_same w d upd) as (R & _).
  unfold can_ban_mute, is_head_admin, role_is, get_role. now rewrite R.
Qed.

Lemma can_use_bot_saved (w : world) (d : database) (upd : update) (uid : Z) :
  can_use_bot cfg (save_user_from_update w d upd) uid = can_use_bot cfg d uid.
Proof.
  destruct (save_user_same w d upd) as (R & _).
  now apply can_use_bot_same.
Qed.

Lemma get_online_mode_saved (w : world) (d : database) (upd : update)
    (k : Z) :
  get_online_mode (save_user_from_update w d upd) k = get_online_mode d k.
Proof.
  destruct (save_user_same w d upd) as (_ & _ & M).
  unfold get_online_mode. now rewrite M.
Qed.

Lemma too_few_false (l : list str) (n : nat) :
  0 < n -> n <= List.length l -> too_few (Some l) n = false.
Proof.
  intros Hn Hl. unfold too_few. destruct l as [|x l]; [cbn in Hl; lia|].
  apply Nat.ltb_ge. exact Hl.
Qed.

Lemma lstrip_slash_idem (s : str) :
  lstrip_slash (lstrip_slash s) = lstrip_slash s.
Proof.
  induction s as [|c s IH]; [reflexivity|]. cbn [lstrip_slash].
  destruct (c =? 47)%N eqn:E; [exact IH|]. cbn [lstrip_slash]. now rewrite E.
Qed.

Lemma lstrip_slash_plain (s : str) :
  startswith s (u "/") = false -> lstrip_slash s = s.
Proof.
  change (u "/") with [47%N]. destruct s as [|c s]; [reflexivity|].
  cbn [startswith lstrip_slash]. rewrite (N.eqb_sym c 47).
  destruct (47 =? c)%N; [|reflexivity]. now destruct s.
Qed.

Lemma lower_lstrip_slash (s : str) :
  lower (lstrip_slash s) = lstrip_slash (lower s).
Proof.
  induction s as [|c s IH]; [reflexivity|].
  unfold lower in *. cbn [lstrip_slash map].
  rewrite (N.eqb_sym (lower_cp c) 47), lower_cp_slash, (N.eqb_sym 47 c).
  destruct (c =? 47)%N; [exact IH|reflexivity].
Qed.

(** The command [set_cmd_command] stores is the command the alias stage
    computes from it. *)
Lemma typed_command_normal (arg : str) :
  lower (lstrip_slash (typed_command arg)) = typed_command arg.
Proof.
  unfold typed_command. destruct (startswith (lower arg) (u "/")) eqn:E.
  - now rewrite lstrip_slash_idem, lower_lstrip_slash, lower_idem.
  - now rewrite (lstrip_slash_plain _ E), lower_idem.
Qed.

Lemma added_alias_found (d : database) (t : str) (chat : Z)
    (name name' target : str) (by_whom : Z) :
  lower name' = lower name ->
  get_command_alias (add_command_alias d t chat name target by_whom)
    chat name'
  = Some target.
Proof.
  intros H. unfold get_command_alias, add_command_alias.
  cbn [command_aliases with_command_aliases]. rewrite H.
  rewrite (find_app_none _ _ _
             (find_filter_out (alias_key chat (lower name)) _)).
  unfold alias_key. cbn [find al_chat_id al_alias_name al_target_command].
  now rewrite Z.eqb_refl, str_eqb_refl.
Qed.

Lemma placeholder_index_app (ws rest : list str) (ph : str) :
  Forall (fun a => is_placeholder a = false) ws ->
  is_placeholder ph = true ->
  placeholder_index (ws ++ ph :: rest) = Some (List.length ws).
Proof.
  intros Hws Hph.
  induction Hws as [|a ws Ha Hws IH]; cbn [app placeholder_index List.length].
  - now rewrite Hph.
  - now rewrite Ha, IH.
Qed.

Lemma firstn_length_app {A : Type} (l l' : list A) :
  firstn (List.length l) (l ++ l') = l.
Proof.
  induction l as [|x l IH]; cbn; [now destruct l'|]. now rewrite IH.
Qed.

Lemma skipn_length_app {A : Type} (l l' : list A) :
  skipn (List.length l) (l ++ l') = l'.
Proof. induction l as [|x l IH]; cbn; [reflexivity|exact IH]. Qed.

(** What [set_personal_command] does for a sender with the rights, on
    arguments whose first placeholder stands behind the words [ws]. *)
Lemma set_personal_registered (w : world) (d0 : database) (upd : update)
    (usr : tg_user) (msg : message) (chat : Z) (ws rest : list str)
    (ph : str) :
  effective_user upd = Some usr -> upd_message upd = Some msg ->
  effective_chat upd = Some chat ->
  can_ban_mute cfg d0 (user_id usr) = true ->
  Forall (fun a => is_placeholder a = false) ws ->
  is_placeholder ph = true ->
  2 <= List.length (ws ++ ph :: rest) ->
  let added :=
    add_personal_command (save_user_from_update w d0 upd) (now w) chat
      (lower (join_space ws)) (join_space (ph :: rest)) (user_id usr) in
  fst (fst (set_personal_command cfg w d0 upd (Some (ws ++ ph :: rest))))
  = fst added
  /\ snd (set_personal_command cfg w d0 upd (Some (ws ++ ph :: rest)))
     = Some (snd added).
Proof.
  intros Hu Hm Hc Hr Hws Hph Hlen added. unfold set_personal_command.
  rewrite Hu, Hm, Hc, can_ban_mute_saved, Hr.
  rewrite (too_few_false (ws ++ ph :: rest) (n := 2)); [|lia|exact Hlen].
  cbn [negb args_of]. rewrite (@placeholder_index_app ws rest ph Hws Hph).
  rewrite firstn_length_app, skipn_length_app. fold added.
  destruct added as [d' id]. now split.
Qed.

Lemma command_key_other (chat chat' : Z) (name name' : str)
    (r : personal_command_row) :
  (chat', name') <> (chat, name) ->
  command_key chat' name' r = true ->
  negb (command_key chat name r) = true.
Proof.
  unfold command_key. intros Hne H. apply andb_prop in H as [Hc Hn].
  apply Z.eqb_eq in Hc. apply str_eqb_eq in Hn. apply negb_true_iff.
  destruct (Z.eqb_spec (pc_chat_id r) chat) as [E|E]; [|reflexivity].
  cbn [andb]. apply str_eqb_neq. congruence.
Qed.

Lemma get_online_mode_remove_other (d : database) (uid k : Z) :
  k <> uid ->
  get_online_mode (remove_online_mode d uid) k = get_online_mode d k.
Proof.
  intros Hne. unfold get_online_mode, remove_online_mode.
  cbn [online_modes with_online_modes].
  rewrite find_filter_keeps; [reflexivity|].
  intros r Hr. apply Z.eqb_eq in Hr. apply negb_true_iff, Z.eqb_neq.
  congruence.
Qed.

Lemma get_online_mode_set_other (d : database) (t : str) (uid k : Z)
    (m : str) (src : option Z) :
  k <> uid ->
  get_online_mode (set_online_mode d t uid m src) k = get_online_mode d k.
Proof.
  intros Hne. unfold get_online_mode, set_online_mode.
  cbn [online_modes with_online_modes].
  rewrite find_app_miss.
  - rewrite find_filter_keeps; [reflexivity|].
    intros r Hr. apply Z.eqb_eq in Hr. apply negb_true_iff, Z.eqb_neq.
    congruence.
  - cbn. apply Z.eqb_neq. congruence.
Qed.

Lemma toggle_store_others (w : world) (d : database) (upd : update)
    (uid k : Z) (m : str) :
  k <> uid ->
  get_online_mode (toggle_store cfg w d upd uid m) k = get_online_mode d k.
Proof.
  intros Hne. unfold toggle_store.
  destruct (_ || _); [apply get_online_mode_saved|].
  destruct (mode_is _ _).
  - rewrite get_online_mode_remove_other by exact Hne.
    apply get_online_mode_saved.
  - rewrite get_online_mode_set_other by exact Hne.
    apply get_online_mode_saved.
Qed.

Lemma joined_online_modes_nil (d : database) :
  joined_online_modes d = [] -> online_modes d = [].
Proof.
  unfold joined_online_modes. intros H.
  apply (by_rowid_nil om_user_id). revert H.
  destruct (by_rowid om_user_id (online_modes d)) as [|om l]; [reflexivity|].
  cbn [flat_map].
  destruct (filter _ (roles d)) as [|r rs]; cbn; discriminate.
Qed.

End Management.

(** X22: The five managing commands do nothing for a sender who is neither an
    owner nor a head admin: the store is left as the saving of the sender
    left it, with the aliases, the template commands, their media and the
    sessions it had, and the sender gets at most one refusal. *)
Theorem management_needs_rights :
  forall (cfg : config) (w : world) (d0 : database) (upd : update)
         (args : option (list str)),
    (forall usr, effective_user upd = Some usr ->
                 can_ban_mute cfg d0 (user_id usr) = false) ->
    let d := save_user_from_update w d0 upd in
    refused d (set_cmd_command cfg w d0 upd args)
    /\ refused d (del_cmd_command cfg w d0 upd args)
    /\ refused d (fst (set_personal_command cfg w d0 upd args))
    /\ snd (set_personal_command cfg w d0 upd args) = None
    /\ refused d (del_personal_command cfg w d0 upd args)
    /\ refused d (sayoffall_command cfg w d0 upd)
    /\ command_aliases d = command_aliases d0
    /\ personal_commands d = personal_commands d0
    /\ personal_command_media d = personal_command_media d0
    /\ online_modes d = online_modes d0.
Proof.
  intros cfg w d0 upd args H d. subst d.
  destruct (save_user_tables w d0 upd) as (A & P & M & _).
  destruct (save_user_same w d0 upd) as (_ & _ & O).
  unfold refused, set_cmd_command, del_cmd_command, set_personal_command,
    del_personal_command, sayoffall_command.
  destruct (effective_user upd) as [usr|];
    [|cbn [fst snd]; repeat split; auto].
  rewrite !can_ban_mute_saved, (H usr eq_refl). cbn [negb].
  destruct (upd_message upd) as [msg|];
    [|cbn [fst snd]; repeat split; auto].
  destruct (effective_chat upd) as [chat|];
    cbn [fst snd]; repeat split; eauto.
Qed.

(** Mila asks for an alias, a template and the end of every session. *)
Lemma management_witness :
  let upd := command_event Scenario.mila 600 in
  let d := save_user_from_update Scenario.world0 Scenario.dana_signed upd in
  refused d
    (set_cmd_command Scenario.cfg0 Scenario.world0 Scenario.dana_signed upd
       (Some [u "бан"; u "/ban_s"]))
  /\ refused d
       (sayoffall_command Scenario.cfg0 Scenario.world0 Scenario.dana_signed
          upd).
Proof.
  intros upd d.
  destruct (@management_needs_rights Scenario.cfg0 Scenario.world0
              Scenario.dana_signed upd (Some [u "бан"; u "/ban_s"]))
    as (H1 & _ & _ & _ & _ & H5 & _).
  - intros usr Hu. injection Hu as <-. vm_compute. reflexivity.
  - split; [exact H1|exact H5].
Defined.

(** X23: An alias made with [set_cmd] works: once an owner or head admin has
    registered a name for a registered command, any text of that chat
    whose first word is the name, in any case, calls the command with the
    remaining words as its arguments. *)
Theorem set_cmd_then_dispatch :
  forall (cfg : config) (w : world) (d0 : database) (upd : update)
         (usr : tg_user) (msg : message) (chat : Z) (name arg : str)
         (rest : list str) (t : str),
    effective_user upd = Some usr -> upd_message upd = Some msg ->
    effective_chat upd = Some chat ->
    can_ban_mute cfg d0 (user_id usr) = true ->
    mem_str (typed_command arg) (COMMAND_HANDLERS cfg) = true ->
    typed_command arg <> [] ->
    lower (hd [] (split t)) = lower name ->
    alias_stage cfg
      (fst (set_cmd_command cfg w d0 upd (Some (name :: arg :: rest))))
      chat t
    = Some [Call (typed_command arg) (Some (tl (split t)))].
Proof.
  intros cfg w d0 upd usr msg chat name arg rest t Hu Hm Hc Hr Hk Hne Hw.
  unfold set_cmd_command.
  rewrite Hu, Hm, Hc, can_ban_mute_saved, Hr.
  rewrite (too_few_false (name :: arg :: rest) (n := 2));
    [|lia|cbn; lia].
  cbn [negb args_of nth]. rewrite Hk. cbn [negb fst].
  unfold alias_stage, resolve_alias.
  rewrite (@added_alias_found _ _ chat (lower name) (hd [] (split t))
             (typed_command arg) (user_id usr));
    [|now rewrite lower_idem].
  assert (Ht : truthy (typed_command arg) = true)
    by (destruct (typed_command arg); [contradiction|reflexivity]).
  rewrite Ht, typed_command_normal, Hk. reflexivity.
Qed.

Lemma set_cmd_witness :
  alias_stage Scenario.cfg0
    (fst (set_cmd_command Scenario.cfg0 Scenario.world0 Scenario.staff
            (command_event Scenario.dana 100)
            (Some [u "Бан"; u "/BAN_S"])))
    100 (u "бан @someone 2h")
  = Some [Call (u "ban_s") (Some [u "@someone"; u "2h"])].
Proof.
  apply (@set_cmd_then_dispatch Scenario.cfg0 Scenario.world0 Scenario.staff
           (command_event Scenario.dana 100) Scenario.dana
           {| text := None; caption := None; message_id := 77;
              reply_to_message := None |}
           100 (u "Бан") (u "/BAN_S") [] (u "бан @someone 2h"));
    try reflexivity.
  vm_compute. discriminate.
Defined.

(** X24: [set_cmd] writes no alias but for a registered command and on behalf
    of an owner or head admin: every alias in the table after the command
    was there before, or stands for a command of the handler table and
    was created by the sender, who has the rights, in the chat of the
    command. *)
Theorem set_cmd_writes_only_known :
  forall (cfg : config) (w : world) (d0 : database) (upd : update)
         (args : option (list str)) (r : alias_row),
    In r (command_aliases (fst (set_cmd_command cfg w d0 upd args))) ->
    In r (command_aliases d0)
    \/ (mem_str (al_target_command r) (COMMAND_HANDLERS cfg) = true
        /\ exists usr,
             effective_user upd = Some usr
             /\ can_ban_mute cfg d0 (user_id usr) = true
             /\ al_created_by r = user_id usr
             /\ effective_chat upd = Some (al_chat_id r)).
Proof.
  intros cfg w d0 upd args r.
  destruct (save_user_tables w d0 upd) as (A & _).
  unfold set_cmd_command.
  destruct (effective_user upd) as [usr|];
    [|cbn [fst]; rewrite A; now left].
  destruct (upd_message upd) as [msg|];
    [|cbn [fst]; rewrite A; now left].
  destruct (effective_chat upd) as [chat|];
    [|cbn [fst]; rewrite A; now left].
  rewrite can_ban_mute_saved.
  destruct (can_ban_mute cfg d0 (user_id usr)) eqn:Hr;
    [|cbn [negb fst]; rewrite A; now left].
  cbn [negb]. destruct (too_few args 2); [cbn [fst]; rewrite A; now left|].
  destruct (mem_str _ (COMMAND_HANDLERS cfg)) eqn:Hk;
    [|cbn [negb fst]; rewrite A; now left].
  cbn [negb fst]. unfold add_command_alias.
  cbn [command_aliases with_command_aliases]. rewrite A. intros Hin.
  apply in_app_or in Hin as [Hin|[<-|[]]].
  - left. now apply filter_In in Hin.
  - right. cbn [al_target_command al_created_by al_chat_id].
    split; [exact Hk|]. exists usr. now repeat split.
Qed.

Lemma set_cmd_known_witness :
  mem_str (u "ban_s") (COMMAND_HANDLERS Scenario.cfg0) = true.
Proof.
  destruct (@set_cmd_writes_only_known Scenario.cfg0 Scenario.world0
              Scenario.staff (command_event Scenario.dana 100)
              (Some [u "Бан"; u "/BAN_S"])
              {| al_id := 1; al_chat_id := 100; al_alias_name := u "бан";
                 al_target_command := u "ban_s"; al_created_by := 7;
                 al_created_at := Scenario.clock |})
    as [[]|[H _]].
  - vm_compute. now left.
  - exact H.
Defined.

(** X25: [set_personal] splits its arguments at the first placeholder: the
    words before it, joined by single spaces and lowercased, become the
    name of the command of the chat, the placeholder and everything
    behind it the template.  The command gets the next id, which the
    handler remembers as the command media are to be attached to. *)
Theorem set_personal_registers :
  forall (cfg : config) (w : world) (d0 : database) (upd : update)
         (usr : tg_user) (msg : message) (chat : Z) (ws rest : list str)
         (ph : str),
    effective_user upd = Some usr -> upd_message upd = Some msg ->
    effective_chat upd = Some chat ->
    can_ban_mute cfg d0 (user_id usr) = true ->
    Forall (fun a => is_placeholder a = false) ws ->
    is_placeholder ph = true ->
    2 <= List.length (ws ++ ph :: rest) ->
    let r := set_personal_command cfg w d0 upd (Some (ws ++ ph :: rest)) in
    get_personal_command (fst (fst r)) chat (join_space ws)
    = Some ((seq_personal_commands d0 + 1)%Z, join_space (ph :: rest))
    /\ snd r = Some (Some (seq_personal_commands d0 + 1)%Z).
Proof.
  intros cfg w d0 upd usr msg chat ws rest ph Hu Hm Hc Hr Hws Hph Hlen r.
  destruct (@set_personal_registered cfg w d0 upd usr msg chat ws rest ph
              Hu Hm Hc Hr Hws Hph Hlen) as [Hd Hi].
  destruct (save_user_tables w d0 upd) as (_ & _ & _ & Q).
  pose proof (registered_find (save_user_from_update w d0 upd) (now w) chat
                (lower (join_space ws)) (join_space (ph :: rest))
                (user_id usr)) as F.
  rewrite lower_idem in F.
  unfold r. rewrite Hd, Hi, registered_id.
  unfold get_personal_command. rewrite lower_idem, F.
  cbn [pc_id pc_template_text]. now rewrite Q.
Qed.

Lemma set_personal_witness :
  get_personal_command
    (fst (fst (set_personal_command Scenario.cfg0 Scenario.world0
                 Scenario.staff (command_event Scenario.dana 100)
                 (Some [u "Дати"; u "копня"; u "@s1"; u "дав"; u "копня";
                        u "@s2"]))))
    100 (u "Дати копня")
  = Some (1%Z, u "@s1 дав копня @s2").
Proof.
  apply (@set_personal_registers Scenario.cfg0 Scenario.world0 Scenario.staff
           (command_event Scenario.dana 100) Scenario.dana
           {| text := None; caption := None; message_id := 77;
              reply_to_message := None |}
           100 [u "Дати"; u "копня"] [u "дав"; u "копня"; u "@s2"]
           (u "@s1")); try reflexivity.
  - repeat constructor.
  - cbn. lia.
Defined.

(** X26: [set_personal] with a placeholder as its first argument registers a
    command whose name is empty, and the empty name is a prefix of every
    text: from then on every text of the chat selects a template
    command. *)
Theorem empty_name_matches_every_text :
  forall (cfg : config) (w : world) (d0 : database) (upd : update)
         (usr : tg_user) (msg : message) (chat : Z) (ph arg : str)
         (rest : list str) (t : str),
    effective_user upd = Some usr -> upd_message upd = Some msg ->
    effective_chat upd = Some chat ->
    can_ban_mute cfg d0 (user_id usr) = true ->
    is_placeholder ph = true ->
    let r := set_personal_command cfg w d0 upd (Some (ph :: arg :: rest)) in
    get_personal_command (fst (fst r)) chat []
    = Some ((seq_personal_commands d0 + 1)%Z, join_space (ph :: arg :: rest))
    /\ exists c, select_command (fst (fst r)) chat t = Some c.
Proof.
  intros cfg w d0 upd usr msg chat ph arg rest t Hu Hm Hc Hr Hph r.
  assert (Hlen : 2 <= List.length ([] ++ ph :: arg :: rest)) by (cbn; lia).
  destruct (@set_personal_registered cfg w d0 upd usr msg chat [] (arg :: rest)
              ph Hu Hm Hc Hr (Forall_nil _) Hph Hlen) as [Hd _].
  destruct (save_user_tables w d0 upd) as (_ & _ & _ & Q).
  pose proof (registered_find (save_user_from_update w d0 upd) (now w) chat
                (lower (join_space [])) (join_space (ph :: arg :: rest))
                (user_id usr)) as F.
  change (lower (join_space [])) with (@nil N) in *.
  change (lower []) with (@nil N) in F.
  cbn [app] in Hd. fold r in Hd. rewrite <- Hd in F.
  split.
  - unfold get_personal_command. change (lower []) with (@nil N).
    rewrite F. cbn [pc_id pc_template_text]. now rewrite Q.
  - apply find_some in F as [Hin _].
    set (row := {| pc_id := _ |}) in Hin.
    assert (Hc' : In {| ci_name := pc_command_name row;
                        ci_template := pc_template_text row;
                        ci_id := pc_id row |}
                     (sort_by_words_desc
                        (get_all_personal_commands (fst (fst r)) chat))).
    { apply (Permutation_in _
               (Permutation_sym (sort_by_words_desc_perm _))).
      unfold get_all_personal_commands. apply in_map_iff.
      exists row. split; [reflexivity|].
      apply (Permutation_in _ (Permutation_sym (order_by_name_perm _))).
      apply filter_In. split; [exact Hin|]. cbn. apply Z.eqb_refl. }
    destruct (find_In_some (name_matches t) _ _ Hc') as (c & Hf & _).
    + unfold name_matches. cbn. now destruct (lower t).
    + exists c. exact Hf.
Qed.

Lemma empty_name_witness :
  exists c,
    select_command
      (fst (fst (set_personal_command Scenario.cfg0 Scenario.world0
                   Scenario.staff (command_event Scenario.dana 100)
                   (Some [u "@s1"; u "обіймає"; u "@s2"]))))
      100 (u "добрий ранок")
    = Some c.
Proof.
  apply (@empty_name_matches_every_text Scenario.cfg0 Scenario.world0
           Scenario.staff (command_event Scenario.dana 100) Scenario.dana
           {| text := None; caption := None; message_id := 77;
              reply_to_message := None |}
           100 (u "@s1") (u "обіймає") [u "@s2"] (u "добрий ранок"));
    reflexivity.
Defined.

(** X27: [del_personal] takes the command named by its arguments, joined by
    single spaces, out of the chat, in any case of the letters; the
    commands of other names and of other chats stay, and so does every
    row of the media table. *)
Theorem del_personal_unregisters :
  forall (cfg : config) (w : world) (d0 : database) (upd : update)
         (usr : tg_user) (msg : message) (chat : Z) (a : str)
         (ws : list str),
    effective_user upd = Some usr -> upd_message upd = Some msg ->
    effective_chat upd = Some chat ->
    can_ban_mute cfg d0 (user_id usr) = true ->
    let d' := fst (del_personal_command cfg w d0 upd (Some (a :: ws))) in
    (forall name, lower name = lower (join_space (a :: ws)) ->
                  get_personal_command d' chat name = None)
    /\ (forall chat' name,
          (chat', lower name) <> (chat, lower (join_space (a :: ws))) ->
          get_personal_command d' chat' name
          = get_personal_command d0 chat' name)
    /\ personal_command_media d' = personal_command_media d0.
Proof.
  intros cfg w d0 upd usr msg chat a ws Hu Hm Hc Hr d'.
  destruct (save_user_tables w d0 upd) as (_ & P & M & _).
  assert (Hd : d' = fst (delete_personal_command
                           (save_user_from_update w d0 upd) chat
                           (lower (join_space (a :: ws))))).
  { unfold d', del_personal_command.
    rewrite Hu, Hm, Hc, can_ban_mute_saved, Hr.
    rewrite (too_few_false (a :: ws) (n := 1)); [reflexivity|lia|cbn; lia]. }
  assert (Hrows : personal_commands d'
                  = filter (fun r => negb (command_key chat
                                             (lower (join_space (a :: ws))) r))
                           (personal_commands d0)).
  { rewrite Hd.
    transitivity
      (filter (fun r => negb (command_key chat
                                (lower (lower (join_space (a :: ws)))) r))
              (personal_commands (save_user_from_update w d0 upd)));
      [reflexivity|].
    now rewrite lower_idem, P. }
  split; [|split].
  - intros name Hn. unfold get_personal_command. rewrite Hrows, Hn.
    now rewrite (find_filter_out (command_key chat _)).
  - intros chat' name Hne. unfold get_personal_command. rewrite Hrows.
    rewrite find_filter_keeps; [reflexivity|].
    intros r. now apply command_key_other.
  - rewrite Hd, delete_personal_command_keeps_media. exact M.
Qed.

Lemma del_personal_witness :
  get_personal_command
    (fst (del_personal_command Scenario.cfg0 Scenario.world0
            Scenario.with_templates (command_event Scenario.dana 100)
            (Some [u "Давай"; u "лапу"])))
    100 (u "давай лапу")
  = None.
Proof.
  destruct (@del_personal_unregisters Scenario.cfg0 Scenario.world0
              Scenario.with_templates (command_event Scenario.dana 100)
              Scenario.dana
              {| text := None; caption := None; message_id := 77;
                 reply_to_message := None |}
              100 (u "Давай") [u "лапу"]
              eq_refl eq_refl eq_refl eq_refl)
    as (H & _).
  apply H. vm_compute. reflexivity.
Defined.

(** X28: After [sayoffall] from an owner or a head admin nobody has a session,
    whatever the table held; roles and blocks are as they were. *)
Theorem sayoffall_closes_every_session :
  forall (cfg : config) (w : world) (d0 : database) (upd : update)
         (usr : tg_user) (msg : message),
    effective_user upd = Some usr -> upd_message upd = Some msg ->
    can_ban_mute cfg d0 (user_id usr) = true ->
    let d' := fst (sayoffall_command cfg w d0 upd) in
    online_modes d' = []
    /\ (forall k, get_online_mode d' k = None)
    /\ roles d' = roles d0 /\ say_blocks d' = say_blocks d0.
Proof.
  intros cfg w d0 upd usr msg Hu Hm Hr d'.
  destruct (save_user_same w d0 upd) as (R & B & _).
  assert (H : online_modes d' = [] /\ roles d' = roles d0
              /\ say_blocks d' = say_blocks d0).
  { unfold d', sayoffall_command.
    rewrite Hu, Hm, can_ban_mute_saved, Hr. cbn [negb].
    destruct (joined_online_modes _) as [|x l] eqn:J; cbn [fst].
    - split; [now apply joined_online_modes_nil|now split].
    - now repeat split. }
  destruct H as (O & R' & B').
  split; [exact O|split; [|now split]].
  intros k. unfold get_online_mode. now rewrite O.
Qed.

Lemma sayoffall_witness :
  get_online_mode
    (fst (sayoffall_command Scenario.cfg0 Scenario.world0
            Scenario.dana_signed (command_event Scenario.alice 100)))
    7
  = None.
Proof.
  destruct (@sayoffall_closes_every_session Scenario.cfg0 Scenario.world0
              Scenario.dana_signed (command_event Scenario.alice 100)
              Scenario.alice
              {| text := None; caption := None; message_id := 77;
                 reply_to_message := None |}
              eq_refl eq_refl eq_refl)
    as (_ & H & _).
  apply H.
Defined.

(** X29: The session commands of one principal leave the session of every
    other principal as it was. *)
Theorem session_commands_touch_only_sender :
  forall (cfg : config) (w : world) (d0 : database) (upd : update) (k : Z),
    (forall usr, effective_user upd = Some usr -> user_id usr <> k) ->
    get_online_mode (fst (sayon_command cfg w d0 upd)) k
    = get_online_mode d0 k
    /\ get_online_mode (fst (sayson_command cfg w d0 upd)) k
       = get_online_mode d0 k
    /\ get_online_mode (fst (sayoff_command cfg w d0 upd)) k
       = get_online_mode d0 k.
Proof.
  intros cfg w d0 upd k H.
  assert (Hoff : get_online_mode (fst (sayoff_command cfg w d0 upd)) k
                 = get_online_mode d0 k).
  { unfold sayoff_command.
    destruct (effective_user upd) as [usr|] eqn:Hu;
      [|apply get_online_mode_saved].
    destruct (upd_message upd) as [msg|]; [|apply get_online_mode_saved].
    destruct (negb (can_use_bot _ _ _)); [apply get_online_mode_saved|].
    destruct (negb (opt_truthy _)); [apply get_online_mode_saved|].
    cbn [fst]. rewrite get_online_mode_remove_other.
    - apply get_online_mode_saved.
    - intros E. now apply (H usr eq_refl). }
  destruct (effective_user upd) as [usr|] eqn:Hu;
    [destruct (upd_message upd) as [msg|] eqn:Hm|].
  - rewrite (sayon_command_store cfg w d0 upd Hu Hm),
      (sayson_command_store cfg w d0 upd Hu Hm).
    assert (Hk : k <> user_id usr)
      by (intros E; now apply (H usr eq_refl)).
    repeat split; [apply toggle_store_others| apply toggle_store_others|];
      assumption.
  - unfold sayon_command, sayson_command. rewrite Hu, Hm. cbn [fst].
    repeat split; [apply get_online_mode_saved..|exact Hoff].
  - unfold sayon_command, sayson_command. rewrite Hu. cbn [fst].
    repeat split; [apply get_online_mode_saved..|exact Hoff].
Qed.

Lemma session_commands_witness :
  get_online_mode
    (fst (sayoff_command Scenario.cfg0 Scenario.world0 Scenario.dana_signed
            (command_event Scenario.alice 600)))
    7
  = Some sayon.
Proof.
  destruct (@session_commands_touch_only_sender Scenario.cfg0 Scenario.world0
              Scenario.dana_signed (command_event Scenario.alice 600) 7)
    as (_ & _ & H).
  - intros usr Hu. injection Hu as <-. vm_compute. discriminate.
  - rewrite H. vm_compute. reflexivity.
Defined.

(** X30: [sayoff] closes the session of a sender who may use the bot, of
    either mode, also when the sender has been blocked from opening
    one. *)
Theorem sayoff_closes_own_session :
  forall (cfg : config) (w : world) (d0 : database) (upd : update)
         (usr : tg_user) (msg : message) (m : str),
    effective_user upd = Some usr -> upd_message upd = Some msg ->
    can_use_bot cfg d0 (user_id usr) = true ->
    get_online_mode d0 (user_id usr) = Some m -> m <> [] ->
    let r := sayoff_command cfg w d0 upd in
    get_online_mode (fst r) (user_id usr) = None
    /\ hd_error (snd r) = Some (ReplyAndDelete (u "✅ Режим вимкнено")).
Proof.
  intros cfg w d0 upd usr msg m Hu Hm Hr Hs Hne r.
  unfold r, sayoff_command.
  rewrite Hu, Hm, can_use_bot_saved, Hr, get_online_mode_saved, Hs.
  destruct m as [|c m]; [contradiction|]. cbn [negb opt_truthy truthy fst snd].
  split; [apply get_online_mode_remove|reflexivity].
Qed.

Lemma sayoff_witness :
  get_online_mode
    (fst (sayoff_command Scenario.cfg0 Scenario.world0 Scenario.dana_signed
            (command_event Scenario.dana 100)))
    7
  = None.
Proof.
  apply (@sayoff_closes_own_session Scenario.cfg0 Scenario.world0
           Scenario.dana_signed (command_event Scenario.dana 100)
           Scenario.dana
           {| text := None; caption := None; message_id := 77;
              reply_to_message := None |}
           sayon); try reflexivity.
  vm_compute. discriminate.
Defined.
